(** * reddit_crawler: a shallow embedding of [src/crawler.py] and [src/main.py]

    The two Python files wrap the PRAW client: they fetch a user's profile,
    recent posts and comments, derive the communities the user is active in,
    and (in [crawler.py]) persist each result as a JSON document.

    Layout of this development:
    - [Py]: the fragment of the Python runtime the code relies on (exceptions,
      [try]/[except Exception], [dict], [set], [sorted], [json], [datetime],
      the environment, the files, the clock and the standard output);
    - [Praw]: what the wrapped client can answer (values or exceptions);
    - [crawler] and [main]: the methods of [RedditCrawler] in the two files,
      statement by statement;
    - [Spec]: the words of the specification;
    - [Sample]: a small account and a few worlds to run the methods on;
    - then the facts about the runtime and the properties of the
      specification, proved on these definitions. *)

From Stdlib Require Import Floats.PrimFloat.
From Stdlib Require Import ZArith Ascii.
From stdpp Require Import gmap strings list sorting pretty.

Set Warnings "-register-all,-clear-no-such-hyp,-abstract-large-number".


(* ===================================================================== *)
(** * The Python runtime                                                  *)
(* ===================================================================== *)

Module Py.

(** ** Strings

    A [str] is a [string]; every [ascii] stands for one character, [len] is
    [String.length] and [<=] on [str] is the lexicographic order on character
    codes, [String.le]. *)

(** [s[:n]] *)
Fixpoint slice_to (n : nat) (s : string) : string :=
  match n, s with
  | S n', String c s' => String c (slice_to n' s')
  | _, _ => ""
  end.

(** [len(s)], a Python [int]. *)
Definition len_str (s : string) : Z := Z.of_nat (String.length s).

(** [len(l)] *)
Definition len {A} (l : list A) : Z := Z.of_nat (length l).

(** ** Exceptions

    The classes that matter to the two files.  The first three are the
    client's failures (prawcore): no answer from the network, a refused
    request, an unknown name.  [KeyboardInterrupt] derives from
    [BaseException] only, so [except Exception] lets it through. *)

Inductive pyexn : Type :=
  | RequestException (msg : string)
  | Forbidden (msg : string)
  | NotFound (msg : string)
  | OSError (msg : string)
  | JSONDecodeError (msg : string)
  | TypeError (msg : string)
  | KeyError (key : string)
  | ValueError (msg : string)
  | KeyboardInterrupt.

(** [isinstance(e, Exception)] *)
Definition is_Exception (e : pyexn) : bool :=
  match e with
  | KeyboardInterrupt => false
  | _ => true
  end.

(** [str(e)], what an f-string prints for [{e}]. *)
Definition str_exn (e : pyexn) : string :=
  match e with
  | RequestException m | Forbidden m | NotFound m | OSError m
  | JSONDecodeError m | TypeError m | ValueError m => m
  | KeyError k => "'" +:+ k +:+ "'"
  | KeyboardInterrupt => ""
  end.

(** The three kinds of fetch failure the specification names. *)
Inductive fetch_failure : pyexn → Prop :=
  | network_failure m : fetch_failure (RequestException m)
  | authorization_failure m : fetch_failure (Forbidden m)
  | not_found_failure m : fetch_failure (NotFound m).

(** ** Values

    What the code stores in dictionaries and hands to [json.dump].  A
    dictionary is the list of its items in insertion order, with string keys
    (the only keys the two files use).  [VObject] is any other object, kept
    as the text [str] gives for it. *)

Inductive value : Type :=
  | VNone
  | VBool (b : bool)
  | VInt (n : Z)
  | VFloat (x : float)
  | VStr (s : string)
  | VList (l : list value)
  | VDict (d : list (string * value))
  | VObject (repr : string).

(** Induction on values that reaches the items of lists and dictionaries. *)
Section value_induction.
Variable P : value → Prop.
Hypothesis HNone : P VNone.
Hypothesis HBool : ∀ b, P (VBool b).
Hypothesis HInt : ∀ n, P (VInt n).
Hypothesis HFloat : ∀ x, P (VFloat x).
Hypothesis HStr : ∀ s, P (VStr s).
Hypothesis HList : ∀ l, Forall P l → P (VList l).
Hypothesis HDict : ∀ d, Forall (λ kv, P kv.2) d → P (VDict d).
Hypothesis HObject : ∀ repr, P (VObject repr).

Fixpoint value_nested_ind (v : value) : P v :=
  match v with
  | VNone => HNone
  | VBool b => HBool b
  | VInt n => HInt n
  | VFloat x => HFloat x
  | VStr s => HStr s
  | VList l =>
      HList l ((fix items (l : list value) : Forall P l :=
                  match l with
                  | [] => @List.Forall_nil _ P
                  | x :: l' => @List.Forall_cons _ P x l' (value_nested_ind x) (items l')
                  end) l)
  | VDict d =>
      HDict d ((fix items (d : list (string * value)) : Forall (λ kv, P kv.2) d :=
                  match d with
                  | [] => @List.Forall_nil _ (λ kv, P kv.2)
                  | (k, x) :: d' =>
                      @List.Forall_cons _ (λ kv, P kv.2) (k, x) d'
                        (value_nested_ind x) (items d')
                  end) d)
  | VObject repr => HObject repr
  end.
End value_induction.

(** ** [dict]

    [pydict V] is a dictionary with string keys: its items in insertion
    order.  All operations keep the keys distinct. *)

Abbreviation pydict V := (list (string * V)).

(** [d.get(k)] *)
Fixpoint dict_get {V} (k : string) (d : pydict V) : option V :=
  match d with
  | [] => None
  | (k', v) :: d' => if decide (k = k') then Some v else dict_get k d'
  end.

(** [k in d] *)
Definition dict_in {V} (k : string) (d : pydict V) : bool :=
  match dict_get k d with Some _ => true | None => false end.

(** [d[k] = v]: replaces the value of an existing key where it stands,
    appends a new key. *)
Fixpoint dict_set {V} (k : string) (v : V) (d : pydict V) : pydict V :=
  match d with
  | [] => [(k, v)]
  | (k', v') :: d' =>
      if decide (k = k') then (k, v) :: d' else (k', v') :: dict_set k v d'
  end.

(** [dict(items)] and [d.update(items)]: the items are set one by one. *)
Definition dict_update {V} (d : pydict V) (items : list (string * V)) : pydict V :=
  foldl (λ acc kv, dict_set kv.1 kv.2 acc) d items.

(** Truth value of an object, as tested by [not x] and [if x]. *)
Definition truthy (v : value) : bool :=
  match v with
  | VNone => false
  | VBool b => b
  | VInt n => negb (n =? 0)%Z
  | VFloat x => negb (PrimFloat.eqb x PrimFloat.zero)
  | VStr s => negb (bool_decide (s = ""))
  | VList l => negb (bool_decide (l = []))
  | VDict d => negb (bool_decide (d.*1 = []))
  | VObject _ => true
  end.

(** ** [sorted] on strings

    [sorted] is a stable merge sort driven by [<]; on [str] the order is
    total, so the outcome is the ascending rearrangement of the input. *)
Definition sorted (l : list string) : list string := merge_sort String.le l.

(** [list(s)] for a set [s]: its elements in the table's order. *)
Definition list_of_set (s : gset string) : list string := elements s.

(** ** [json]

    A JSON document, as [json.dump] writes it and [json.load] reads it.  The
    text of the document (indentation, escapes) belongs to the [json] module
    and is not modelled: a file holds the document itself. *)

Inductive json : Type :=
  | JNull
  | JBool (b : bool)
  | JInt (n : Z)
  | JFloat (x : float)
  | JString (s : string)
  | JArray (l : list json)
  | JObject (members : list (string * json)).

(** The encoder of [json.dump(obj, f, ..., default=str)]: the types of the
    encoder's table are written as such, any other object as [str(obj)]. *)
Fixpoint json_encode (v : value) : json :=
  match v with
  | VNone => JNull
  | VBool b => JBool b
  | VInt n => JInt n
  | VFloat x => JFloat x
  | VStr s => JString s
  | VList l => JArray (map json_encode l)
  | VDict d => JObject (map (λ kv, let '(k, x) := kv in (k, json_encode x)) d)
  | VObject repr => JString repr
  end.

(** The objects the encoder's table covers without a [default] hook. *)
Fixpoint json_native (v : value) : bool :=
  match v with
  | VList l => forallb json_native l
  | VDict d => forallb (λ kv, let '(_, x) := kv in json_native x) d
  | VObject _ => false
  | _ => true
  end.

(** The decoder of [json.load(f)]: an object becomes the [dict] of its
    members, set one by one. *)
Fixpoint json_decode (j : json) : value :=
  match j with
  | JNull => VNone
  | JBool b => VBool b
  | JInt n => VInt n
  | JFloat x => VFloat x
  | JString s => VStr s
  | JArray l => VList (map json_decode l)
  | JObject members =>
      VDict (dict_update [] (map (λ kv, let '(k, x) := kv in (k, json_decode x)) members))
  end.

(** The representation invariant of dictionaries: no key occurs twice. *)
Fixpoint dicts_ok (v : value) : Prop :=
  match v with
  | VList l => foldr (λ x P, dicts_ok x ∧ P) True l
  | VDict d => NoDup d.*1 ∧ foldr (λ kv P, dicts_ok kv.2 ∧ P) True d
  | _ => True
  end.

(** ** [datetime]

    A naive [datetime], as [datetime.now()] returns it. *)

Local Open Scope N_scope.

Record datetime : Type := Datetime {
  year : N; month : N; day : N;
  hour : N; minute : N; second : N; microsecond : N
}.

Definition is_leap (y : N) : bool :=
  ((y mod 4 =? 0) && negb (y mod 100 =? 0)) || (y mod 400 =? 0).

Definition days_in_month (y m : N) : N :=
  match m with
  | 2 => if is_leap y then 29 else 28
  | 4 | 6 | 9 | 11 => 30
  | _ => 31
  end.

(** The ranges the [datetime] constructor enforces. *)
Definition valid_datetime (d : datetime) : bool :=
  (1 <=? year d) && (year d <=? 9999) &&
  (1 <=? month d) && (month d <=? 12) &&
  (1 <=? day d) && (day d <=? days_in_month (year d) (month d)) &&
  (hour d <? 24) && (minute d <? 60) && (second d <? 60) &&
  (microsecond d <? 1000000).

Definition digit_char (d : N) : Ascii.ascii := Ascii.ascii_of_N (48 + d).

(** The value of a decimal digit character. *)
Definition digit_value (c : Ascii.ascii) : option N :=
  let n := Ascii.N_of_ascii c in
  if (48 <=? n) && (n <=? 57) then Some (n - 48) else None.

(** ["%0{width}d" % n], for [n < 10 ^ width]. *)
Fixpoint zero_pad (width : nat) (n : N) : string :=
  match width with
  | O => ""
  | S w => String (digit_char (n / 10 ^ N.of_nat w)) (zero_pad w (n mod 10 ^ N.of_nat w))
  end.

(** [d.isoformat()]: [YYYY-MM-DDTHH:MM:SS], followed by [.ffffff] when the
    microseconds are not zero. *)
Definition isoformat (d : datetime) : string :=
  zero_pad 4 (year d) +:+ "-" +:+ zero_pad 2 (month d) +:+ "-" +:+
  zero_pad 2 (day d) +:+ "T" +:+ zero_pad 2 (hour d) +:+ ":" +:+
  zero_pad 2 (minute d) +:+ ":" +:+ zero_pad 2 (second d) +:+
  (if microsecond d =? 0 then "" else "." +:+ zero_pad 6 (microsecond d)).

(** Reading [width] decimal digits off the front of a string. *)
Fixpoint read_digits (width : nat) (acc : N) (s : string) : option (N * string) :=
  match width with
  | O => Some (acc, s)
  | S w =>
      match s with
      | String c s' =>
          match digit_value c with
          | Some d => read_digits w (10 * acc + d) s'
          | None => None
          end
      | "" => None
      end
  end.

(** Reading one given character. *)
Definition read_char (c : Ascii.ascii) (s : string) : option string :=
  match s with
  | String c' s' => if decide (c = c') then Some s' else None
  | "" => None
  end.

(** The optional [.ffffff] at the end. *)
Definition read_fraction (s : string) : option (N * string) :=
  match s with
  | "" => Some (0, "")
  | _ => read_char "."%char s ≫= read_digits 6 0
  end.

(** [datetime.fromisoformat(s)] on the two layouts [isoformat] produces for
    a naive [datetime]; [None] stands for its [ValueError]. *)
Definition fromisoformat (s : string) : option datetime :=
  '(y, s) ← read_digits 4 0 s; s ← read_char "-"%char s;
  '(mo, s) ← read_digits 2 0 s; s ← read_char "-"%char s;
  '(dd, s) ← read_digits 2 0 s; s ← read_char "T"%char s;
  '(h, s) ← read_digits 2 0 s; s ← read_char ":"%char s;
  '(mi, s) ← read_digits 2 0 s; s ← read_char ":"%char s;
  '(sec, s) ← read_digits 2 0 s;
  '(us, s) ← read_fraction s;
  let d := Datetime y mo dd h mi sec us in
  if bool_decide (s = "") && valid_datetime d then Some d else None.

(** The characters of an ISO-8601 calendar date and time of day in extended
    format: [D] is a decimal digit, [C c] the character [c]. *)
Inductive shape : Type := D | C (c : Ascii.ascii).

Fixpoint has_shape (p : list shape) (s : string) : bool :=
  match p, s with
  | [], "" => true
  | D :: p', String c s' =>
      match digit_value c with Some _ => has_shape p' s' | None => false end
  | C c :: p', String c' s' => bool_decide (c = c') && has_shape p' s'
  | _, _ => false
  end.

Definition iso_seconds : list shape :=
  [D; D; D; D; C "-"; D; D; C "-"; D; D; C "T"; D; D; C ":"; D; D; C ":"; D; D]%char.

Definition is_iso8601 (s : string) : bool :=
  has_shape iso_seconds s || has_shape (iso_seconds ++ [C "."%char; D; D; D; D; D; D]) s.

Local Close Scope N_scope.

(** ** Effects

    What a method can touch besides its arguments: the process environment,
    the files, the clock, the time slept and the standard output. *)

Inductive fcontent : Type :=
  | JsonText (doc : json)        (* the text of a JSON document *)
  | OtherText (text : string).   (* text [json.load] rejects *)

Inductive open_mode : Type := Reading | Writing.

Record world : Type := World {
  environ : gmap string string;
  files : gmap string fcontent;
  (** the message of the [OSError] that [open(path, mode)] meets, if any
      (missing directory, permissions) *)
  open_error : string → open_mode → option string;
  (** the successive readings of the clock: local time and POSIX time *)
  clock : nat → datetime * float;
  ticks : nat;
  (** number of [time.sleep(0.1)] calls so far *)
  naps : nat;
  stdout : list string
}.

Definition set_files (f : gmap string fcontent → gmap string fcontent) (w : world) : world :=
  World (environ w) (f (files w)) (open_error w) (clock w) (ticks w) (naps w) (stdout w).
Definition set_ticks (f : nat → nat) (w : world) : world :=
  World (environ w) (files w) (open_error w) (clock w) (f (ticks w)) (naps w) (stdout w).
Definition set_naps (f : nat → nat) (w : world) : world :=
  World (environ w) (files w) (open_error w) (clock w) (ticks w) (f (naps w)) (stdout w).
Definition set_stdout (f : list string → list string) (w : world) : world :=
  World (environ w) (files w) (open_error w) (clock w) (ticks w) (naps w) (f (stdout w)).

(** How a call ends: it returns a value or an exception leaves it. *)
Inductive outcome (A : Type) : Type :=
  | Return (a : A)
  | Raise (e : pyexn).
Global Arguments Return {A} a.
Global Arguments Raise {A} e.

Global Instance outcome_ret : MRet outcome := λ A a, Return a.
Global Instance outcome_bind : MBind outcome := λ A B k m,
  match m with
  | Return a => k a
  | Raise e => Raise e
  end.

(** A computation with effects: the effects made before an exception stay. *)
Definition py (A : Type) : Type := world → outcome A * world.

Global Instance py_ret : MRet py := λ A a w, (Return a, w).
Global Instance py_bind : MBind py := λ A B k m w,
  match m w with
  | (Return a, w') => k a w'
  | (Raise e, w') => (Raise e, w')
  end.

(** [raise e] *)
Definition raise {A} (e : pyexn) : py A := λ w, (Raise e, w).

(** An outcome computed without effects. *)
Definition lift {A} (o : outcome A) : py A := λ w, (o, w).

(** [try: body / except Exception as e: handler e] *)
Definition try_except {A} (body : py A) (handler : pyexn → py A) : py A := λ w,
  match body w with
  | (Raise e, w') => if is_Exception e then handler e w' else (Raise e, w')
  | r => r
  end.

(** [for x in xs: body], threading the local variables [s] the body assigns. *)
Fixpoint for_in {M : Type → Type} `{MRet M, MBind M} {A S : Type}
    (xs : list A) (body : A → S → M S) (s : S) : M S :=
  match xs with
  | [] => mret s
  | x :: xs' => s' ← body x s; for_in xs' body s'
  end.

(** [d[k]] *)
Definition dict_item {V} (k : string) (d : pydict V) : outcome V :=
  match dict_get k d with
  | Some v => Return v
  | None => Raise (KeyError k)
  end.

(** [print(s)] *)
Definition print (s : string) : py unit := λ w,
  (Return (), set_stdout (λ out, out ++ [s]) w).

(** [time.sleep(0.1)] *)
Definition sleep_tenth : py unit := λ w, (Return (), set_naps S w).

(** [datetime.now()], with the POSIX time [.timestamp()] gives for it. *)
Definition datetime_now : py (datetime * float) := λ w,
  (Return (clock w (ticks w)), set_ticks S w).

(** [os.getenv(key, default)] *)
Definition getenv (key : string) (default : value) : py value := λ w,
  (Return (from_option VStr default (environ w !! key)), w).

(** [Path(path).exists()] *)
Definition path_exists (path : string) : py bool := λ w,
  (Return (bool_decide (is_Some (files w !! path))), w).

(** [with open(path, "r") as f: json.load(f)] *)
Definition read_json (path : string) : py value := λ w,
  match open_error w path Reading with
  | Some msg => (Raise (OSError msg), w)
  | None =>
      match files w !! path with
      | None => (Raise (OSError ("no such file: " +:+ path)), w)
      | Some (JsonText doc) => (Return (json_decode doc), w)
      | Some (OtherText _) => (Raise (JSONDecodeError "expecting value"), w)
      end
  end.

(** [with open(path, "w") as f: json.dump(obj, f, indent=2)], and the same
    with [default=str]: without the hook an object outside the encoder's
    table is a [TypeError], which leaves the opened file without a document. *)
Definition write_json (path : string) (obj : value) (default_str : bool) : py unit := λ w,
  match open_error w path Writing with
  | Some msg => (Raise (OSError msg), w)
  | None =>
      if default_str || json_native obj
      then (Return (), set_files (insert path (JsonText (json_encode obj))) w)
      else (Raise (TypeError "object is not JSON serializable"),
            set_files (insert path (OtherText "")) w)
  end.

(** ** [pathlib]

    Paths of the POSIX flavour.  A path is kept as its root and its
    components; [str] puts them together again, so that [Path("out/")],
    [Path("./out")] and [Path("out")] all print as [out]. *)

(** [s.split("/")] *)
Fixpoint split_slash (s : string) : list string :=
  match s with
  | "" => [""]
  | String c s' =>
      if Ascii.eqb c "/" then "" :: split_slash s'
      else
        match split_slash s' with
        | component :: components => String c component :: components
        | [] => [String c ""]
        end
  end.

(** The root of a path: exactly two leading slashes are kept, any other
    number of them counts as one. *)
Definition path_root (s : string) : string :=
  match s with
  | String "/" (String "/" (String "/" _)) => "/"
  | String "/" (String "/" _) => "//"
  | String "/" _ => "/"
  | _ => ""
  end.

(** The components of a path: empty ones and [.] are dropped, [..] stays. *)
Definition path_parts (s : string) : list string :=
  filter (λ component, component ≠ "" ∧ component ≠ ".") (split_slash s).

(** ["/".join(parts)] *)
Fixpoint join_slash (parts : list string) : string :=
  match parts with
  | [] => ""
  | [component] => component
  | component :: components => component +:+ "/" +:+ join_slash components
  end.

(** [str] of the path with root [root] and components [parts]. *)
Definition path_format (root : string) (parts : list string) : string :=
  let formatted := root +:+ join_slash parts in
  if decide (formatted = "") then "." else formatted.

(** [str(Path(a))] *)
Definition path_str (a : string) : string := path_format (path_root a) (path_parts a).

(** [str(Path(a) / b)]: a rooted [b] replaces [a]. *)
Definition path_join (a b : string) : string :=
  if decide (path_root b = "")
  then path_format (path_root a) (path_parts a ++ path_parts b)
  else path_format (path_root b) (path_parts b).

End Py.

(* ===================================================================== *)
(** * The wrapped client                                                  *)
(* ===================================================================== *)

(** What PRAW hands to the two files.  The answers of the platform are the
    fields of [Reddit]: a profile or a listing, or the exception the request
    ends in. *)
Module Praw.
Import Py.

(** A lazy listing: iterating it yields [items] and then stops, or raises
    [failure] after them. *)
Record listing (A : Type) : Type := Listing {
  items : list A;
  failure : option pyexn
}.
Global Arguments Listing {A} items failure.
Global Arguments items {A} l.
Global Arguments failure {A} l.

(** [listing(limit=n)]: at most [n] items are asked for; [None] asks for all. *)
Definition limited {A} (limit : option Z) (l : listing A) : listing A :=
  match limit with
  | None => l
  | Some n =>
      if decide (Z.to_nat n ≤ length (items l))
      then Listing (take (Z.to_nat n) (items l)) None
      else l
  end.

(** [for x in listing: body] *)
Definition for_listing {A S} (l : listing A) (body : A → S → py S) (s : S) : py S :=
  s' ← for_in (items l) body s;
  match failure l with
  | Some e => raise e
  | None => mret s'
  end.

Record Redditor : Type := {
  redditor_name : string;
  redditor_created_utc : float;
  redditor_comment_karma : Z;
  redditor_link_karma : Z;
  (** [None]: the object has no such attribute *)
  redditor_verified : option bool;
  redditor_is_gold : option bool
}.

Record Submission : Type := {
  submission_title : string;
  submission_subreddit : string;      (* [submission.subreddit.display_name] *)
  submission_created_utc : float;
  submission_score : Z;
  submission_permalink : string;
  submission_num_comments : Z
}.

Record Comment : Type := {
  comment_body : string;
  comment_subreddit : string;         (* [comment.subreddit.display_name] *)
  comment_created_utc : float;
  comment_score : Z;
  comment_submission_title : string   (* [comment.submission.title] *)
}.

Record Subreddit : Type := {
  subreddit_display_name : string;
  subreddit_title : string;
  subreddit_subscribers : Z;
  subreddit_created_utc : float;
  subreddit_public_description : option string
}.

Record Friend : Type := {
  friend_name : string;
  friend_date : float
}.

Record Reddit : Type := {
  (** [reddit.redditor(name)], once its attributes are fetched *)
  redditor : string → outcome Redditor;
  (** [reddit.redditor(name).submissions.new()] *)
  submissions_new : string → listing Submission;
  (** [reddit.redditor(name).comments.new()] *)
  comments_new : string → listing Comment;
  (** [reddit.user.subreddits()] *)
  user_subreddits : listing Subreddit;
  (** [reddit.user.friends()] *)
  user_friends : listing Friend
}.

End Praw.

(* ===================================================================== *)
(** * src/crawler.py                                                      *)
(* ===================================================================== *)

Module crawler.
Import Py Praw.

(** The attributes of a [RedditCrawler]. *)
Record RedditCrawler : Type := {
  output_dir : string;
  reddit : Reddit
}.

(** An item of [recent_posts]. *)
Record post : Type := {
  post_title : string;
  post_subreddit : string;
  post_created_utc : float;
  post_score : Z;
  post_url : string;
  post_num_comments : Z
}.

(** An item of [recent_comments]. *)
Record comment : Type := {
  comment_body : string;
  comment_subreddit : string;
  comment_created_utc : float;
  comment_score : Z;
  comment_submission_title : string
}.

(** What [get_user_recent_activity] returns. *)
Record activity : Type := {
  recent_posts : list post;
  recent_comments : list comment
}.

(** An entry of [subreddit_activity]: [{"posts": p, "comments": c}]. *)
Record counts : Type := Counts {
  posts : Z;
  comments : Z
}.

Definition post_value (p : post) : value :=
  VDict [("title", VStr (post_title p)); ("subreddit", VStr (post_subreddit p));
         ("created_utc", VFloat (post_created_utc p)); ("score", VInt (post_score p));
         ("url", VStr (post_url p)); ("num_comments", VInt (post_num_comments p))].

Definition comment_value (c : comment) : value :=
  VDict [("body", VStr (comment_body c)); ("subreddit", VStr (comment_subreddit c));
         ("created_utc", VFloat (comment_created_utc c)); ("score", VInt (comment_score c));
         ("submission_title", VStr (comment_submission_title c))].

Definition counts_value (c : counts) : value :=
  VDict [("posts", VInt (posts c)); ("comments", VInt (comments c))].

(** Lines 85-103. *)
Definition _create_secrets_template : py unit :=
  let secrets_template :=
    VDict [("client_id", VStr "your_reddit_client_id_here");
           ("client_secret", VStr "your_reddit_client_secret_here");
           ("user_agent", VStr "RedditCrawler/1.0 by YourUsername");
           ("username", VStr "your_reddit_username_optional");
           ("password", VStr "your_reddit_password_optional")] in
  let secrets_file := "secrets.json" in
  there ← path_exists secrets_file;
  if negb there then
    write_json secrets_file secrets_template false;;
    print "created template secrets.json file. please update it with your credentials."
  else mret ().

(** ** [credentials.update(file_credentials)]

    [update] takes a mapping, or any sequence whose elements are sequences
    of two objects, a key and a value.  The dictionary is updated in place,
    element by element: when an element is refused, what the elements before
    it have set stays.  Here a dictionary is the list of its items under
    string keys; an item [update] sets under another hashable key ([None], a
    number) is not looked up by any statement of the file and is left out. *)

(** The characters of [s], as [iter(s)] yields them. *)
Definition characters (s : string) : list value :=
  (λ c, VStr (String c "")) <$> String.list_ascii_of_string s.

(** The objects [element] yields when [update] takes it as a sequence, or
    the [TypeError] of an element that is no sequence. *)
Definition as_sequence (index : nat) (element : value) : outcome (list value) :=
  match element with
  | VList l => Return l
  | VStr s => Return (characters s)
  | VDict d => Return (VStr <$> d.*1)
  | _ =>
      Raise (TypeError ("cannot convert dictionary update sequence element #" +:+
                        pretty index +:+ " to a sequence"))
  end.

(** What the element at position [index] does to the dictionary: it sets
    an item under a string key ([Some]) or under another hashable key
    ([None]), or it ends the update with an exception. *)
Definition update_item (index : nat) (element : value)
    : outcome (option (string * value)) :=
  sequence ← as_sequence index element;
  match sequence with
  | [key; item] =>
      match key with
      | VStr k => Return (Some (k, item))
      | VList _ => Raise (TypeError "unhashable type: 'list'")
      | VDict _ => Raise (TypeError "unhashable type: 'dict'")
      | _ => Return None
      end
  | _ =>
      Raise (ValueError ("dictionary update sequence element #" +:+ pretty index +:+
                         " has length " +:+ pretty (length sequence) +:+
                         "; 2 is required"))
  end.

(** [update] over the elements from position [index] on: the dictionary it
    leaves and the exception that ended it, if any. *)
Fixpoint update_from (credentials : pydict value) (index : nat) (elements : list value)
    : pydict value * option pyexn :=
  match elements with
  | [] => (credentials, None)
  | element :: elements' =>
      match update_item index element with
      | Return (Some (k, item)) => update_from (dict_set k item credentials) (S index) elements'
      | Return None => update_from credentials (S index) elements'
      | Raise e => (credentials, Some e)
      end
  end.

(** [credentials.update(file_credentials)] for a document [json.load] has
    read: the dictionary after the call and the exception that ended it, if
    any. *)
Definition credentials_update (credentials : pydict value) (file_credentials : value)
    : pydict value * option pyexn :=
  match file_credentials with
  | VDict items => (dict_update credentials items, None)
  | VList elements => update_from credentials 0 elements
  | VStr s => update_from credentials 0 (characters s)
  | VNone => (credentials, Some (TypeError "'NoneType' object is not iterable"))
  | VBool _ => (credentials, Some (TypeError "'bool' object is not iterable"))
  | VInt _ => (credentials, Some (TypeError "'int' object is not iterable"))
  | VFloat _ => (credentials, Some (TypeError "'float' object is not iterable"))
  | VObject _ => (credentials, Some (TypeError "object is not iterable"))
  end.

(** Lines 49-83.  In the [try] block [credentials] is updated in place, so
    the handler and the validation meet it as [update] left it; the exception
    of [update], an [Exception], reaches the same handler as those of [open]
    and [json.load]. *)
Definition _load_credentials : py (pydict value) :=
  client_id ← getenv "REDDIT_CLIENT_ID" VNone;
  client_secret ← getenv "REDDIT_CLIENT_SECRET" VNone;
  user_agent ← getenv "REDDIT_USER_AGENT" (VStr "RedditCrawler/1.0");
  username ← getenv "REDDIT_USERNAME" VNone;
  password ← getenv "REDDIT_PASSWORD" VNone;
  let credentials : pydict value :=
    [("client_id", client_id); ("client_secret", client_secret);
     ("user_agent", user_agent); ("username", username); ("password", password)] in
  let secrets_file := "secrets.json" in
  id ← lift (dict_item "client_id" credentials);
  there ← path_exists secrets_file;
  credentials ←
    (if negb (truthy id) && there then
       '(credentials, failure) ←
         try_except
           (file_credentials ← read_json secrets_file;
            mret (credentials_update credentials file_credentials))
           (λ e, mret (credentials, Some e));
       match failure with
       | None => print "loaded credentials from secrets.json"
       | Some e => print ("error loading secrets.json: " +:+ str_exn e)
       end;;
       mret credentials
     else mret credentials);
  id ← lift (dict_item "client_id" credentials);
  secret ← lift (dict_item "client_secret" credentials);
  if negb (truthy id) || negb (truthy secret) then
    _create_secrets_template;;
    raise (ValueError
      "reddit credentials not found. please set environment variables or create secrets.json file.")
  else mret credentials.

(** Lines 23-47.  The directories are not part of the model of the files and
    the client is built by the wrapped library: [mkdir] is how
    [self.output_dir.mkdir(exist_ok=True)] ends, and [praw_Reddit] answers the
    call [praw.Reddit(...)] with a client or with an exception. *)
Definition __init__ (output_dir : string) (mkdir : outcome unit)
    (praw_Reddit : value → value → value → value → value → outcome Reddit)
    : py RedditCrawler :=
  lift mkdir;;
  credentials ← _load_credentials;
  client_id ← lift (dict_item "client_id" credentials);
  client_secret ← lift (dict_item "client_secret" credentials);
  user_agent ← lift (dict_item "user_agent" credentials);
  let username := default VNone (dict_get "username" credentials) in
  let password := default VNone (dict_get "password" credentials) in
  client ← lift (praw_Reddit client_id client_secret user_agent username password);
  print ("initialized reddit crawler. data will be saved to: " +:+ path_str output_dir);;
  mret {| output_dir := output_dir; reddit := client |}.

(** Lines 105-127. *)
Definition _save_to_json (self : RedditCrawler) (data : value) (filename : string)
    : py unit :=
  let filepath := path_join (output_dir self) (filename +:+ ".json") in
  '(now, _) ← datetime_now;
  let output_data :=
    VDict [("timestamp", VStr (isoformat now));
           ("data_type", VStr filename);
           ("data", data)] in
  try_except
    (write_json filepath output_data true;;
     print ("saved " +:+ filename +:+ " data to: " +:+ filepath))
    (λ e, print ("error saving " +:+ filename +:+ ": " +:+ str_exn e)).

(** [x if hasattr(user, attr) else None] *)
Definition optional_bool (attr : option bool) : value :=
  match attr with
  | Some b => VBool b
  | None => VNone
  end.

(** The dictionary [user_info] of lines 144-153; [posix_now] is
    [datetime.now().timestamp()]. *)
Definition user_info_value (user : Redditor) (posix_now : float) : value :=
  VDict [("username", VStr (redditor_name user));
         ("created_utc", VFloat (redditor_created_utc user));
         ("comment_karma", VInt (redditor_comment_karma user));
         ("link_karma", VInt (redditor_link_karma user));
         ("is_verified", optional_bool (redditor_verified user));
         ("has_premium", optional_bool (redditor_is_gold user));
         ("account_age_days",
          VFloat (PrimFloat.div (PrimFloat.sub posix_now (redditor_created_utc user))
                                86400%float))].

(** Lines 129-162. *)
Definition get_user_public_info (self : RedditCrawler) (username : string) : py value :=
  try_except
    (user ← lift (redditor (reddit self) username);
     '(_, posix_now) ← datetime_now;
     let user_info := user_info_value user posix_now in
     _save_to_json self user_info ("user_public_info_" +:+ username);;
     mret user_info)
    (λ e, print ("error fetching user info for " +:+ username +:+ ": " +:+ str_exn e);;
          mret (VDict [])).

(** The stored [body] of a comment, lines 202-206. *)
Definition truncate_body (body : string) : string :=
  if (len_str body >? 200)%Z then slice_to 200 body +:+ "..." else body.

(** The item appended for a submission, lines 186-193. *)
Definition post_of (submission : Submission) : post :=
  {| post_title := submission_title submission;
     post_subreddit := submission_subreddit submission;
     post_created_utc := submission_created_utc submission;
     post_score := submission_score submission;
     post_url := "https://reddit.com" +:+ submission_permalink submission;
     post_num_comments := submission_num_comments submission |}.

(** The item appended for a comment, lines 201-211. *)
Definition comment_of (c : Praw.Comment) : comment :=
  {| comment_body := truncate_body (Praw.comment_body c);
     comment_subreddit := Praw.comment_subreddit c;
     comment_created_utc := Praw.comment_created_utc c;
     comment_score := Praw.comment_score c;
     comment_submission_title := Praw.comment_submission_title c |}.

Definition activity_data_value (username : string) (a : activity) : value :=
  VDict [("username", VStr username);
         ("posts_count", VInt (len (recent_posts a)));
         ("comments_count", VInt (len (recent_comments a)));
         ("recent_posts", VList (post_value <$> recent_posts a));
         ("recent_comments", VList (comment_value <$> recent_comments a))].

(** Lines 164-233. *)
Definition get_user_recent_activity (self : RedditCrawler) (username : string) (limit : Z)
    : py activity :=
  try_except
    (recent_posts ←
       for_listing (limited (Some limit) (submissions_new (reddit self) username))
         (λ submission recent_posts,
            let recent_posts := recent_posts ++ [post_of submission] in
            sleep_tenth;; mret recent_posts) [];
     recent_comments ←
       for_listing (limited (Some limit) (comments_new (reddit self) username))
         (λ comment recent_comments,
            let recent_comments := recent_comments ++ [comment_of comment] in
            sleep_tenth;; mret recent_comments) [];
     let result := {| recent_posts := recent_posts; recent_comments := recent_comments |} in
     _save_to_json self (activity_data_value username result)
       ("user_recent_activity_" +:+ username);;
     mret result)
    (λ e, print ("error fetching activity for " +:+ username +:+ ": " +:+ str_exn e);;
          mret {| recent_posts := []; recent_comments := [] |}).

(** [subreddit_activity[subreddit]["posts"] += 1] and the same for
    ["comments"]: the entry is looked up, then one of its counters grows. *)
Definition add_post (c : counts) : counts := Counts (posts c + 1) (comments c).
Definition add_comment (c : counts) : counts := Counts (posts c) (comments c + 1).

Definition increment (bump : counts → counts) (subreddit : string)
    (subreddit_activity : pydict counts) : outcome (pydict counts) :=
  entry ← dict_item subreddit subreddit_activity;
  mret (dict_set subreddit (bump entry) subreddit_activity).

(** The body the two loops of lines 253-266 share. *)
Definition record_activity (bump : counts → counts) (subreddit : string)
    (vars : gset string * pydict counts) : outcome (gset string * pydict counts) :=
  let '(subreddits, subreddit_activity) := vars in
  let subreddits := {[subreddit]} ∪ subreddits in
  let subreddit_activity :=
    if negb (dict_in subreddit subreddit_activity)
    then dict_set subreddit (Counts 0 0) subreddit_activity
    else subreddit_activity in
  subreddit_activity ← increment bump subreddit subreddit_activity;
  mret (subreddits, subreddit_activity).

(** Lines 249-266: the set [subreddits] and the dictionary
    [subreddit_activity] after the loop over the posts and the loop over the
    comments. *)
Definition collect_subreddits (posts : list post) (comments : list comment)
    : outcome (gset string * pydict counts) :=
  vars ← for_in posts (λ post, record_activity add_post (post_subreddit post)) (∅, []);
  for_in comments (λ comment, record_activity add_comment (comment_subreddit comment)) vars.

Definition active_subreddits_data_value (username : string)
    (subreddits : gset string) (subreddit_activity : pydict counts) : value :=
  VDict [("username", VStr username);
         ("total_active_subreddits", VInt (Z.of_nat (size subreddits)));
         ("subreddits_list", VList (VStr <$> sorted (list_of_set subreddits)));
         ("detailed_activity",
          VDict ((λ kv, (kv.1, counts_value kv.2)) <$> subreddit_activity))].

(** Lines 235-279. *)
Definition get_active_subreddits (self : RedditCrawler) (username : string) (limit : Z)
    : py (list string) :=
  activity ← get_user_recent_activity self username limit;
  '(subreddits, subreddit_activity) ←
    lift (collect_subreddits (recent_posts activity) (recent_comments activity));
  _save_to_json self
    (active_subreddits_data_value username subreddits subreddit_activity)
    ("active_subreddits_" +:+ username);;
  mret (sorted (list_of_set subreddits)).

(** The [description] of lines 302-304. *)
Definition description_value (public_description : option string) : value :=
  match public_description with
  | Some text =>
      if (len_str text >? 200)%Z then VStr (slice_to 200 text +:+ "...") else VStr text
  | None => VNone
  end.

Definition subreddit_details_value (subreddit : Subreddit) : value :=
  VDict [("name", VStr (subreddit_display_name subreddit));
         ("title", VStr (subreddit_title subreddit));
         ("subscribers", VInt (subreddit_subscribers subreddit));
         ("created_utc", VFloat (subreddit_created_utc subreddit));
         ("description", description_value (subreddit_public_description subreddit))].

Definition subscriptions_data_value (subreddits : list string) (details : list value) : value :=
  VDict [("total_subscriptions", VInt (len subreddits));
         ("subscriptions_list", VList (VStr <$> sorted subreddits));
         ("detailed_subscriptions", VList details)].

(** Lines 281-323. *)
Definition get_my_subscriptions (self : RedditCrawler) : py (list string) :=
  try_except
    ('(subreddits, subreddit_details) ←
       for_listing (limited None (user_subreddits (reddit self)))
         (λ subreddit '(subreddits, subreddit_details),
            let subreddits := subreddits ++ [subreddit_display_name subreddit] in
            let subreddit_details :=
              subreddit_details ++ [subreddit_details_value subreddit] in
            sleep_tenth;; mret (subreddits, subreddit_details)) ([], []);
     _save_to_json self (subscriptions_data_value subreddits subreddit_details)
       "my_subscriptions";;
     mret (sorted subreddits))
    (λ e, print ("error fetching subscriptions: " +:+ str_exn e);;
          print "make sure you're authenticated with username/password";;
          mret []).

Definition friend_details_value (friend : Friend) : value :=
  VDict [("username", VStr (friend_name friend));
         ("date_added", VFloat (friend_date friend))].

Definition friends_data_value (friends : list string) (details : list value) : value :=
  VDict [("total_friends", VInt (len friends));
         ("friends_list", VList (VStr <$> friends));
         ("detailed_friends", VList details)].

(** Lines 325-361. *)
Definition get_my_friends (self : RedditCrawler) : py (list string) :=
  try_except
    ('(friends, friends_details) ←
       for_listing (user_friends (reddit self))
         (λ friend '(friends, friends_details),
            let friends := friends ++ [friend_name friend] in
            let friends_details := friends_details ++ [friend_details_value friend] in
            sleep_tenth;; mret (friends, friends_details)) ([], []);
     _save_to_json self (friends_data_value friends friends_details) "my_friends";;
     mret friends)
    (λ e, print ("error fetching friends list: " +:+ str_exn e);;
          mret []).

Definition summary_value (username : string) (crawl_timestamp : string)
    (user_info : value) (active_subs : list string) : value :=
  VDict [("username", VStr username);
         ("crawl_timestamp", VStr crawl_timestamp);
         ("user_info", user_info);
         ("active_subreddits_count", VInt (len active_subs));
         ("active_subreddits", VList (VStr <$> active_subs))].

(** Lines 363-394; the default [limit] of [get_active_subreddits] is 100. *)
Definition crawl_user_complete (self : RedditCrawler) (username : string) : py value :=
  print ("starting complete crawl for user: " +:+ username);;
  user_info ← get_user_public_info self username;
  active_subs ← get_active_subreddits self username 100;
  '(now, _) ← datetime_now;
  let summary := summary_value username (isoformat now) user_info active_subs in
  _save_to_json self summary ("crawl_summary_" +:+ username);;
  print ("completed crawl for " +:+ username +:+ ". found activity in " +:+
         pretty (len active_subs) +:+ " subreddits.");;
  mret summary.

End crawler.

(* ===================================================================== *)
(** * src/main.py                                                         *)
(* ===================================================================== *)

(** The variant that keeps nothing on disk. *)
Module main.
Import Py Praw.

Record RedditCrawler : Type := {
  reddit : Reddit
}.

(** An item of [recent_posts]. *)
Record post : Type := {
  post_title : string;
  post_subreddit : string;
  post_created_utc : float;
  post_score : Z;
  post_url : string
}.

(** An item of [recent_comments]. *)
Record comment : Type := {
  comment_body : string;
  comment_subreddit : string;
  comment_created_utc : float;
  comment_score : Z;
  comment_submission_title : string
}.

Record activity : Type := {
  recent_posts : list post;
  recent_comments : list comment
}.

Definition optional_bool (attr : option bool) : value :=
  match attr with
  | Some b => VBool b
  | None => VNone
  end.

(** Lines 44-71. *)
Definition get_user_public_info (self : RedditCrawler) (username : string) : py value :=
  try_except
    (user ← lift (redditor (reddit self) username);
     let user_info :=
       VDict [("username", VStr (redditor_name user));
              ("created_utc", VFloat (redditor_created_utc user));
              ("comment_karma", VInt (redditor_comment_karma user));
              ("link_karma", VInt (redditor_link_karma user));
              ("is_verified", optional_bool (redditor_verified user));
              ("has_premium", optional_bool (redditor_is_gold user))] in
     mret user_info)
    (λ e, print ("error fetching user info for " +:+ username +:+ ": " +:+ str_exn e);;
          mret (VDict [])).

(** The stored [body] of a comment, lines 109-113. *)
Definition truncate_body (body : string) : string :=
  if (len_str body >? 200)%Z then slice_to 200 body +:+ "..." else body.

Definition post_of (submission : Submission) : post :=
  {| post_title := submission_title submission;
     post_subreddit := submission_subreddit submission;
     post_created_utc := submission_created_utc submission;
     post_score := submission_score submission;
     post_url := "https://reddit.com" +:+ submission_permalink submission |}.

Definition comment_of (c : Praw.Comment) : comment :=
  {| comment_body := truncate_body (Praw.comment_body c);
     comment_subreddit := Praw.comment_subreddit c;
     comment_created_utc := Praw.comment_created_utc c;
     comment_score := Praw.comment_score c;
     comment_submission_title := Praw.comment_submission_title c |}.

(** Lines 73-129. *)
Definition get_user_recent_activity (self : RedditCrawler) (username : string) (limit : Z)
    : py activity :=
  try_except
    (recent_posts ←
       for_listing (limited (Some limit) (submissions_new (reddit self) username))
         (λ submission recent_posts,
            let recent_posts := recent_posts ++ [post_of submission] in
            sleep_tenth;; mret recent_posts) [];
     recent_comments ←
       for_listing (limited (Some limit) (comments_new (reddit self) username))
         (λ comment recent_comments,
            let recent_comments := recent_comments ++ [comment_of comment] in
            sleep_tenth;; mret recent_comments) [];
     mret {| recent_posts := recent_posts; recent_comments := recent_comments |})
    (λ e, print ("error fetching activity for " +:+ username +:+ ": " +:+ str_exn e);;
          mret {| recent_posts := []; recent_comments := [] |}).

(** Lines 144-152: the set [subreddits] after the two loops. *)
Definition collect_subreddits (posts : list post) (comments : list comment) : gset string :=
  let subreddits : gset string := ∅ in
  let subreddits :=
    foldl (λ subreddits post, {[post_subreddit post]} ∪ subreddits) subreddits posts in
  foldl (λ subreddits comment, {[comment_subreddit comment]} ∪ subreddits)
    subreddits comments.

(** Lines 131-154. *)
Definition get_active_subreddits (self : RedditCrawler) (username : string) (limit : Z)
    : py (list string) :=
  activity ← get_user_recent_activity self username limit;
  let subreddits := collect_subreddits (recent_posts activity) (recent_comments activity) in
  mret (sorted (list_of_set subreddits)).

(** Lines 156-175. *)
Definition get_my_subscriptions (self : RedditCrawler) : py (list string) :=
  try_except
    (subreddits ←
       for_listing (limited None (user_subreddits (reddit self)))
         (λ subreddit subreddits,
            let subreddits := subreddits ++ [subreddit_display_name subreddit] in
            sleep_tenth;; mret subreddits) [];
     mret (sorted subreddits))
    (λ e, print ("error fetching subscriptions: " +:+ str_exn e);;
          print "make sure you're authenticated with username/password";;
          mret []).

(** Lines 177-195. *)
Definition get_my_friends (self : RedditCrawler) : py (list string) :=
  try_except
    (friends ←
       for_listing (user_friends (reddit self))
         (λ friend friends,
            let friends := friends ++ [friend_name friend] in
            sleep_tenth;; mret friends) [];
     mret friends)
    (λ e, print ("error fetching friends list: " +:+ str_exn e);;
          mret []).

End main.

(* ===================================================================== *)
(** * The vocabulary of the specification                                 *)
(* ===================================================================== *)

Module Spec.
Import Py.

(** [d1 == d2] on dictionaries: the same keys with the same values, whatever
    the order of insertion. *)
Definition dict_eq {V} (d1 d2 : pydict V) : Prop :=
  ∀ k, dict_get k d1 = dict_get k d2.

(** Number of items of [l] tagged with community [c]. *)
Definition occurrences (c : string) (l : list string) : Z :=
  len (filter (λ x, x = c) l).

(** Number of entries a dictionary holds for key [k]. *)
Definition entries {V} (k : string) (d : pydict V) : nat :=
  length (filter (λ kv, kv.1 = k) d).

(** [sum(f(d[c]) for c in communities)] *)
Definition sum_over (communities : list string) (f : crawler.counts → Z)
    (d : pydict crawler.counts) : Z :=
  foldr (λ c acc, (from_option f 0 (dict_get c d) + acc)%Z) 0%Z communities.

(** [sum(f(v) for v in d.values())] *)
Definition total (f : crawler.counts → Z) (d : pydict crawler.counts) : Z :=
  foldr (λ kv acc, (f kv.2 + acc)%Z) 0%Z d.

(** The entry the aggregation owes to community [c], given the communities
    of the posts and of the comments. *)
Definition tallied (post_tags comment_tags : list string) (c : string)
    : option crawler.counts :=
  if decide (c ∈ post_tags ++ comment_tags)
  then Some (crawler.Counts (occurrences c post_tags) (occurrences c comment_tags))
  else None.

(** The state of the two local variables of [get_active_subreddits] once
    items tagged [post_tags] (posts) and [comment_tags] (comments) have gone
    through the loop body: the invariant of the two loops. *)
Record agrees (post_tags comment_tags : list string)
    (vars : gset string * pydict crawler.counts) : Prop := {
  agrees_keys : NoDup vars.2.*1;
  agrees_set : ∀ c, c ∈ vars.1 ↔ c ∈ post_tags ++ comment_tags;
  agrees_get : ∀ c, dict_get c vars.2 = tallied post_tags comment_tags c;
  agrees_posts : total crawler.posts vars.2 = len post_tags;
  agrees_comments : total crawler.comments vars.2 = len comment_tags
}.

(** The strict lexicographic order of [str]: [s1 < s2]. *)
Definition str_lt (s1 s2 : string) : Prop := String.le s1 s2 ∧ s1 ≠ s2.

(** A list in ascending order without repetition: every element is strictly
    below all the elements after it. *)
Definition ascending (l : list string) : Prop := StronglySorted str_lt l.

(** The loop body of [crawler.get_active_subreddits] run over posts and
    comments in an arbitrary interleaving ([inl] a post, [inr] a comment):
    the code itself runs it over all posts, then over all comments. *)
Definition collect_interleaved (items : list (crawler.post + crawler.comment))
    : outcome (gset string * pydict crawler.counts) :=
  for_in items
    (λ item,
       match item with
       | inl post => crawler.record_activity crawler.add_post (crawler.post_subreddit post)
       | inr comment =>
           crawler.record_activity crawler.add_comment (crawler.comment_subreddit comment)
       end)
    (∅, []).

(** Communities of the posts and of the comments in an interleaving. *)
Definition post_tags (items : list (crawler.post + crawler.comment)) : list string :=
  omap (λ item, match item with
                | inl p => Some (crawler.post_subreddit p)
                | inr _ => None
                end) items.
Definition comment_tags (items : list (crawler.post + crawler.comment)) : list string :=
  omap (λ item, match item with
                | inr c => Some (crawler.comment_subreddit c)
                | inl _ => None
                end) items.

(** What the specification asks of the community list [result], given the
    communities of the posts and of the comments. *)
Definition sorted_union (result : list string) (post_tags comment_tags : list string)
    : Prop :=
  ascending result ∧
  (∀ c, c ∈ result ↔ c ∈ post_tags ∨ c ∈ comment_tags) ∧
  result = sorted (list_of_set (list_to_set post_tags ∪ list_to_set comment_tags)).

(** The path [_save_to_json] writes to. *)
Definition filepath_of (self : crawler.RedditCrawler) (filename : string) : string :=
  path_join (crawler.output_dir self) (filename +:+ ".json").

(** The document [_save_to_json] hands to [json.dump] at time [now]. *)
Definition output_data_of (now : datetime) (data : value) (filename : string) : value :=
  VDict [("timestamp", VStr (isoformat now));
         ("data_type", VStr filename);
         ("data", data)].

(** The world [_save_to_json] leaves. *)
Definition saved (self : crawler.RedditCrawler) (data : value) (filename : string)
    (w : world) : world :=
  let filepath := filepath_of self filename in
  let w1 := set_ticks S w in
  match open_error w filepath Writing with
  | Some msg =>
      set_stdout (λ out, out ++ ["error saving " +:+ filename +:+ ": " +:+ msg]) w1
  | None =>
      set_stdout (λ out, out ++ ["saved " +:+ filename +:+ " data to: " +:+ filepath])
        (set_files
           (insert filepath
              (JsonText (json_encode (output_data_of (clock w (ticks w)).1 data filename))))
           w1)
  end.

(** The call [m] from world [w] returns [empty] after printing [messages]
    and nothing else: no file is touched. *)
Definition degraded {A} (m : py A) (w : world) (empty : A) (messages : list string)
    : Prop :=
  ∃ w', m w = (Return empty, w') ∧
        stdout w' = stdout w ++ messages ∧ files w' = files w.

(** The exception the activity step meets first, if any: in the listing of
    submissions, else in the listing of comments. *)
Definition activity_error (net : Praw.Reddit) (username : string) (limit : Z)
    : option pyexn :=
  match Praw.failure (Praw.limited (Some limit) (Praw.submissions_new net username)) with
  | Some e => Some e
  | None => Praw.failure (Praw.limited (Some limit) (Praw.comments_new net username))
  end.

(** The payloads the methods of [crawler.py] hand to [_save_to_json]: one
    constructor for each call of it. *)
Inductive result_object : value → Prop :=
  | user_info_object user posix_now :
      result_object (crawler.user_info_value user posix_now)
  | activity_object username activity :
      result_object (crawler.activity_data_value username activity)
  | active_subreddits_object username posts comments subreddits subreddit_activity :
      crawler.collect_subreddits posts comments = Return (subreddits, subreddit_activity) →
      result_object
        (crawler.active_subreddits_data_value username subreddits subreddit_activity)
  | subscriptions_object (listed : list Praw.Subreddit) :
      result_object
        (crawler.subscriptions_data_value
           (Praw.subreddit_display_name <$> listed)
           (crawler.subreddit_details_value <$> listed))
  | friends_object (listed : list Praw.Friend) :
      result_object
        (crawler.friends_data_value
           (Praw.friend_name <$> listed) (crawler.friend_details_value <$> listed))
  | summary_object username crawl_timestamp user_info active_subs :
      (user_info = VDict [] ∨
       ∃ user posix_now, user_info = crawler.user_info_value user posix_now) →
      result_object (crawler.summary_value username crawl_timestamp user_info active_subs).

(** The dictionary [_load_credentials] builds from the environment. *)
Definition env_credentials (w : world) : pydict value :=
  [("client_id", from_option VStr VNone (environ w !! "REDDIT_CLIENT_ID"));
   ("client_secret", from_option VStr VNone (environ w !! "REDDIT_CLIENT_SECRET"));
   ("user_agent",
    from_option VStr (VStr "RedditCrawler/1.0") (environ w !! "REDDIT_USER_AGENT"));
   ("username", from_option VStr VNone (environ w !! "REDDIT_USERNAME"));
   ("password", from_option VStr VNone (environ w !! "REDDIT_PASSWORD"))].

(** [not credentials[field]]: the field is [None], empty or absent. *)
Definition missing (field : string) (credentials : pydict value) : Prop :=
  from_option truthy false (dict_get field credentials) = false.

(** [credentials[field]] is there and true. *)
Definition present (field : string) (credentials : pydict value) : Prop :=
  from_option truthy false (dict_get field credentials) = true.

(** The fatal error of [_load_credentials]. *)
Definition credentials_error : pyexn :=
  ValueError
    "reddit credentials not found. please set environment variables or create secrets.json file.".

(** The document of the template secrets file. *)
Definition template_document : json :=
  JObject [("client_id", JString "your_reddit_client_id_here");
           ("client_secret", JString "your_reddit_client_secret_here");
           ("user_agent", JString "RedditCrawler/1.0 by YourUsername");
           ("username", JString "your_reddit_username_optional");
           ("password", JString "your_reddit_password_optional")].

(** The world [_create_secrets_template] leaves when it can write: an
    existing [secrets.json] is left alone. *)
Definition with_template (w : world) : world :=
  match files w !! "secrets.json" with
  | Some _ => w
  | None =>
      set_stdout
        (λ out, out ++
           ["created template secrets.json file. please update it with your credentials."])
        (set_files (insert "secrets.json" (JsonText template_document)) w)
  end.

(** How [_load_credentials] ends once [credentials] are settled: with the
    credentials, with the fatal error, or with the [OSError] of a template
    that was due and could not be written. *)
Definition validated (credentials : pydict value) (w : world)
    : outcome (pydict value) * world :=
  if from_option truthy false (dict_get "client_id" credentials) &&
     from_option truthy false (dict_get "client_secret" credentials)
  then (Return credentials, w)
  else
    match files w !! "secrets.json", open_error w "secrets.json" Writing with
    | None, Some msg => (Raise (OSError msg), w)
    | _, _ => (Raise credentials_error, with_template w)
    end.

End Spec.

(* ===================================================================== *)
(** * Sample data                                                         *)
(* ===================================================================== *)

(** A small account, used to run the methods on concrete inputs: two posts
    (in [go] and [rust]) and one comment (in [go]). *)
Module Sample.
Import Py Praw.

Definition submission_go : Submission :=
  {| submission_title := "generics"; submission_subreddit := "go";
     submission_created_utc := 1700000000%float; submission_score := 12;
     submission_permalink := "/r/go/1"; submission_num_comments := 3 |}.

Definition submission_rust : Submission :=
  {| submission_title := "borrowing"; submission_subreddit := "rust";
     submission_created_utc := 1700000100%float; submission_score := 7;
     submission_permalink := "/r/rust/2"; submission_num_comments := 0 |}.

Definition comment_go : Comment :=
  {| comment_body := "nice"; comment_subreddit := "go";
     comment_created_utc := 1700000200%float; comment_score := 1;
     comment_submission_title := "generics" |}.

Definition user : Redditor :=
  {| redditor_name := "gopher"; redditor_created_utc := 1600000000%float;
     redditor_comment_karma := 10; redditor_link_karma := 20;
     redditor_verified := Some true; redditor_is_gold := None |}.

(** The platform answers every request. *)
Definition online : Reddit :=
  {| redditor := λ _, Return user;
     submissions_new := λ _, Listing [submission_go; submission_rust] None;
     comments_new := λ _, Listing [comment_go] None;
     user_subreddits := Listing [] None;
     user_friends := Listing [] None |}.

(** Every request ends in [e]; a listing fails before its first item. *)
Definition failing (e : pyexn) : Reddit :=
  {| redditor := λ _, Raise e;
     submissions_new := λ _, Listing [] (Some e);
     comments_new := λ _, Listing [] (Some e);
     user_subreddits := Listing [] (Some e);
     user_friends := Listing [] (Some e) |}.

Definition noon : datetime :=
  {| year := 2024; month := 2; day := 29; hour := 12; minute := 0; second := 5;
     microsecond := 250 |}.

(** No environment variable, no file, every path can be opened. *)
Definition blank : world :=
  {| environ := ∅; files := ∅; open_error := λ _ _, None;
     clock := λ _, (noon, 1709208005%float); ticks := 0; naps := 0; stdout := [] |}.

Definition post_go : crawler.post := crawler.post_of submission_go.
Definition post_rust : crawler.post := crawler.post_of submission_rust.
Definition remark_go : crawler.comment := crawler.comment_of comment_go.

(** A text of [n] characters. *)
Fixpoint filler (n : nat) : string :=
  match n with
  | O => ""
  | S n' => String "x" (filler n')
  end.

Definition comment_long : Comment :=
  {| comment_body := filler 250; comment_subreddit := "go";
     comment_created_utc := 1700000300%float; comment_score := 2;
     comment_submission_title := "generics" |}.

Definition comment_short : Comment :=
  {| comment_body := filler 150; comment_subreddit := "rust";
     comment_created_utc := 1700000400%float; comment_score := 0;
     comment_submission_title := "borrowing" |}.

(** The environment sets only the client secret; [secrets.json] holds a
    client id and another client secret. *)
Definition mixed : world :=
  {| environ := {["REDDIT_CLIENT_SECRET" := "env_secret"]};
     files := {["secrets.json" :=
                 JsonText (JObject [("client_id", JString "file_id");
                                    ("client_secret", JString "file_secret")])]};
     open_error := λ _ _, None;
     clock := λ _, (noon, 1709208005%float); ticks := 0; naps := 0; stdout := [] |}.

(** No environment variable; [secrets.json] exists and holds a client id
    only. *)
Definition incomplete : world :=
  {| environ := ∅;
     files := {["secrets.json" := JsonText (JObject [("client_id", JString "file_id")])]};
     open_error := λ _ _, None;
     clock := λ _, (noon, 1709208005%float); ticks := 0; naps := 0; stdout := [] |}.

(** Client id and secret in the environment, a different pair in the file. *)
Definition both : world :=
  {| environ := {["REDDIT_CLIENT_ID" := "env_id"; "REDDIT_CLIENT_SECRET" := "env_secret"]};
     files := {["secrets.json" :=
                 JsonText (JObject [("client_id", JString "file_id");
                                    ("client_secret", JString "file_secret")])]};
     open_error := λ _ _, None;
     clock := λ _, (noon, 1709208005%float); ticks := 0; naps := 0; stdout := [] |}.

Definition crawler_online : crawler.RedditCrawler :=
  {| crawler.output_dir := "reddit_data"; crawler.reddit := online |}.

Definition crawler_failing (e : pyexn) : crawler.RedditCrawler :=
  {| crawler.output_dir := "reddit_data"; crawler.reddit := failing e |}.

End Sample.

(* ===================================================================== *)
(** * Footprints                                                          *)
(* ===================================================================== *)

(** Words for what a call leaves alone. *)
Module Footprint.
Import Py.

(** The call [m] leaves every file outside [paths] as it was. *)
Definition touches_only {A} (paths : list string) (m : py A) : Prop :=
  ∀ w p, p ∉ paths → files (m w).2 !! p = files w !! p.

(** The four files of a complete crawl of [username]. *)
Definition crawl_files (self : crawler.RedditCrawler) (username : string) : list string :=
  [Spec.filepath_of self ("user_public_info_" +:+ username);
   Spec.filepath_of self ("user_recent_activity_" +:+ username);
   Spec.filepath_of self ("active_subreddits_" +:+ username);
   Spec.filepath_of self ("crawl_summary_" +:+ username)].

(** A name without a slash, as the names of the platform are: the file
    names built from it are single components of a path. *)
Definition plain (name : string) : Prop :=
  forallb (λ c, negb (Ascii.eqb c "/")) (String.list_ascii_of_string name) = true.

(** Every failure the platform can answer with for [username] is of class
    [Exception]. *)
Definition catchable (net : Praw.Reddit) (username : string) (limit : Z) : Prop :=
  (∀ e, Praw.redditor net username = Raise e → is_Exception e = true) ∧
  (∀ e, Spec.activity_error net username limit = Some e → is_Exception e = true).

(** [w'] is a world reached from [w] by running code of the two files: the
    environment, the permissions and the clock are the same, time has only
    moved forward, the output has only grown, and the files are the same if
    none can be written. *)
Record later (w w' : world) : Prop := {
  later_environ : environ w' = environ w;
  later_open_error : open_error w' = open_error w;
  later_clock : clock w' = clock w;
  later_ticks : ticks w ≤ ticks w';
  later_naps : naps w ≤ naps w';
  later_stdout : stdout w `prefix_of` stdout w';
  later_files : (∀ path, is_Some (open_error w path Writing)) → files w' = files w
}.

(** The call [m] only moves the world forward. *)
Definition advances {A} (m : py A) : Prop := ∀ w, later w (m w).2.

End Footprint.

(** More worlds and accounts to run the methods on. *)
Module Cases.
Import Py Praw.

(** No file can be opened for writing. *)
Definition read_only : world :=
  {| environ := ∅; files := ∅;
     open_error := λ _ mode,
       match mode with
       | Writing => Some "permission denied"
       | Reading => None
       end;
     clock := λ _, (Sample.noon, 1709208005%float); ticks := 0; naps := 0; stdout := [] |}.

(** Every file can be written; a list of friends was saved by an earlier
    run. *)
Definition stale : world :=
  {| environ := ∅;
     files := {["reddit_data/my_friends.json" :=
                 JsonText (JObject [("data_type", JString "my_friends")])]};
     open_error := λ _ _, None;
     clock := λ _, (Sample.noon, 1709208005%float); ticks := 0; naps := 0; stdout := [] |}.

Definition subreddit_rust : Subreddit :=
  {| subreddit_display_name := "rust"; subreddit_title := "The Rust Language";
     subreddit_subscribers := 300000; subreddit_created_utc := 1291000000%float;
     subreddit_public_description := Some "a language empowering everyone" |}.

Definition subreddit_go : Subreddit :=
  {| subreddit_display_name := "golang"; subreddit_title := "The Go Language";
     subreddit_subscribers := 250000; subreddit_created_utc := 1258000000%float;
     subreddit_public_description := None |}.

Definition friend_zed : Friend := {| friend_name := "zed"; friend_date := 1650000000%float |}.
Definition friend_amy : Friend := {| friend_name := "amy"; friend_date := 1660000000%float |}.

(** An authenticated account: two subscriptions and two friends, listed in
    this order. *)
Definition authenticated : Reddit :=
  {| redditor := λ _, Return Sample.user;
     submissions_new := λ _, Listing [Sample.submission_go; Sample.submission_rust] None;
     comments_new := λ _, Listing [Sample.comment_go] None;
     user_subreddits := Listing [subreddit_rust; subreddit_go] None;
     user_friends := Listing [friend_zed; friend_amy] None |}.

(** The listing of comments breaks off after its first item. *)
Definition interrupted_listing : Reddit :=
  {| redditor := λ _, Return Sample.user;
     submissions_new := λ _, Listing [Sample.submission_go; Sample.submission_rust] None;
     comments_new :=
       λ _, Listing [Sample.comment_go] (Some (RequestException "connection reset"));
     user_subreddits := Listing [] None;
     user_friends := Listing [] None |}.

(** The constructor where the directory can be made and the library
    builds a client for the sample platform. *)
Definition constructed (output_dir : string) : py crawler.RedditCrawler :=
  crawler.__init__ output_dir (Return ()) (λ _ _ _ _ _, Return Sample.online).

Definition crawler_authenticated : crawler.RedditCrawler :=
  {| crawler.output_dir := "reddit_data"; crawler.reddit := authenticated |}.

Definition main_authenticated : main.RedditCrawler := {| main.reddit := authenticated |}.

End Cases.

(** Worlds the methods leave on the paths that are not their normal one. *)
Module Worlds.
Import Py Praw.

(** The world a failed activity step leaves before the handler: only time
    has passed. *)
Definition activity_interrupted (net : Reddit) (username : string) (limit : Z)
    (w : world) : world :=
  match failure (limited (Some limit) (submissions_new net username)) with
  | Some _ =>
      set_naps (λ n, n + length (items (limited (Some limit) (submissions_new net username))))
        w
  | None =>
      set_naps (λ n, n + length (items (limited (Some limit) (comments_new net username))))
        (set_naps
           (λ n, n + length (items (limited (Some limit) (submissions_new net username))))
           w)
  end.

End Worlds.

(** Reading the documents the methods build. *)
Module Documents.
Import Py.

(** [document[k]] for a document that is an object. *)
Definition field (k : string) (document : value) : option value :=
  match document with
  | VDict d => dict_get k d
  | _ => None
  end.

(** The distinct elements of [l], each at the place of its first
    occurrence. *)
Definition first_seen (l : list string) : list string :=
  foldl (λ seen x, if decide (x ∈ seen) then seen else seen ++ [x]) [] l.

(** The document in the file at [path] is [output_data]. *)
Definition holds (w : world) (path : string) (output_data : value) : Prop :=
  files w !! path = Some (JsonText (json_encode output_data)).

End Documents.

(** Which exceptions can leave a call. *)
Module Escapes.
Import Py Praw.

(** [e] is one of the failures the platform answers with. *)
Definition raised_by (net : Reddit) (e : pyexn) : Prop :=
  (∃ username, redditor net username = Raise e) ∨
  (∃ username, failure (submissions_new net username) = Some e) ∨
  (∃ username, failure (comments_new net username) = Some e) ∨
  failure (user_subreddits net) = Some e ∨
  failure (user_friends net) = Some e.

(** Every exception that leaves [m] satisfies [P]. *)
Definition escapes {A} (P : pyexn → Prop) (m : py A) : Prop :=
  ∀ w e w', m w = (Raise e, w') → P e.

(** A failure of the platform that [except Exception] lets through. *)
Definition interrupt_of (net : Reddit) (e : pyexn) : Prop :=
  raised_by net e ∧ is_Exception e = false.

(** The platform raises nothing that [except Exception] lets through. *)
Definition interrupt_free (net : Reddit) : Prop :=
  ∀ e, raised_by net e → is_Exception e = true.

End Escapes.

(* ===================================================================== *)
(** * The entry point of src/crawler.py                                   *)
(* ===================================================================== *)

Module crawler_script.
Import Py Praw.

(** [isinstance(e, ValueError)]: [json.JSONDecodeError] derives from
    [ValueError]. *)
Definition is_ValueError (e : pyexn) : bool :=
  match e with
  | ValueError _ | JSONDecodeError _ => true
  | _ => false
  end.

(** [try: body / except ValueError as e: handler e] *)
Definition try_except_ValueError {A} (body : py A) (handler : pyexn → py A) : py A := λ w,
  match body w with
  | (Raise e, w') => if is_ValueError e then handler e w' else (Raise e, w')
  | r => r
  end.

(** The line feed that opens three of the printed texts. *)
Definition newline : string := String (Ascii.ascii_of_nat 10) "".

(** Lines 410-423: the body of the inner [try] of [main]. *)
Definition personal_data (self : crawler.RedditCrawler) : py unit :=
  print (newline +:+ "attempting to get your personal data...");;
  my_subs ← crawler.get_my_subscriptions self;
  (if bool_decide (my_subs ≠ [])
   then print ("successfully retrieved " +:+ pretty (len my_subs) +:+ " subscriptions")
   else mret ());;
  my_friends ← crawler.get_my_friends self;
  if bool_decide (my_friends ≠ [])
  then print ("successfully retrieved " +:+ pretty (len my_friends) +:+ " friends")
  else if bool_decide (my_subs = [])
  then print "no authenticated data retrieved. check your username/password in secrets."
  else mret ().

(** Lines 397-443.  [RedditCrawler] stands for the call of the constructor
    with its [output_dir]; whatever it does, [main] goes on from its
    outcome. *)
Definition main (RedditCrawler : string → py crawler.RedditCrawler) : py unit :=
  try_except_ValueError
    (self ← RedditCrawler "reddit_data";
     let target_username := "femmebxt" in
     print ("performing complete crawl for u/" +:+ target_username +:+ "...");;
     summary ← crawler.crawl_user_complete self target_username;
     try_except
       (personal_data self)
       (λ e, print ("could not retrieve personal data: " +:+ str_exn e);;
             print "this is normal if you haven't provided username/password credentials.");;
     print (newline +:+
            "all data has been saved to json files in the 'reddit_data' directory."))
    (λ e, print ("credential error: " +:+ str_exn e);;
          print (newline +:+ "to fix this:");;
          print "1. set environment variables:";;
          print "   export REDDIT_CLIENT_ID='your_client_id'";;
          print "   export REDDIT_CLIENT_SECRET='your_client_secret'";;
          print "2. or update the generated secrets.json file with your credentials").

End crawler_script.

(* ===================================================================== *)
(** * Facts about the runtime                                             *)
(* ===================================================================== *)

Import Py Spec.

Section dict_facts.
Context {V : Type}.
Implicit Types (d : pydict V) (k : string) (v : V).

Lemma dict_get_set d k v k' :
  dict_get k' (dict_set k v d) = if decide (k' = k) then Some v else dict_get k' d.
Proof.
  induction d as [|[k0 v0] d IH]; simpl.
  - by repeat case_decide.
  - repeat (case_decide; simplify_eq/=); try done.
Qed.

Lemma dict_get_None d k : dict_get k d = None ↔ k ∉ d.*1.
Proof.
  induction d as [|[k0 v0] d IH]; csimpl.
  - split; [intros _; apply not_elem_of_nil | done].
  - rewrite not_elem_of_cons. case_decide; [|tauto].
    split; [done | tauto].
Qed.

Lemma dict_get_Some_elem d k v : dict_get k d = Some v → (k, v) ∈ d.
Proof.
  induction d as [|[k0 v0] d IH]; simpl; [done|].
  case_decide; intros; simplify_eq; [left | right; auto].
Qed.

Lemma dict_get_elem d k v : NoDup d.*1 → (k, v) ∈ d → dict_get k d = Some v.
Proof.
  induction d as [|[k0 v0] d IH]; csimpl; [by intros _ ?%elem_of_nil|].
  intros [Hk Hd]%NoDup_cons [?|Hin]%elem_of_cons; simplify_eq.
  - by rewrite decide_True.
  - rewrite decide_False; [auto|].
    intros ->. apply Hk. by apply (list_elem_of_fmap_2 fst) in Hin.
Qed.

Lemma dict_set_keys d k v :
  (dict_set k v d).*1 = if decide (k ∈ d.*1) then d.*1 else d.*1 ++ [k].
Proof.
  induction d as [|[k0 v0] d IH]; csimpl.
  - done.
  - destruct (decide (k = k0)) as [->|Hne]; csimpl.
    + rewrite decide_True; [done | set_solver].
    + rewrite IH. destruct (decide (k ∈ d.*1)) as [Hin|Hin].
      * rewrite decide_True; [done | set_solver].
      * rewrite decide_False; [done | set_solver].
Qed.

Lemma dict_set_NoDup d k v : NoDup d.*1 → NoDup (dict_set k v d).*1.
Proof.
  intros Hd. rewrite dict_set_keys. case_decide; [done|].
  apply NoDup_app. split_and!; [done | | apply NoDup_singleton].
  intros x Hx ->%list_elem_of_singleton. done.
Qed.

Lemma dict_set_set d k v v' : dict_set k v' (dict_set k v d) = dict_set k v' d.
Proof.
  induction d as [|[k0 v0] d IH]; simpl.
  - by rewrite decide_True.
  - case_decide; simpl; [by rewrite decide_True|].
    rewrite decide_False by done. by rewrite IH.
Qed.

Lemma entries_absent d k : k ∉ d.*1 → entries k d = 0.
Proof.
  unfold entries. induction d as [|[k0 v0] d IH]; [done|].
  rewrite fmap_cons, not_elem_of_cons. intros [Hne Hd].
  rewrite filter_cons_False; [auto | simpl in *; congruence].
Qed.

Lemma entries_once d k : NoDup d.*1 → k ∈ d.*1 → entries k d = 1.
Proof.
  induction d as [|[k0 v0] d IH].
  - by intros _ ?%elem_of_nil.
  - rewrite fmap_cons, NoDup_cons, elem_of_cons. intros [Hk Hd] Hin.
    unfold entries in *.
    destruct (decide (k0 = k)) as [->|Hne].
    + rewrite filter_cons_True by done. simpl. f_equal. by apply entries_absent.
    + rewrite filter_cons_False by done. apply IH; [done|].
      simpl in *. destruct Hin; [congruence | done].
Qed.

Lemma dict_eq_Permutation d1 d2 :
  NoDup d1.*1 → NoDup d2.*1 → dict_eq d1 d2 → d1 ≡ₚ d2.
Proof.
  intros H1 H2 Heq. apply NoDup_Permutation.
  - eapply NoDup_fmap_1, H1.
  - eapply NoDup_fmap_1, H2.
  - intros [k v]. split; intros Hin.
    + apply dict_get_Some_elem. rewrite <- Heq. by apply dict_get_elem.
    + apply dict_get_Some_elem. rewrite Heq. by apply dict_get_elem.
Qed.
End dict_facts.

(** ** [sorted] *)

Section sorted_facts.
Implicit Types (l : list string) (s : string).

Lemma sorted_Permutation l : sorted l ≡ₚ l.
Proof. apply merge_sort_Permutation. Qed.

Lemma sorted_StronglySorted l : StronglySorted String.le (sorted l).
Proof. apply (StronglySorted_merge_sort _). Qed.

Lemma elem_of_sorted l s : s ∈ sorted l ↔ s ∈ l.
Proof. by rewrite (sorted_Permutation l). Qed.

(** Non-strictly ascending and free of repetition is strictly ascending. *)
Lemma StronglySorted_le_NoDup l :
  StronglySorted String.le l → NoDup l → ascending l.
Proof.
  induction 1 as [|x l Hl IH Hx]; intros Hnd; [constructor|].
  apply NoDup_cons in Hnd as [Hnot Hnd]. constructor; [by apply IH|].
  apply Forall_forall. intros y Hy. split.
  - by eapply Forall_forall in Hx.
  - by intros ->.
Qed.

Lemma ascending_NoDup l : ascending l → NoDup l.
Proof.
  induction 1 as [|x l Hl IH Hx]; constructor; [|done].
  intros Hin. eapply Forall_forall in Hx; [|done]. by destruct Hx.
Qed.

Lemma ascending_le l : ascending l → StronglySorted String.le l.
Proof.
  induction 1 as [|x l Hl IH Hx]; constructor; [done|].
  eapply Forall_impl; [done|]. by intros y [].
Qed.

Lemma sorted_ascending l : NoDup l → ascending (sorted l).
Proof.
  intros Hnd. apply StronglySorted_le_NoDup; [apply sorted_StronglySorted|].
  by rewrite sorted_Permutation.
Qed.

(** An ascending list is determined by its elements. *)
Lemma ascending_unique l1 l2 :
  ascending l1 → ascending l2 → (∀ s, s ∈ l1 ↔ s ∈ l2) → l1 = l2.
Proof.
  intros H1 H2 Hiff.
  apply (Sorted_unique String.le).
  - by apply StronglySorted_Sorted, ascending_le.
  - by apply StronglySorted_Sorted, ascending_le.
  - apply NoDup_Permutation; auto using ascending_NoDup.
Qed.

(** The order in which a set or a list hands its elements to [sorted]
    does not show in the result. *)
Lemma sorted_order_irrelevant l1 l2 : l1 ≡ₚ l2 → sorted l1 = sorted l2.
Proof.
  intros Hp. apply (Sorted_unique String.le).
  - apply StronglySorted_Sorted, sorted_StronglySorted.
  - apply StronglySorted_Sorted, sorted_StronglySorted.
  - by rewrite !sorted_Permutation.
Qed.
End sorted_facts.

(* ===================================================================== *)
(** * The activity aggregator                                             *)
(* ===================================================================== *)

Section aggregator_facts.
Import crawler.
Implicit Types (c x : string) (d : pydict counts) (s : gset string).
Implicit Types (ps cs : list string).

Local Open Scope Z_scope.

Lemma occurrences_nil c : occurrences c [] = 0.
Proof. done. Qed.

Lemma occurrences_cons c x l :
  occurrences c (x :: l) = (if decide (x = c) then 1 else 0) + occurrences c l.
Proof.
  unfold occurrences, len. rewrite filter_cons.
  case_decide; simpl length; lia.
Qed.

Lemma occurrences_nonneg c l : 0 ≤ occurrences c l.
Proof. unfold occurrences, len. lia. Qed.

Lemma occurrences_absent c l : c ∉ l → occurrences c l = 0.
Proof.
  induction l as [|x l IH]; [done|].
  rewrite not_elem_of_cons, occurrences_cons. intros [Hne Hl].
  rewrite decide_False by done. rewrite IH by done. done.
Qed.

Lemma occurrences_Permutation c l1 l2 : l1 ≡ₚ l2 → occurrences c l1 = occurrences c l2.
Proof. intros Hp. unfold occurrences, len. by rewrite Hp. Qed.

Lemma tallied_Permutation ps ps' cs cs' c :
  ps ≡ₚ ps' → cs ≡ₚ cs' → tallied ps cs c = tallied ps' cs' c.
Proof.
  intros Hp Hc. unfold tallied.
  rewrite (occurrences_Permutation c ps ps'), (occurrences_Permutation c cs cs') by done.
  apply decide_ext. by rewrite Hp, Hc.
Qed.

Lemma agrees_empty : agrees [] [] (∅, []).
Proof. split; simpl; try done. - constructor. - set_solver. Qed.

Lemma agrees_Permutation ps ps' cs cs' vars :
  ps ≡ₚ ps' → cs ≡ₚ cs' → agrees ps cs vars → agrees ps' cs' vars.
Proof.
  intros Hp Hc []. split; try done.
  - intros c. by rewrite <- Hp, <- Hc.
  - intros c. by rewrite <- (tallied_Permutation ps ps' cs cs').
  - unfold len. by rewrite <- Hp.
  - unfold len. by rewrite <- Hc.
Qed.

Lemma total_set f d c v :
  total f (dict_set c v d) = total f d + f v - from_option f 0 (dict_get c d).
Proof.
  induction d as [|[k0 v0] d IH]; simpl; [lia|].
  case_decide; simpl; [lia|]. rewrite IH. lia.
Qed.

(** One turn of the loop body never fails: the entry it increments is there. *)
Lemma record_activity_returns bump c s d :
  record_activity bump c (s, d) =
  Return ({[c]} ∪ s,
          dict_set c (bump (default (Counts 0 0) (dict_get c d))) d).
Proof.
  unfold record_activity, increment, dict_item, dict_in.
  destruct (dict_get c d) as [e|] eqn:Hget; simpl.
  - by rewrite Hget.
  - rewrite dict_get_set, decide_True by done. simpl.
    by rewrite dict_set_set.
Qed.

Lemma agrees_post ps cs s d x :
  agrees ps cs (s, d) →
  agrees (x :: ps) cs
    ({[x]} ∪ s, dict_set x (add_post (default (Counts 0 0) (dict_get x d))) d).
Proof.
  intros [Hk Hs Hg Hp Hc]; simpl in *. split; simpl.
  - by apply dict_set_NoDup.
  - intros c. rewrite elem_of_union, elem_of_singleton, Hs. set_solver.
  - intros c. rewrite dict_get_set. unfold tallied.
    rewrite occurrences_cons. destruct (decide (c = x)) as [->|Hne].
    + rewrite decide_True by set_solver. rewrite decide_True by done.
      rewrite Hg. unfold tallied, add_post. case_decide as Hin; simpl.
      * f_equal. f_equal. lia.
      * rewrite !occurrences_absent by set_solver. done.
    + rewrite Hg. unfold tallied. rewrite (decide_False (P := x = c)) by done.
      apply decide_ext. set_solver.
  - rewrite total_set, Hp. unfold len. simpl length.
    destruct (dict_get x d); simpl; lia.
  - rewrite total_set, Hc. destruct (dict_get x d); simpl; lia.
Qed.

Lemma agrees_comment ps cs s d x :
  agrees ps cs (s, d) →
  agrees ps (x :: cs)
    ({[x]} ∪ s, dict_set x (add_comment (default (Counts 0 0) (dict_get x d))) d).
Proof.
  intros [Hk Hs Hg Hp Hc]; simpl in *. split; simpl.
  - by apply dict_set_NoDup.
  - intros c. rewrite elem_of_union, elem_of_singleton, Hs. set_solver.
  - intros c. rewrite dict_get_set. unfold tallied.
    rewrite occurrences_cons. destruct (decide (c = x)) as [->|Hne].
    + rewrite decide_True by set_solver. rewrite decide_True by done.
      rewrite Hg. unfold tallied, add_comment. case_decide as Hin; simpl.
      * f_equal. f_equal. lia.
      * rewrite !occurrences_absent by set_solver. done.
    + rewrite Hg. unfold tallied. rewrite (decide_False (P := x = c)) by done.
      apply decide_ext. set_solver.
  - rewrite total_set, Hp. destruct (dict_get x d); simpl; lia.
  - rewrite total_set, Hc. unfold len. simpl length.
    destruct (dict_get x d); simpl; lia.
Qed.

Lemma for_in_app {A S} (xs ys : list A) (body : A → S → outcome S) (vars : S) :
  for_in (xs ++ ys) body vars = vars' ← for_in xs body vars; for_in ys body vars'.
Proof.
  revert vars. induction xs as [|a xs IH]; intros vars; simpl; [done|].
  destruct (body a vars) as [vars'|e]; simpl; [apply IH | done].
Qed.

Lemma for_in_fmap {A B S} (g : A → B) (xs : list A) (body : B → S → outcome S) (vars : S) :
  for_in (g <$> xs) body vars = for_in xs (λ a, body (g a)) vars.
Proof.
  revert vars. induction xs as [|a xs IH]; intros vars; simpl; [done|].
  destruct (body (g a) vars) as [vars'|e]; simpl; [apply IH | done].
Qed.

(** The code's order is one interleaving: all posts, then all comments. *)
Lemma collect_subreddits_interleaved (posts : list post) (comments : list comment) :
  collect_subreddits posts comments =
  collect_interleaved ((inl <$> posts) ++ (inr <$> comments)).
Proof.
  unfold collect_subreddits, collect_interleaved.
  rewrite for_in_app, for_in_fmap.
  destruct (for_in posts _ _) as [vars|e]; simpl; [|done].
  by rewrite for_in_fmap.
Qed.

Lemma post_tags_code (posts : list post) (comments : list comment) :
  post_tags ((inl <$> posts) ++ (inr <$> comments)) = post_subreddit <$> posts.
Proof.
  unfold post_tags. rewrite omap_app.
  induction posts as [|p posts IH]; simpl.
  - induction comments as [|c comments IHc]; simpl; [done | apply IHc].
  - f_equal. apply IH.
Qed.

Lemma comment_tags_code (posts : list post) (comments : list comment) :
  comment_tags ((inl <$> posts) ++ (inr <$> comments)) = comment_subreddit <$> comments.
Proof.
  unfold comment_tags. rewrite omap_app.
  induction posts as [|p posts IH]; simpl; [|apply IH].
  induction comments as [|c comments IHc]; simpl; [done | by f_equal].
Qed.

Lemma interleaved_from items ps cs vars :
  agrees ps cs vars →
  ∃ vars',
    for_in items
      (λ item,
         match item with
         | inl post => record_activity add_post (post_subreddit post)
         | inr comment => record_activity add_comment (comment_subreddit comment)
         end) vars = Return vars' ∧
    agrees (post_tags items ++ ps) (comment_tags items ++ cs) vars'.
Proof.
  revert ps cs vars. induction items as [|[p|c] items IH]; intros ps cs [s d] Hagree.
  - by exists (s, d).
  - cbn [for_in]. rewrite record_activity_returns. simpl.
    destruct (IH _ _ _ (agrees_post _ _ _ _ (post_subreddit p) Hagree))
      as (vars' & Hrun & Hagree').
    exists vars'. split; [done|].
    eapply agrees_Permutation; [| |done]; [|done].
    by rewrite Permutation_middle.
  - cbn [for_in]. rewrite record_activity_returns. simpl.
    destruct (IH _ _ _ (agrees_comment _ _ _ _ (comment_subreddit c) Hagree))
      as (vars' & Hrun & Hagree').
    exists vars'. split; [done|].
    eapply agrees_Permutation; [| |done]; [done|].
    by rewrite Permutation_middle.
Qed.

(** Whatever the interleaving, the loop body runs to the end and leaves
    the tallies of the items it has seen. *)
Lemma collect_interleaved_agrees items :
  ∃ vars, collect_interleaved items = Return vars ∧
          agrees (post_tags items) (comment_tags items) vars.
Proof.
  destruct (interleaved_from items [] [] (∅, []) agrees_empty) as (vars & Hrun & Hagree).
  exists vars. split; [done|]. by rewrite !app_nil_r in Hagree.
Qed.

Lemma collect_subreddits_agrees (posts : list post) (comments : list comment) :
  ∃ vars, collect_subreddits posts comments = Return vars ∧
          agrees (post_subreddit <$> posts) (comment_subreddit <$> comments) vars.
Proof.
  rewrite collect_subreddits_interleaved.
  destruct (collect_interleaved_agrees ((inl <$> posts) ++ (inr <$> comments)))
    as (vars & Hrun & Hagree).
  rewrite post_tags_code, comment_tags_code in Hagree. eauto.
Qed.

(** Two states with the same tallies hold the same set and equal
    dictionaries. *)
Lemma agrees_unique ps cs vars1 vars2 :
  agrees ps cs vars1 → agrees ps cs vars2 →
  vars1.1 = vars2.1 ∧ dict_eq vars1.2 vars2.2 ∧ vars1.2 ≡ₚ vars2.2.
Proof.
  intros [Hk1 Hs1 Hg1 _ _] [Hk2 Hs2 Hg2 _ _].
  assert (dict_eq vars1.2 vars2.2) as Heq by (intros c; by rewrite Hg1, Hg2).
  split_and!; [|done|by apply dict_eq_Permutation].
  apply set_eq. intros c. by rewrite Hs1, Hs2.
Qed.

(** The keys of the dictionary are the elements of the set. *)
Lemma agrees_keys_elements ps cs vars :
  agrees ps cs vars → vars.2.*1 ≡ₚ elements vars.1.
Proof.
  intros [Hk Hs Hg _ _]. apply NoDup_Permutation; [done | apply NoDup_elements |].
  intros c. rewrite elem_of_elements, Hs.
  destruct (decide (c ∈ vars.2.*1)) as [Hin|Hout].
  - split; [intros _|done]. apply dec_stable. intros Hnot.
    apply dict_get_None in Hin; [done|].
    rewrite Hg. unfold tallied. by rewrite decide_False.
  - split; [done|]. intros Hin. apply dict_get_None in Hout.
    rewrite Hg in Hout. unfold tallied in Hout. by rewrite decide_True in Hout.
Qed.

Lemma sum_over_Permutation l1 l2 f d : l1 ≡ₚ l2 → sum_over l1 f d = sum_over l2 f d.
Proof.
  unfold sum_over. induction 1; simpl; try lia.
Qed.

Lemma sum_over_cons_absent l f d k v :
  k ∉ l → sum_over l f ((k, v) :: d) = sum_over l f d.
Proof.
  unfold sum_over. induction l as [|c l IH]; [done|].
  rewrite not_elem_of_cons. intros [Hne Hl]. cbn [foldr].
  rewrite IH by done. cbn [dict_get]. by rewrite decide_False.
Qed.

Lemma sum_over_keys f d : NoDup d.*1 → sum_over d.*1 f d = total f d.
Proof.
  induction d as [|[k v] d IH]; [done|].
  rewrite fmap_cons, NoDup_cons. intros [Hk Hd].
  change (sum_over ((k, v).1 :: d.*1) f ((k, v) :: d))
    with (from_option f 0 (dict_get k ((k, v) :: d)) + sum_over d.*1 f ((k, v) :: d)).
  simpl dict_get. rewrite decide_True by done. simpl.
  by rewrite sum_over_cons_absent, IH.
Qed.
End aggregator_facts.

(* ===================================================================== *)
(** * Running the methods                                                 *)
(* ===================================================================== *)

Section running.
Import Praw.

Lemma bind_returns {A B} (m : py A) (k : A → py B) w a w' :
  m w = (Return a, w') → (m ≫= k) w = k a w'.
Proof. intros Hm. unfold mbind, py_bind. by rewrite Hm. Qed.

Lemma bind_raises {A B} (m : py A) (k : A → py B) w e w' :
  m w = (Raise e, w') → (m ≫= k) w = (Raise e, w').
Proof. intros Hm. unfold mbind, py_bind. by rewrite Hm. Qed.

(** [_save_to_json] always returns: a failure to write is printed. *)
Lemma _save_to_json_run self data filename w :
  crawler._save_to_json self data filename w = (Return (), saved self data filename w).
Proof.
  unfold crawler._save_to_json, saved, filepath_of, output_data_of.
  unfold mbind, py_bind, datetime_now, try_except, write_json, print. simpl.
  destruct (clock w (ticks w)) as [now posix]. simpl.
  destruct (open_error w _ Writing) as [msg|]; simpl; done.
Qed.

Lemma crawler_get_active_subreddits_run self username limit w a :
  (crawler.get_user_recent_activity self username limit w).1 = Return a →
  ∃ subreddits subreddit_activity,
    crawler.collect_subreddits (crawler.recent_posts a) (crawler.recent_comments a) =
      Return (subreddits, subreddit_activity) ∧
    (crawler.get_active_subreddits self username limit w).1 =
      Return (sorted (list_of_set subreddits)).
Proof.
  intros Hfetch. unfold crawler.get_active_subreddits, mbind, py_bind.
  destruct (crawler.get_user_recent_activity self username limit w) as [[a'|e] w1];
    simplify_eq/=.
  destruct (collect_subreddits_agrees (crawler.recent_posts a) (crawler.recent_comments a))
    as ([s d] & Hrun & _).
  exists s, d. split; [done|]. unfold lift. rewrite Hrun.
  by rewrite _save_to_json_run.
Qed.

Lemma main_get_active_subreddits_run self username limit w a :
  (main.get_user_recent_activity self username limit w).1 = Return a →
  (main.get_active_subreddits self username limit w).1 =
    Return (sorted (list_of_set
      (main.collect_subreddits (main.recent_posts a) (main.recent_comments a)))).
Proof.
  intros Hfetch. unfold main.get_active_subreddits, mbind, py_bind.
  by destruct (main.get_user_recent_activity self username limit w) as [[a'|e] w1];
    simplify_eq/=.
Qed.

(** The set [main.py] collects. *)
Lemma main_collect_subreddits_elem (posts : list main.post) (comments : list main.comment) c :
  c ∈ main.collect_subreddits posts comments ↔
  c ∈ main.post_subreddit <$> posts ∨ c ∈ main.comment_subreddit <$> comments.
Proof.
  unfold main.collect_subreddits.
  assert (∀ {A} (tag : A → string) (l : list A) (s : gset string),
    c ∈ foldl (λ acc a, {[tag a]} ∪ acc) s l ↔ c ∈ tag <$> l ∨ c ∈ s) as Hfold.
  { intros A tag l. induction l as [|a l IH]; intros s; simpl; [set_solver|].
    rewrite IH. set_solver. }
  rewrite !Hfold. set_solver.
Qed.
End running.

(* ===================================================================== *)
(** * The properties of the aggregator                                    *)
(* ===================================================================== *)

Section aggregator_properties.
Local Open Scope Z_scope.

Lemma sorted_union_of_set (s : gset string) (post_tags comment_tags : list string) :
  (∀ c, c ∈ s ↔ c ∈ post_tags ∨ c ∈ comment_tags) →
  sorted_union (sorted (list_of_set s)) post_tags comment_tags.
Proof.
  intros Hs. unfold sorted_union, list_of_set. split_and!.
  - apply sorted_ascending, NoDup_elements.
  - intros c. by rewrite elem_of_sorted, elem_of_elements.
  - do 2 f_equal. apply set_eq. intros c.
    rewrite Hs, elem_of_union, !elem_of_list_to_set. done.
Qed.

Lemma occurrences_present c (l : list string) : c ∈ l → 1 ≤ occurrences c l.
Proof.
  induction l as [|x l IH]; [by intros ?%elem_of_nil|].
  rewrite occurrences_cons. pose proof (occurrences_nonneg c l).
  intros [->|Hin]%elem_of_cons.
  - rewrite decide_True by done. lia.
  - specialize (IH Hin). case_decide; lia.
Qed.
End aggregator_properties.

(** C1: whatever posts and comments the activity step hands over,
    [get_active_subreddits] returns, in both files, the communities tagged
    on some post or comment, in strictly ascending lexicographic order (so
    without repetition): the sorted union of the two families of tags. *)
Theorem active_subreddits_sorted_union
    (posts : list crawler.post) (comments : list crawler.comment)
    (mposts : list main.post) (mcomments : list main.comment) :
  (∃ subreddits subreddit_activity,
     crawler.collect_subreddits posts comments = Return (subreddits, subreddit_activity) ∧
     sorted_union (sorted (list_of_set subreddits))
       (crawler.post_subreddit <$> posts) (crawler.comment_subreddit <$> comments)) ∧
  (∀ self username limit w,
     (crawler.get_user_recent_activity self username limit w).1 =
       Return {| crawler.recent_posts := posts; crawler.recent_comments := comments |} →
     ∃ result,
       (crawler.get_active_subreddits self username limit w).1 = Return result ∧
       sorted_union result
         (crawler.post_subreddit <$> posts) (crawler.comment_subreddit <$> comments)) ∧
  (∀ self username limit w,
     (main.get_user_recent_activity self username limit w).1 =
       Return {| main.recent_posts := mposts; main.recent_comments := mcomments |} →
     ∃ result,
       (main.get_active_subreddits self username limit w).1 = Return result ∧
       sorted_union result
         (main.post_subreddit <$> mposts) (main.comment_subreddit <$> mcomments)).
Proof.
  destruct (collect_subreddits_agrees posts comments) as ([s d] & Hrun & Hagree).
  assert (sorted_union (sorted (list_of_set s))
            (crawler.post_subreddit <$> posts) (crawler.comment_subreddit <$> comments))
    as Hunion.
  { apply sorted_union_of_set. intros c.
    rewrite (agrees_set _ _ _ Hagree c). apply elem_of_app. }
  split_and!.
  - by exists s, d.
  - intros self username limit w Hfetch.
    destruct (crawler_get_active_subreddits_run _ _ _ _ _ Hfetch)
      as (s' & d' & Hrun' & Hret). simpl in Hrun'.
    rewrite Hrun in Hrun'. simplify_eq. eauto.
  - intros self username limit w Hfetch.
    eexists. split; [by apply main_get_active_subreddits_run|]. simpl.
    apply sorted_union_of_set, main_collect_subreddits_elem.
Qed.

(** C2: summed over the communities of the result, the post counts of the
    activity map give the number of posts and the comment counts the number
    of comments. *)
Theorem counts_sum_to_totals (posts : list crawler.post) (comments : list crawler.comment) :
  ∃ subreddits subreddit_activity,
    crawler.collect_subreddits posts comments = Return (subreddits, subreddit_activity) ∧
    sum_over (sorted (list_of_set subreddits)) crawler.posts subreddit_activity =
      len posts ∧
    sum_over (sorted (list_of_set subreddits)) crawler.comments subreddit_activity =
      len comments.
Proof.
  destruct (collect_subreddits_agrees posts comments) as ([s d] & Hrun & Hagree).
  exists s, d. split; [done|].
  assert (sorted (list_of_set s) ≡ₚ d.*1) as Hkeys.
  { rewrite sorted_Permutation. symmetry. apply (agrees_keys_elements _ _ _ Hagree). }
  rewrite !(sum_over_Permutation _ _ _ _ Hkeys).
  rewrite !sum_over_keys by apply (agrees_keys _ _ _ Hagree).
  pose proof (agrees_posts _ _ _ Hagree) as Hp.
  pose proof (agrees_comments _ _ _ Hagree) as Hc. simpl in Hp, Hc.
  rewrite Hp, Hc. unfold len. by rewrite !length_fmap.
Qed.

(** C3: every community tagged on a post or a comment has exactly one entry
    in the activity map; the entry counts the posts and the comments tagged
    with it, both counts are non-negative, and a community tagged on posts
    and on comments has both counts positive in its one entry. *)
Theorem one_entry_per_community (posts : list crawler.post) (comments : list crawler.comment) :
  ∃ subreddits subreddit_activity,
    crawler.collect_subreddits posts comments = Return (subreddits, subreddit_activity) ∧
    ∀ c,
      let post_tags := crawler.post_subreddit <$> posts in
      let comment_tags := crawler.comment_subreddit <$> comments in
      c ∈ post_tags ∨ c ∈ comment_tags →
      entries c subreddit_activity = 1%nat ∧
      ∃ entry,
        dict_get c subreddit_activity = Some entry ∧
        crawler.posts entry = occurrences c post_tags ∧
        crawler.comments entry = occurrences c comment_tags ∧
        (0 ≤ crawler.posts entry)%Z ∧ (0 ≤ crawler.comments entry)%Z ∧
        (c ∈ post_tags → c ∈ comment_tags →
         (1 ≤ crawler.posts entry)%Z ∧ (1 ≤ crawler.comments entry)%Z).
Proof.
  destruct (collect_subreddits_agrees posts comments) as ([s d] & Hrun & Hagree).
  exists s, d. split; [done|]. intros c post_tags comment_tags Hc.
  pose proof (agrees_get _ _ _ Hagree c) as Hget. simpl in Hget.
  unfold tallied in Hget. rewrite decide_True in Hget by by apply elem_of_app.
  split.
  - apply entries_once; [apply (agrees_keys _ _ _ Hagree)|].
    apply dec_stable. intros Hout. apply dict_get_None in Hout. congruence.
  - eexists. split; [done|]. simpl.
    split_and!; auto using occurrences_nonneg, occurrences_present.
Qed.

(** The example of the specification: posts in [go] and [rust], a comment
    in [go]. *)
Example go_rust_example :
  crawler.collect_subreddits [Sample.post_go; Sample.post_rust] [Sample.remark_go] =
    Return ({["go"; "rust"]}, [("go", crawler.Counts 1 1); ("rust", crawler.Counts 1 0)]) ∧
  sorted (list_of_set {["go"; "rust"]}) = ["go"; "rust"].
Proof. split; by vm_compute. Qed.

(** C4: the set of communities, the sorted list and the activity map do not
    depend on the order of the posts, on the order of the comments, nor on how
    the processing of posts and comments is interleaved; the maps are equal as
    dictionaries (same keys, same values). *)
Theorem aggregation_order_irrelevant
    (posts posts2 : list crawler.post) (comments comments2 : list crawler.comment)
    (items : list (crawler.post + crawler.comment)) :
  posts ≡ₚ posts2 → comments ≡ₚ comments2 →
  items ≡ₚ (inl <$> posts) ++ (inr <$> comments) →
  (∃ subreddits d1 d2 d3,
     crawler.collect_subreddits posts comments = Return (subreddits, d1) ∧
     crawler.collect_subreddits posts2 comments2 = Return (subreddits, d2) ∧
     collect_interleaved items = Return (subreddits, d3) ∧
     dict_eq d1 d2 ∧ dict_eq d1 d3 ∧
     ∀ enumeration, enumeration ≡ₚ list_of_set subreddits →
                    sorted enumeration = sorted (list_of_set subreddits)) ∧
  (∀ (mposts mposts2 : list main.post) (mcomments mcomments2 : list main.comment),
     mposts ≡ₚ mposts2 → mcomments ≡ₚ mcomments2 →
     main.collect_subreddits mposts mcomments = main.collect_subreddits mposts2 mcomments2 ∧
     main.collect_subreddits mposts mcomments =
       foldl (λ subreddits post, {[main.post_subreddit post]} ∪ subreddits)
         (foldl (λ subreddits comment, {[main.comment_subreddit comment]} ∪ subreddits)
            ∅ mcomments)
         mposts).
Proof.
  intros Hposts Hcomments Hitems. split.
  - destruct (collect_subreddits_agrees posts comments) as ([s d1] & Hrun1 & Hagree1).
    destruct (collect_subreddits_agrees posts2 comments2) as ([s2 d2] & Hrun2 & Hagree2).
    destruct (collect_interleaved_agrees items) as ([s3 d3] & Hrun3 & Hagree3).
    apply (agrees_Permutation _ (crawler.post_subreddit <$> posts)
             _ (crawler.comment_subreddit <$> comments)) in Hagree2;
      [|by rewrite Hposts|by rewrite Hcomments].
    apply (agrees_Permutation _ (crawler.post_subreddit <$> posts)
             _ (crawler.comment_subreddit <$> comments)) in Hagree3.
    2: { rewrite <- (post_tags_code posts comments). unfold post_tags. by rewrite Hitems. }
    2: { rewrite <- (comment_tags_code posts comments). unfold comment_tags.
         by rewrite Hitems. }
    destruct (agrees_unique _ _ _ _ Hagree1 Hagree2) as (Hs2 & Hd2 & _).
    destruct (agrees_unique _ _ _ _ Hagree1 Hagree3) as (Hs3 & Hd3 & _).
    simpl in *. subst s2 s3. exists s, d1, d2, d3.
    split_and!; try done. intros enumeration. apply sorted_order_irrelevant.
  - intros mposts mposts2 mcomments mcomments2 Hmp Hmc. split; apply set_eq; intros c.
    + rewrite !main_collect_subreddits_elem. by rewrite Hmp, Hmc.
    + rewrite main_collect_subreddits_elem.
      assert (∀ {A} (tag : A → string) (l : list A) (s : gset string),
        c ∈ foldl (λ acc a, {[tag a]} ∪ acc) s l ↔ c ∈ tag <$> l ∨ c ∈ s) as Hfold.
      { intros A tag l. induction l as [|a l IH]; intros s; simpl; [set_solver|].
        rewrite IH. set_solver. }
      rewrite !Hfold. set_solver.
Qed.

Lemma aggregation_order_irrelevant_witness :
  (∃ subreddits d1 d2 d3,
     crawler.collect_subreddits [Sample.post_go; Sample.post_rust] [Sample.remark_go] =
       Return (subreddits, d1) ∧
     crawler.collect_subreddits [Sample.post_rust; Sample.post_go] [Sample.remark_go] =
       Return (subreddits, d2) ∧
     collect_interleaved [inr Sample.remark_go; inl Sample.post_rust; inl Sample.post_go] =
       Return (subreddits, d3) ∧
     dict_eq d1 d2 ∧ dict_eq d1 d3 ∧
     ∀ enumeration, enumeration ≡ₚ list_of_set subreddits →
                    sorted enumeration = sorted (list_of_set subreddits)) ∧
  (∀ (mposts mposts2 : list main.post) (mcomments mcomments2 : list main.comment),
     mposts ≡ₚ mposts2 → mcomments ≡ₚ mcomments2 →
     main.collect_subreddits mposts mcomments = main.collect_subreddits mposts2 mcomments2 ∧
     main.collect_subreddits mposts mcomments =
       foldl (λ subreddits post, {[main.post_subreddit post]} ∪ subreddits)
         (foldl (λ subreddits comment, {[main.comment_subreddit comment]} ∪ subreddits)
            ∅ mcomments)
         mposts).
Proof.
  apply (aggregation_order_irrelevant
           [Sample.post_go; Sample.post_rust] [Sample.post_rust; Sample.post_go]
           [Sample.remark_go] [Sample.remark_go]
           [inr Sample.remark_go; inl Sample.post_rust; inl Sample.post_go]).
  - apply perm_swap.
  - reflexivity.
  - simpl. rewrite (Permutation_cons_append _ (inr Sample.remark_go)). apply perm_swap.
Defined.

(** The insertion order of the activity map, which [==] ignores, does follow
    the order of the items. *)
Example insertion_order_follows_items :
  crawler.collect_subreddits [Sample.post_go; Sample.post_rust] [] =
    Return ({["go"; "rust"]}, [("go", crawler.Counts 1 0); ("rust", crawler.Counts 1 0)]) ∧
  crawler.collect_subreddits [Sample.post_rust; Sample.post_go] [] =
    Return ({["go"; "rust"]}, [("rust", crawler.Counts 1 0); ("go", crawler.Counts 1 0)]).
Proof. split; by vm_compute. Qed.

(** C5: with no post and no comment the aggregator returns the empty list
    and builds the empty activity map, and returns normally. *)
Theorem empty_activity_gives_empty_result :
  crawler.collect_subreddits [] [] = Return (∅, []) ∧
  sorted (list_of_set ∅) = [] ∧
  main.collect_subreddits [] [] = ∅ ∧
  (∀ username,
     crawler.active_subreddits_data_value username ∅ [] =
       VDict [("username", VStr username); ("total_active_subreddits", VInt 0);
              ("subreddits_list", VList []); ("detailed_activity", VDict [])]) ∧
  (∀ self username limit w,
     (crawler.get_user_recent_activity self username limit w).1 =
       Return {| crawler.recent_posts := []; crawler.recent_comments := [] |} →
     (crawler.get_active_subreddits self username limit w).1 = Return []) ∧
  (∀ self username limit w,
     (main.get_user_recent_activity self username limit w).1 =
       Return {| main.recent_posts := []; main.recent_comments := [] |} →
     (main.get_active_subreddits self username limit w).1 = Return []).
Proof.
  split_and!; try done.
  - intros self username limit w Hfetch.
    destruct (crawler_get_active_subreddits_run _ _ _ _ _ Hfetch)
      as (s & d & Hrun & Hret).
    change (Return (∅, []) = Return (s, d)) in Hrun. by simplify_eq.
  - intros self username limit w Hfetch.
    by rewrite (main_get_active_subreddits_run _ _ _ _ _ Hfetch).
Qed.

(** On the sample account the crawl of [gopher] returns [go; rust]; the
    crawl of an account whose listings fail returns the empty list. *)
Lemma active_subreddits_sorted_union_witness :
  ∃ result,
    (crawler.get_active_subreddits Sample.crawler_online "gopher" 100 Sample.blank).1 =
      Return result ∧
    sorted_union result ["go"; "rust"] ["go"].
Proof.
  destruct (active_subreddits_sorted_union
              [Sample.post_go; Sample.post_rust] [Sample.remark_go] [] [])
    as (_ & Hcrawler & _).
  apply (Hcrawler Sample.crawler_online "gopher" 100%Z Sample.blank).
  vm_compute. reflexivity.
Defined.

Lemma empty_activity_gives_empty_result_witness :
  (crawler.get_active_subreddits
     (Sample.crawler_failing (NotFound "received 404 HTTP response")) "ghost" 100
     Sample.blank).1 = Return [].
Proof.
  destruct empty_activity_gives_empty_result as (_ & _ & _ & _ & Hcrawler & _).
  apply Hcrawler. vm_compute. reflexivity.
Defined.

(* ===================================================================== *)
(** * The stored comment body                                             *)
(* ===================================================================== *)

Section slices.
Implicit Types (s t : string) (n : nat).

Lemma length_app_str s t :
  String.length (s +:+ t) = String.length s + String.length t.
Proof. induction s as [|a s IH]; simpl; [done | by rewrite IH]. Qed.

Lemma length_slice_to n s : String.length (slice_to n s) = n `min` String.length s.
Proof.
  revert s. induction n as [|n IH]; intros [|a s]; simpl; try done.
  by rewrite IH.
Qed.

Lemma slice_to_prefix n s : String.prefix (slice_to n s) s = true.
Proof.
  revert s. induction n as [|n IH]; intros [|a s]; simpl; try done.
  destruct (ascii_dec a a); [apply IH | done].
Qed.

(** Both files store the body in the same way. *)
Lemma main_truncate_body body : main.truncate_body body = crawler.truncate_body body.
Proof. done. Qed.

Lemma truncate_body_short body :
  String.length body ≤ 200 → crawler.truncate_body body = body.
Proof.
  intros Hlen. unfold crawler.truncate_body, len_str.
  destruct (Z.gtb_spec (Z.of_nat (String.length body)) 200); [lia | done].
Qed.

Lemma truncate_body_long body :
  200 < String.length body →
  crawler.truncate_body body = slice_to 200 body +:+ "...".
Proof.
  intros Hlen. unfold crawler.truncate_body, len_str.
  destruct (Z.gtb_spec (Z.of_nat (String.length body)) 200); [done | lia].
Qed.

Lemma truncate_body_length body :
  String.length (crawler.truncate_body body) ≤ 203.
Proof.
  destruct (decide (String.length body ≤ 200)) as [Hshort|Hlong].
  - rewrite truncate_body_short by done. lia.
  - rewrite truncate_body_long by lia.
    rewrite length_app_str, length_slice_to.
    change (String.length "...") with 3. lia.
Qed.
End slices.

(** C6: a comment body of 250 characters is stored as its first 200
    characters followed by the three characters [...]; a body of 150
    characters is stored as it is.  This holds in both files. *)
Theorem comment_body_truncation (long short : Praw.Comment) :
  String.length (Praw.comment_body long) = 250 →
  String.length (Praw.comment_body short) = 150 →
  let prefix := slice_to 200 (Praw.comment_body long) in
  String.length prefix = 200 ∧
  String.prefix prefix (Praw.comment_body long) = true ∧
  crawler.comment_body (crawler.comment_of long) = prefix +:+ "..." ∧
  main.comment_body (main.comment_of long) = prefix +:+ "..." ∧
  String.length (prefix +:+ "...") = 203 ∧
  crawler.comment_body (crawler.comment_of short) = Praw.comment_body short ∧
  main.comment_body (main.comment_of short) = Praw.comment_body short.
Proof.
  intros Hlong Hshort prefix. subst prefix.
  cbn [crawler.comment_body crawler.comment_of main.comment_body main.comment_of].
  rewrite (main_truncate_body (Praw.comment_body long)).
  rewrite (main_truncate_body (Praw.comment_body short)).
  rewrite (truncate_body_long (Praw.comment_body long)) by lia.
  rewrite (truncate_body_short (Praw.comment_body short)) by lia.
  rewrite length_app_str, length_slice_to, Hlong.
  split_and!; try done; try lia. apply slice_to_prefix.
Qed.

(** C10: the body is cut only when it is longer than 200 characters: a body
    of at most 200 characters, and so one of exactly 200, is stored as it
    is, a longer one as its first 200 characters and [...]; the stored body
    never exceeds 203 characters.  This holds in both files. *)
Theorem truncation_threshold (c : Praw.Comment) :
  let body := Praw.comment_body c in
  let stored := crawler.comment_body (crawler.comment_of c) in
  main.comment_body (main.comment_of c) = stored ∧
  (String.length body = 200 → stored = body) ∧
  (String.length body ≤ 200 → stored = body) ∧
  (200 < String.length body → stored = slice_to 200 body +:+ "...") ∧
  (stored ≠ body → 200 < String.length body) ∧
  String.length stored ≤ 203.
Proof.
  intros body stored. subst body stored.
  cbn [crawler.comment_body crawler.comment_of main.comment_body main.comment_of].
  split_and!.
  - done.
  - intros Hlen. apply truncate_body_short. lia.
  - apply truncate_body_short.
  - apply truncate_body_long.
  - intros Hcut. apply dec_stable. intros Hshort. apply Hcut.
    apply truncate_body_short. lia.
  - apply truncate_body_length.
Qed.

Lemma comment_body_truncation_witness :
  let prefix := slice_to 200 (Praw.comment_body Sample.comment_long) in
  String.length prefix = 200 ∧
  String.prefix prefix (Praw.comment_body Sample.comment_long) = true ∧
  crawler.comment_body (crawler.comment_of Sample.comment_long) = prefix +:+ "..." ∧
  main.comment_body (main.comment_of Sample.comment_long) = prefix +:+ "..." ∧
  String.length (prefix +:+ "...") = 203 ∧
  crawler.comment_body (crawler.comment_of Sample.comment_short) =
    Praw.comment_body Sample.comment_short ∧
  main.comment_body (main.comment_of Sample.comment_short) =
    Praw.comment_body Sample.comment_short.
Proof.
  apply (comment_body_truncation Sample.comment_long Sample.comment_short);
    vm_compute; reflexivity.
Defined.

(* ===================================================================== *)
(** * Fetch failures                                                      *)
(* ===================================================================== *)

Section fetch_failures.
Import Praw.

Lemma fetch_failure_is_Exception e : fetch_failure e → is_Exception e = true.
Proof. by destruct 1. Qed.

Lemma for_in_ext {A S} (body1 body2 : A → S → py S) (xs : list A) (vars : S) w :
  (∀ a vars w, body1 a vars w = body2 a vars w) →
  for_in xs body1 vars w = for_in xs body2 vars w.
Proof.
  intros Hext. revert vars w. induction xs as [|a xs IH]; intros vars w; [done|].
  cbn [for_in]. unfold mbind, py_bind. rewrite Hext.
  destruct (body2 a vars w) as [[vars'|e] w']; [apply IH | done].
Qed.

(** A loop whose body updates its variables and sleeps only sleeps. *)
Lemma for_in_napping {A S} (g : A → S → S) (xs : list A) (vars : S) w :
  for_in xs (λ a vars, sleep_tenth;; mret (g a vars)) vars w =
  (Return (foldl (λ vars a, g a vars) vars xs), set_naps (λ n, n + length xs) w).
Proof.
  revert vars w. induction xs as [|a xs IH]; intros vars w.
  - simpl. unfold mret, py_ret. f_equal. destruct w. unfold set_naps. simpl.
    f_equal. lia.
  - cbn [for_in]. unfold mbind at 1. unfold py_bind at 1.
    unfold mbind at 1. unfold py_bind at 1. unfold sleep_tenth at 1.
    unfold mret at 1. unfold py_ret at 1. rewrite IH. simpl. f_equal.
    unfold set_naps. simpl. f_equal. lia.
Qed.

(** A listing that fails takes the loop over it down, whatever was
    gathered; only time has passed. *)
Lemma for_listing_napping_fails {A S} (g : A → S → S) (l : listing A) (vars : S) e w :
  failure l = Some e →
  for_listing l (λ a vars, sleep_tenth;; mret (g a vars)) vars w =
  (Raise e, set_naps (λ n, n + length (items l)) w).
Proof.
  intros Hfail. unfold for_listing.
  erewrite bind_returns; [|apply for_in_napping]. by rewrite Hfail.
Qed.

Lemma for_listing_napping_returns {A S} (g : A → S → S) (l : listing A) (vars : S) w :
  failure l = None →
  for_listing l (λ a vars, sleep_tenth;; mret (g a vars)) vars w =
  (Return (foldl (λ vars a, g a vars) vars (items l)),
   set_naps (λ n, n + length (items l)) w).
Proof.
  intros Hfail. unfold for_listing.
  erewrite bind_returns; [|apply for_in_napping]. by rewrite Hfail.
Qed.

Lemma try_except_catches {A} (body : py A) (handler : pyexn → py A) e w w' :
  body w = (Raise e, w') → is_Exception e = true →
  try_except body handler w = handler e w'.
Proof. intros Hbody He. unfold try_except. by rewrite Hbody, He. Qed.

Lemma crawler_public_info_degraded self username e w :
  redditor (crawler.reddit self) username = Raise e → is_Exception e = true →
  degraded (crawler.get_user_public_info self username) w (VDict [])
    ["error fetching user info for " +:+ username +:+ ": " +:+ str_exn e].
Proof.
  intros Hfetch He. unfold degraded, crawler.get_user_public_info.
  erewrite try_except_catches; [| |done].
  2: { unfold mbind, py_bind, lift. by rewrite Hfetch. }
  eexists. split; [done|]. done.
Qed.

Lemma main_public_info_degraded self username e w :
  redditor (main.reddit self) username = Raise e → is_Exception e = true →
  degraded (main.get_user_public_info self username) w (VDict [])
    ["error fetching user info for " +:+ username +:+ ": " +:+ str_exn e].
Proof.
  intros Hfetch He. unfold degraded, main.get_user_public_info.
  erewrite try_except_catches; [| |done].
  2: { unfold mbind, py_bind, lift. by rewrite Hfetch. }
  eexists. split; [done|]. done.
Qed.

Lemma crawler_activity_degraded self username limit e w :
  activity_error (crawler.reddit self) username limit = Some e →
  is_Exception e = true →
  degraded (crawler.get_user_recent_activity self username limit) w
    {| crawler.recent_posts := []; crawler.recent_comments := [] |}
    ["error fetching activity for " +:+ username +:+ ": " +:+ str_exn e].
Proof.
  unfold activity_error. intros Hfetch He.
  unfold degraded, crawler.get_user_recent_activity.
  destruct (failure (limited (Some limit) (submissions_new _ username)))
    as [e1|] eqn:Hsub.
  - simplify_eq. erewrite try_except_catches; [| |done].
    2: { apply bind_raises.
         apply (for_listing_napping_fails (λ a acc, acc ++ [crawler.post_of a])), Hsub. }
    eexists. split; [done|]. done.
  - erewrite try_except_catches; [| |done].
    2: { erewrite bind_returns.
         2: apply (for_listing_napping_returns (λ a acc, acc ++ [crawler.post_of a])), Hsub.
         apply bind_raises.
         apply (for_listing_napping_fails (λ a acc, acc ++ [crawler.comment_of a])), Hfetch. }
    eexists. split; [done|]. done.
Qed.

Lemma main_activity_degraded self username limit e w :
  activity_error (main.reddit self) username limit = Some e →
  is_Exception e = true →
  degraded (main.get_user_recent_activity self username limit) w
    {| main.recent_posts := []; main.recent_comments := [] |}
    ["error fetching activity for " +:+ username +:+ ": " +:+ str_exn e].
Proof.
  unfold activity_error. intros Hfetch He.
  unfold degraded, main.get_user_recent_activity.
  destruct (failure (limited (Some limit) (submissions_new _ username)))
    as [e1|] eqn:Hsub.
  - simplify_eq. erewrite try_except_catches; [| |done].
    2: { apply bind_raises.
         apply (for_listing_napping_fails (λ a acc, acc ++ [main.post_of a])), Hsub. }
    eexists. split; [done|]. done.
  - erewrite try_except_catches; [| |done].
    2: { erewrite bind_returns.
         2: apply (for_listing_napping_returns (λ a acc, acc ++ [main.post_of a])), Hsub.
         apply bind_raises.
         apply (for_listing_napping_fails (λ a acc, acc ++ [main.comment_of a])), Hfetch. }
    eexists. split; [done|]. done.
Qed.

Lemma for_listing_ext {A S} (body1 body2 : A → S → py S) (l : listing A) (vars : S) w :
  (∀ a vars w, body1 a vars w = body2 a vars w) →
  for_listing l body1 vars w = for_listing l body2 vars w.
Proof.
  intros Hext. unfold for_listing, mbind, py_bind.
  by rewrite (for_in_ext body1 body2).
Qed.

Lemma crawler_subscriptions_degraded self e w :
  failure (user_subreddits (crawler.reddit self)) = Some e → is_Exception e = true →
  degraded (crawler.get_my_subscriptions self) w []
    ["error fetching subscriptions: " +:+ str_exn e;
     "make sure you're authenticated with username/password"].
Proof.
  intros Hfetch He. unfold degraded, crawler.get_my_subscriptions.
  erewrite try_except_catches; [| |done].
  2: { apply bind_raises.
       erewrite for_listing_ext.
       - apply (for_listing_napping_fails
                  (λ a vars, (vars.1 ++ [subreddit_display_name a],
                              vars.2 ++ [crawler.subreddit_details_value a]))), Hfetch.
       - by intros a [subs details] w0. }
  eexists. split; [done|]. simpl. by rewrite <- app_assoc.
Qed.

Lemma main_subscriptions_degraded self e w :
  failure (user_subreddits (main.reddit self)) = Some e → is_Exception e = true →
  degraded (main.get_my_subscriptions self) w []
    ["error fetching subscriptions: " +:+ str_exn e;
     "make sure you're authenticated with username/password"].
Proof.
  intros Hfetch He. unfold degraded, main.get_my_subscriptions.
  erewrite try_except_catches; [| |done].
  2: { apply bind_raises.
       apply (for_listing_napping_fails (λ a acc, acc ++ [subreddit_display_name a])),
         Hfetch. }
  eexists. split; [done|]. simpl. by rewrite <- app_assoc.
Qed.

Lemma crawler_friends_degraded self e w :
  failure (user_friends (crawler.reddit self)) = Some e → is_Exception e = true →
  degraded (crawler.get_my_friends self) w []
    ["error fetching friends list: " +:+ str_exn e].
Proof.
  intros Hfetch He. unfold degraded, crawler.get_my_friends.
  erewrite try_except_catches; [| |done].
  2: { apply bind_raises.
       erewrite for_listing_ext.
       - apply (for_listing_napping_fails
                  (λ a vars, (vars.1 ++ [friend_name a],
                              vars.2 ++ [crawler.friend_details_value a]))), Hfetch.
       - by intros a [friends details] w0. }
  eexists. split; [done|]. done.
Qed.

Lemma main_friends_degraded self e w :
  failure (user_friends (main.reddit self)) = Some e → is_Exception e = true →
  degraded (main.get_my_friends self) w []
    ["error fetching friends list: " +:+ str_exn e].
Proof.
  intros Hfetch He. unfold degraded, main.get_my_friends.
  erewrite try_except_catches; [| |done].
  2: { apply bind_raises.
       apply (for_listing_napping_fails (λ a acc, acc ++ [friend_name a])), Hfetch. }
  eexists. split; [done|]. done.
Qed.

(** A failed activity step does not stop the aggregation: the empty
    result is aggregated and persisted like any other. *)
Lemma crawler_aggregation_proceeds self username limit e w :
  activity_error (crawler.reddit self) username limit = Some e →
  is_Exception e = true →
  ∃ w1,
    crawler.get_user_recent_activity self username limit w =
      (Return {| crawler.recent_posts := []; crawler.recent_comments := [] |}, w1) ∧
    crawler.get_active_subreddits self username limit w =
      (Return [],
       saved self (crawler.active_subreddits_data_value username ∅ [])
         ("active_subreddits_" +:+ username) w1).
Proof.
  intros Hfetch He.
  destruct (crawler_activity_degraded self username limit e w Hfetch He)
    as (w1 & Hrun & _). exists w1. split; [done|].
  unfold crawler.get_active_subreddits.
  erewrite bind_returns; [|done]. cbv beta.
  erewrite (bind_returns (lift _)); [|done]. cbv beta iota.
  erewrite bind_returns; [|apply _save_to_json_run]. done.
Qed.

Lemma main_aggregation_proceeds self username limit e w :
  activity_error (main.reddit self) username limit = Some e →
  is_Exception e = true →
  (main.get_active_subreddits self username limit w).1 = Return [].
Proof.
  intros Hfetch He.
  destruct (main_activity_degraded self username limit e w Hfetch He)
    as (w1 & Hrun & _).
  apply (main_get_active_subreddits_run self username limit w
           {| main.recent_posts := []; main.recent_comments := [] |}).
  by rewrite Hrun.
Qed.
End fetch_failures.

(** C7: when the request behind a fetch operation ends in an exception of
    class [Exception] (a network, authorization or not-found failure is
    one), the operation prints a message and returns the empty result of
    its shape: [{}] for the profile, two empty lists for the activity, [[]]
    for subscriptions and friends.  Nothing propagates and no file is
    touched, so [get_active_subreddits] goes on to aggregate and persist the
    empty activity.  This holds in both files. *)
Theorem fetch_failure_gives_empty_result
    (e : pyexn) (username : string) (limit : Z) (w : world) :
  is_Exception e = true →
  (∀ e', fetch_failure e' → is_Exception e' = true) ∧
  (∀ self : crawler.RedditCrawler,
     let net := crawler.reddit self in
     (Praw.redditor net username = Raise e →
      degraded (crawler.get_user_public_info self username) w (VDict [])
        ["error fetching user info for " +:+ username +:+ ": " +:+ str_exn e]) ∧
     (activity_error net username limit = Some e →
      degraded (crawler.get_user_recent_activity self username limit) w
        {| crawler.recent_posts := []; crawler.recent_comments := [] |}
        ["error fetching activity for " +:+ username +:+ ": " +:+ str_exn e] ∧
      ∃ w1,
        crawler.get_user_recent_activity self username limit w =
          (Return {| crawler.recent_posts := []; crawler.recent_comments := [] |}, w1) ∧
        crawler.get_active_subreddits self username limit w =
          (Return [],
           saved self (crawler.active_subreddits_data_value username ∅ [])
             ("active_subreddits_" +:+ username) w1)) ∧
     (Praw.failure (Praw.user_subreddits net) = Some e →
      degraded (crawler.get_my_subscriptions self) w []
        ["error fetching subscriptions: " +:+ str_exn e;
         "make sure you're authenticated with username/password"]) ∧
     (Praw.failure (Praw.user_friends net) = Some e →
      degraded (crawler.get_my_friends self) w []
        ["error fetching friends list: " +:+ str_exn e])) ∧
  (∀ self : main.RedditCrawler,
     let net := main.reddit self in
     (Praw.redditor net username = Raise e →
      degraded (main.get_user_public_info self username) w (VDict [])
        ["error fetching user info for " +:+ username +:+ ": " +:+ str_exn e]) ∧
     (activity_error net username limit = Some e →
      degraded (main.get_user_recent_activity self username limit) w
        {| main.recent_posts := []; main.recent_comments := [] |}
        ["error fetching activity for " +:+ username +:+ ": " +:+ str_exn e] ∧
      (main.get_active_subreddits self username limit w).1 = Return []) ∧
     (Praw.failure (Praw.user_subreddits net) = Some e →
      degraded (main.get_my_subscriptions self) w []
        ["error fetching subscriptions: " +:+ str_exn e;
         "make sure you're authenticated with username/password"]) ∧
     (Praw.failure (Praw.user_friends net) = Some e →
      degraded (main.get_my_friends self) w []
        ["error fetching friends list: " +:+ str_exn e])).
Proof.
  intros He. split_and!.
  - apply fetch_failure_is_Exception.
  - intros self net. subst net. split_and!.
    + intros Hfetch. by apply crawler_public_info_degraded.
    + intros Hfetch. split.
      * by apply crawler_activity_degraded.
      * by apply (crawler_aggregation_proceeds self username limit e).
    + intros Hfetch. by apply crawler_subscriptions_degraded.
    + intros Hfetch. by apply crawler_friends_degraded.
  - intros self net. subst net. split_and!.
    + intros Hfetch. by apply main_public_info_degraded.
    + intros Hfetch. split.
      * by apply main_activity_degraded.
      * by apply (main_aggregation_proceeds self username limit e).
    + intros Hfetch. by apply main_subscriptions_degraded.
    + intros Hfetch. by apply main_friends_degraded.
Qed.

Lemma fetch_failure_gives_empty_result_witness :
  let e := NotFound "received 404 HTTP response" in
  let self := Sample.crawler_failing e in
  degraded (crawler.get_user_public_info self "ghost") Sample.blank (VDict [])
    ["error fetching user info for ghost: received 404 HTTP response"] ∧
  degraded (crawler.get_user_recent_activity self "ghost" 25) Sample.blank
    {| crawler.recent_posts := []; crawler.recent_comments := [] |}
    ["error fetching activity for ghost: received 404 HTTP response"] ∧
  degraded (crawler.get_my_subscriptions self) Sample.blank []
    ["error fetching subscriptions: received 404 HTTP response";
     "make sure you're authenticated with username/password"] ∧
  degraded (crawler.get_my_friends self) Sample.blank []
    ["error fetching friends list: received 404 HTTP response"].
Proof.
  intros e self.
  destruct (fetch_failure_gives_empty_result e "ghost" 25 Sample.blank eq_refl)
    as (_ & Hcrawler & _).
  destruct (Hcrawler self) as (Hinfo & Hactivity & Hsubs & Hfriends).
  split_and!.
  - apply Hinfo. reflexivity.
  - apply Hactivity. reflexivity.
  - apply Hsubs. reflexivity.
  - apply Hfriends. reflexivity.
Defined.

(* ===================================================================== *)
(** * Timestamps                                                          *)
(* ===================================================================== *)

Section timestamps.
Local Open Scope N_scope.
Implicit Types (n k acc : N) (w : nat) (rest : string).

Lemma app_String a (s t : string) : String a s +:+ t = String a (s +:+ t).
Proof. done. Qed.

Lemma app_empty (t : string) : "" +:+ t = t.
Proof. done. Qed.

Lemma app_empty_r (s : string) : s +:+ "" = s.
Proof. induction s as [|a s IH]; [done|]. by rewrite app_String, IH. Qed.

Lemma digit_value_char k : k < 10 → digit_value (digit_char k) = Some k.
Proof.
  intros Hk. unfold digit_value, digit_char.
  rewrite N_ascii_embedding by lia.
  destruct (N.leb_spec 48 (48 + k)); [|lia].
  destruct (N.leb_spec (48 + k) 57); [|lia].
  simpl. f_equal. lia.
Qed.

Lemma leading_digit w n : n < 10 ^ N.of_nat (S w) → n / 10 ^ N.of_nat w < 10.
Proof.
  intros Hn. apply N.Div0.div_lt_upper_bound.
  rewrite Nat2N.inj_succ, N.pow_succ_r' in Hn. lia.
Qed.

Lemma trailing_digits w n : n mod 10 ^ N.of_nat w < 10 ^ N.of_nat w.
Proof. apply N.mod_lt, N.pow_nonzero. lia. Qed.

(** Reading back the digits [zero_pad] wrote. *)
Lemma read_digits_zero_pad w n acc rest :
  n < 10 ^ N.of_nat w →
  read_digits w acc (zero_pad w n +:+ rest) = Some (acc * 10 ^ N.of_nat w + n, rest).
Proof.
  revert n acc. induction w as [|w IH]; intros n acc Hn.
  - simpl in *. rewrite app_empty. do 2 f_equal. lia.
  - cbn [zero_pad read_digits]. rewrite app_String.
    rewrite digit_value_char by by apply leading_digit.
    rewrite IH by apply trailing_digits. do 2 f_equal.
    rewrite Nat2N.inj_succ, N.pow_succ_r'.
    pose proof (N.div_mod n (10 ^ N.of_nat w)) as Hdiv.
    specialize (Hdiv ltac:(apply N.pow_nonzero; lia)). nia.
Qed.

Lemma has_shape_zero_pad w n (p : list shape) rest :
  n < 10 ^ N.of_nat w →
  has_shape (replicate w D ++ p) (zero_pad w n +:+ rest) = has_shape p rest.
Proof.
  revert n. induction w as [|w IH]; intros n Hn; [done|].
  cbn [zero_pad replicate app has_shape]. rewrite app_String.
  cbn [has_shape]. rewrite digit_value_char by by apply leading_digit.
  apply IH, trailing_digits.
Qed.

Lemma has_shape_char (c : ascii) (p : list shape) rest :
  has_shape (C c :: p) (String c rest) = has_shape p rest.
Proof. simpl. by rewrite bool_decide_eq_true_2. Qed.

Lemma read_char_String (c : ascii) rest : read_char c (String c rest) = Some rest.
Proof. simpl. by rewrite decide_True. Qed.

(** The bounds [valid_datetime] gives to the fields. *)
Lemma valid_datetime_bounds d :
  valid_datetime d = true →
  year d < 10 ^ N.of_nat 4 ∧ month d < 10 ^ N.of_nat 2 ∧ day d < 10 ^ N.of_nat 2 ∧
  hour d < 10 ^ N.of_nat 2 ∧ minute d < 10 ^ N.of_nat 2 ∧ second d < 10 ^ N.of_nat 2 ∧
  microsecond d < 10 ^ N.of_nat 6.
Proof.
  unfold valid_datetime. rewrite !andb_true_iff.
  rewrite !N.leb_le, !N.ltb_lt. intros Hvalid.
  assert (days_in_month (year d) (month d) ≤ 31) as Hdays.
  { unfold days_in_month.
    repeat (match goal with |- context [match ?x with _ => _ end] => destruct x end);
      lia. }
  change (10 ^ N.of_nat 4) with 10000. change (10 ^ N.of_nat 2) with 100.
  change (10 ^ N.of_nat 6) with 1000000. lia.
Qed.

(** [fromisoformat] reads back what [isoformat] wrote. *)
Lemma fromisoformat_isoformat d :
  valid_datetime d = true → fromisoformat (isoformat d) = Some d.
Proof.
  intros Hvalid.
  destruct (valid_datetime_bounds d Hvalid) as (Hy & Hmo & Hd & Hh & Hmi & Hs & Hus).
  destruct d as [y mo dd h mi sec us]. cbn [year month day hour minute second microsecond] in *.
  unfold fromisoformat, isoformat.
  cbn [year month day hour minute second microsecond].
  rewrite read_digits_zero_pad by done. cbn [mbind option_bind].
  rewrite app_String, read_char_String. cbn [mbind option_bind]. rewrite app_empty.
  rewrite read_digits_zero_pad by done. cbn [mbind option_bind].
  rewrite app_String, read_char_String. cbn [mbind option_bind]. rewrite app_empty.
  rewrite read_digits_zero_pad by done. cbn [mbind option_bind].
  rewrite app_String, read_char_String. cbn [mbind option_bind]. rewrite app_empty.
  rewrite read_digits_zero_pad by done. cbn [mbind option_bind].
  rewrite app_String, read_char_String. cbn [mbind option_bind]. rewrite app_empty.
  rewrite read_digits_zero_pad by done. cbn [mbind option_bind].
  rewrite app_String, read_char_String. cbn [mbind option_bind]. rewrite app_empty.
  rewrite read_digits_zero_pad by done. cbn [mbind option_bind].
  rewrite !N.mul_0_l, !N.add_0_l.
  destruct (N.eqb_spec us 0) as [->|Hne].
  - cbn [read_fraction mbind option_bind]. rewrite bool_decide_eq_true_2 by done.
    by rewrite Hvalid.
  - rewrite app_String, app_empty. cbn [read_fraction].
    rewrite read_char_String. cbn [mbind option_bind].
    rewrite <- (app_empty_r (zero_pad 6 us)).
    rewrite read_digits_zero_pad by done. rewrite N.mul_0_l, N.add_0_l.
    cbn [mbind option_bind].
    rewrite bool_decide_eq_true_2 by done. by rewrite Hvalid.
Qed.

(** What [isoformat] writes has the layout of an ISO-8601 date and time. *)
Lemma is_iso8601_isoformat d : valid_datetime d = true → is_iso8601 (isoformat d) = true.
Proof.
  intros Hvalid.
  destruct (valid_datetime_bounds d Hvalid) as (Hy & Hmo & Hd & Hh & Hmi & Hs & Hus).
  assert (∀ tail_shape tail,
    has_shape tail_shape tail = true →
    has_shape (iso_seconds ++ tail_shape)
      (zero_pad 4 (year d) +:+ "-" +:+ zero_pad 2 (month d) +:+ "-" +:+
       zero_pad 2 (day d) +:+ "T" +:+ zero_pad 2 (hour d) +:+ ":" +:+
       zero_pad 2 (minute d) +:+ ":" +:+ zero_pad 2 (second d) +:+ tail) = true)
    as Hmain.
  { intros tail_shape tail Htail.
    change (iso_seconds ++ tail_shape) with
      (replicate 4 D ++ C "-" :: replicate 2 D ++ C "-" :: replicate 2 D ++ C "T" ::
       replicate 2 D ++ C ":" :: replicate 2 D ++ C ":" :: replicate 2 D ++ tail_shape)%char.
    rewrite has_shape_zero_pad by done. rewrite app_String, has_shape_char, app_empty.
    rewrite has_shape_zero_pad by done. rewrite app_String, has_shape_char, app_empty.
    rewrite has_shape_zero_pad by done. rewrite app_String, has_shape_char, app_empty.
    rewrite has_shape_zero_pad by done. rewrite app_String, has_shape_char, app_empty.
    rewrite has_shape_zero_pad by done. rewrite app_String, has_shape_char, app_empty.
    by rewrite has_shape_zero_pad. }
  unfold is_iso8601, isoformat. apply orb_true_iff.
  destruct (N.eqb_spec (microsecond d) 0) as [Hzero|Hne].
  - left. rewrite <- (app_nil_r iso_seconds). by apply Hmain.
  - right. apply Hmain.
    change [C "."%char; D; D; D; D; D; D] with (C "."%char :: replicate 6 D ++ []).
    rewrite app_String, has_shape_char, app_empty.
    rewrite <- (app_empty_r (zero_pad 6 (microsecond d))).
    by rewrite has_shape_zero_pad.
Qed.
End timestamps.

(* ===================================================================== *)
(** * Persistence                                                         *)
(* ===================================================================== *)

Section json_facts.
Implicit Types (v : value) (d : pydict value).

Lemma dict_set_fresh {V} (d : pydict V) k (x : V) : k ∉ d.*1 → dict_set k x d = d ++ [(k, x)].
Proof.
  induction d as [|[k0 x0] d IH]; [done|].
  rewrite fmap_cons, not_elem_of_cons. intros [Hne Hd]. simpl.
  rewrite decide_False by done. by rewrite IH.
Qed.

(** Setting items with fresh, distinct keys appends them in order. *)
Lemma dict_update_fresh {V} (d items : pydict V) :
  NoDup (d.*1 ++ items.*1) → dict_update d items = d ++ items.
Proof.
  unfold dict_update. revert d. induction items as [|[k x] items IH]; intros d Hnd.
  - by rewrite app_nil_r.
  - rewrite fmap_cons in Hnd. simpl.
    rewrite dict_set_fresh.
    + rewrite IH; [by rewrite <- app_assoc|].
      rewrite fmap_app. simpl. by rewrite <- app_assoc.
    + apply NoDup_app in Hnd as (_ & Hdisj & _). intros Hin.
      apply (Hdisj k Hin). left.
Qed.

(** Reading back a document written by [json.dump] gives the object that
    was written, when all of it is in the encoder's table. *)
Lemma json_decode_encode v :
  json_native v = true → dicts_ok v → json_decode (json_encode v) = v.
Proof.
  induction v as [| | | | |l IH|d IH|] using value_nested_ind; try done.
  - simpl. intros Hnative Hok. f_equal.
    induction IH as [|x l Hx _ IHl]; [done|]. simpl in *.
    apply andb_true_iff in Hnative as [Hnx Hnl]. destruct Hok as [Hox Hol].
    by rewrite Hx, IHl.
  - simpl. intros Hnative [Hkeys Hok]. f_equal.
    match goal with |- dict_update [] ?items = _ => assert (items = d) as -> end.
    { clear Hkeys. induction IH as [|[k x] d Hx _ IHd]; [done|]. simpl in *.
      apply andb_true_iff in Hnative as [Hnx Hnd]. destruct Hok as [Hox Hod].
      by rewrite Hx, IHd. }
    by apply (dict_update_fresh []).
Qed.

(** The [default=str] hook: an object outside the table comes back as a
    string. *)
Example json_decode_encode_object repr :
  json_decode (json_encode (VObject repr)) = VStr repr.
Proof. done. Qed.
End json_facts.

Section result_objects.
Import Praw.

Lemma native_items {A} (f : A → value) (l : list A) :
  (∀ a, json_native (f a) = true) → forallb json_native (f <$> l) = true.
Proof. intros Hf. induction l as [|a l IH]; [done|]. csimpl. by rewrite Hf, IH. Qed.

Lemma ok_items {A} (f : A → value) (l : list A) :
  (∀ a, dicts_ok (f a)) → foldr (λ x P, dicts_ok x ∧ P) True (f <$> l).
Proof. intros Hf. induction l as [|a l IH]; [done|]. csimpl. auto. Qed.

Lemma optional_bool_native attr : json_native (crawler.optional_bool attr) = true.
Proof. by destruct attr. Qed.

Lemma optional_bool_ok attr : dicts_ok (crawler.optional_bool attr).
Proof. by destruct attr. Qed.

Lemma description_native text : json_native (crawler.description_value text) = true.
Proof. unfold crawler.description_value. destruct text; [by case_match | done]. Qed.

Lemma description_ok text : dicts_ok (crawler.description_value text).
Proof. unfold crawler.description_value. destruct text; [by case_match | done]. Qed.

Lemma user_info_native user posix_now :
  json_native (crawler.user_info_value user posix_now) = true.
Proof. csimpl. by rewrite !optional_bool_native. Qed.

Lemma user_info_ok user posix_now : dicts_ok (crawler.user_info_value user posix_now).
Proof.
  csimpl. split; [compute_done|].
  split_and!; try done; apply optional_bool_ok.
Qed.

Lemma post_value_ok p : dicts_ok (crawler.post_value p).
Proof. csimpl. split; [compute_done | done]. Qed.

Lemma comment_value_ok c : dicts_ok (crawler.comment_value c).
Proof. csimpl. split; [compute_done | done]. Qed.

Lemma subreddit_details_ok s : dicts_ok (crawler.subreddit_details_value s).
Proof.
  csimpl. split; [compute_done|]. split_and!; try done. apply description_ok.
Qed.

Lemma friend_details_ok f : dicts_ok (crawler.friend_details_value f).
Proof. csimpl. split; [compute_done | done]. Qed.

(** Every payload the methods persist is made of objects in the encoder's
    table, and its dictionaries are well formed. *)
Lemma result_object_native data : result_object data → json_native data = true.
Proof.
  destruct 1 as [user posix|username a|username posts comments s d Hrun
                 |listed|listed|username ts info subs Hinfo].
  - apply user_info_native.
  - csimpl. rewrite !native_items; done.
  - csimpl. rewrite native_items by done. csimpl.
    clear Hrun. induction d as [|[k c] d IH]; [done|]. csimpl in *. done.
  - csimpl. rewrite native_items by done. rewrite native_items; [done|].
    intros s. csimpl. by rewrite description_native.
  - csimpl. rewrite native_items by done. by rewrite native_items.
  - csimpl. rewrite native_items by done.
    destruct Hinfo as [->|(user & posix & ->)]; [done|].
    by rewrite user_info_native.
Qed.

Lemma result_object_ok data : result_object data → dicts_ok data.
Proof.
  destruct 1 as [user posix|username a|username posts comments s d Hrun
                 |listed|listed|username ts info subs Hinfo].
  - apply user_info_ok.
  - csimpl. split; [compute_done|]. split_and!; try done.
    + apply ok_items, post_value_ok.
    + apply ok_items, comment_value_ok.
  - assert (NoDup d.*1) as Hkeys.
    { destruct (collect_subreddits_agrees posts comments) as ([s' d'] & Hrun' & Hagree).
      rewrite Hrun in Hrun'. injection Hrun' as -> ->. apply (agrees_keys _ _ _ Hagree). }
    csimpl. split; [compute_done|]. split_and!; try done.
    + by apply ok_items.
    + by rewrite <- list_fmap_compose.
    + clear. induction d as [|[k c] d IH]; [done|]. csimpl. split; [|done].
      split; [compute_done | done].
  - csimpl. split; [compute_done|]. split_and!; try done.
    + by apply ok_items.
    + apply ok_items, subreddit_details_ok.
  - csimpl. split; [compute_done|]. split_and!; try done.
    + by apply ok_items.
    + apply ok_items, friend_details_ok.
  - csimpl. split; [compute_done|]. split_and!; try done.
    + destruct Hinfo as [->|(user & posix & ->)]; [by split; [constructor|]|].
      apply user_info_ok.
    + by apply ok_items.
Qed.
End result_objects.

Section persistence.

Lemma files_saved self data filename w :
  open_error w (filepath_of self filename) Writing = None →
  files (saved self data filename w) !! filepath_of self filename =
    Some (JsonText (json_encode (output_data_of (clock w (ticks w)).1 data filename))).
Proof.
  intros Hopen. unfold saved. rewrite Hopen. simpl. apply lookup_insert_eq.
Qed.

Lemma open_error_saved self data filename w :
  open_error (saved self data filename w) = open_error w.
Proof. unfold saved. by destruct (open_error w _ Writing). Qed.

(** The round trip for any payload in the encoder's table. *)
Lemma native_document_round_trip self data filename w :
  json_native data = true → dicts_ok data →
  valid_datetime (clock w (ticks w)).1 = true →
  open_error w (filepath_of self filename) Writing = None →
  ∃ w' timestamp,
    let document :=
      JObject [("timestamp", JString timestamp); ("data_type", JString filename);
               ("data", json_encode data)] in
    let read_back :=
      VDict [("timestamp", VStr timestamp); ("data_type", VStr filename);
             ("data", data)] in
    crawler._save_to_json self data filename w = (Return (), w') ∧
    files w' !! filepath_of self filename = Some (JsonText document) ∧
    is_iso8601 timestamp = true ∧
    fromisoformat timestamp = Some (clock w (ticks w)).1 ∧
    json_decode document = read_back ∧
    (open_error w (filepath_of self filename) Reading = None →
     read_json (filepath_of self filename) w' = (Return read_back, w')).
Proof.
  intros Hnative Hok Hvalid Hopen.
  exists (saved self data filename w), (isoformat (clock w (ticks w)).1).
  assert (json_decode
            (JObject [("timestamp", JString (isoformat (clock w (ticks w)).1));
                      ("data_type", JString filename); ("data", json_encode data)]) =
          VDict [("timestamp", VStr (isoformat (clock w (ticks w)).1));
                 ("data_type", VStr filename); ("data", data)]) as Hback.
  { simpl. rewrite json_decode_encode by done. done. }
  split_and!.
  - apply _save_to_json_run.
  - by apply files_saved.
  - by apply is_iso8601_isoformat.
  - by apply fromisoformat_isoformat.
  - done.
  - intros Hread. unfold read_json.
    rewrite open_error_saved, Hread, files_saved by done. by rewrite <- Hback.
Qed.
End persistence.

(** C9: every payload the methods hand to the persistence sink is written,
    when the file can be opened, as an object with exactly the keys
    [timestamp], [data_type] and [data]: an ISO-8601 string that
    [fromisoformat] parses back to the time of the call, the name given to
    the sink, and the payload; reading the document back gives the payload
    unchanged under [data]. *)
Theorem saved_document_round_trip
    (self : crawler.RedditCrawler) (data : value) (filename : string) (w : world) :
  result_object data →
  valid_datetime (clock w (ticks w)).1 = true →
  open_error w (filepath_of self filename) Writing = None →
  ∃ w' timestamp,
    let document :=
      JObject [("timestamp", JString timestamp); ("data_type", JString filename);
               ("data", json_encode data)] in
    let read_back :=
      VDict [("timestamp", VStr timestamp); ("data_type", VStr filename);
             ("data", data)] in
    crawler._save_to_json self data filename w = (Return (), w') ∧
    files w' !! filepath_of self filename = Some (JsonText document) ∧
    is_iso8601 timestamp = true ∧
    fromisoformat timestamp = Some (clock w (ticks w)).1 ∧
    json_decode document = read_back ∧
    (open_error w (filepath_of self filename) Reading = None →
     read_json (filepath_of self filename) w' = (Return read_back, w')).
Proof.
  intros Hdata. apply native_document_round_trip.
  - by apply result_object_native.
  - by apply result_object_ok.
Qed.

Lemma saved_document_round_trip_witness :
  let data := crawler.user_info_value Sample.user 1709208005%float in
  ∃ w' timestamp,
    let document :=
      JObject [("timestamp", JString timestamp);
               ("data_type", JString "user_public_info_gopher");
               ("data", json_encode data)] in
    let read_back :=
      VDict [("timestamp", VStr timestamp); ("data_type", VStr "user_public_info_gopher");
             ("data", data)] in
    crawler._save_to_json Sample.crawler_online data "user_public_info_gopher"
      Sample.blank = (Return (), w') ∧
    files w' !! "reddit_data/user_public_info_gopher.json" = Some (JsonText document) ∧
    is_iso8601 timestamp = true ∧
    fromisoformat timestamp = Some Sample.noon ∧
    json_decode document = read_back ∧
    (open_error Sample.blank "reddit_data/user_public_info_gopher.json" Reading = None →
     read_json "reddit_data/user_public_info_gopher.json" w' = (Return read_back, w')).
Proof.
  intros data.
  apply (saved_document_round_trip Sample.crawler_online data
           "user_public_info_gopher" Sample.blank).
  - apply user_info_object.
  - reflexivity.
  - reflexivity.
Defined.

(** The timestamp of the sample clock. *)
Example isoformat_noon : isoformat Sample.noon = "2024-02-29T12:00:05.000250".
Proof. reflexivity. Qed.

(** ** The payload of each call of the sink

    On their normal path the methods of [crawler.py] return what they
    fetched and leave the world [_save_to_json] leaves for one of the
    payloads of [result_object]. *)
Section normal_runs.
Import Praw.

Lemma foldl_snoc {A B} (f : A → B) (l : list A) (acc : list B) :
  foldl (λ acc a, acc ++ [f a]) acc l = acc ++ (f <$> l).
Proof.
  revert acc. induction l as [|a l IH]; intros acc; csimpl.
  - by rewrite app_nil_r.
  - rewrite IH. by rewrite <- app_assoc.
Qed.

Lemma foldl_snoc_pair {A B C} (f : A → B) (g : A → C) (l : list A)
    (acc : list B * list C) :
  foldl (λ vars a, (vars.1 ++ [f a], vars.2 ++ [g a])) acc l =
  (acc.1 ++ (f <$> l), acc.2 ++ (g <$> l)).
Proof.
  revert acc. induction l as [|a l IH]; intros [bs cs]; csimpl.
  - by rewrite !app_nil_r.
  - rewrite IH. csimpl. by rewrite <- !app_assoc.
Qed.

Lemma crawler_public_info_run self username user w :
  redditor (crawler.reddit self) username = Return user →
  let data := crawler.user_info_value user (clock w (ticks w)).2 in
  crawler.get_user_public_info self username w =
    (Return data, saved self data ("user_public_info_" +:+ username) (set_ticks S w)) ∧
  result_object data.
Proof.
  intros Hfetch data. split; [|constructor].
  unfold crawler.get_user_public_info, try_except.
  erewrite bind_returns; [|by unfold lift; rewrite Hfetch]. cbv beta.
  erewrite bind_returns; [|done].
  destruct (clock w (ticks w)) as [now posix] eqn:Hclock. cbv beta iota.
  erewrite bind_returns; [|apply _save_to_json_run]. subst data. done.
Qed.

Lemma crawler_activity_run self username limit w :
  let submissions := limited (Some limit) (submissions_new (crawler.reddit self) username) in
  let comments := limited (Some limit) (comments_new (crawler.reddit self) username) in
  failure submissions = None → failure comments = None →
  let result :=
    {| crawler.recent_posts := crawler.post_of <$> items submissions;
       crawler.recent_comments := crawler.comment_of <$> items comments |} in
  let data := crawler.activity_data_value username result in
  crawler.get_user_recent_activity self username limit w =
    (Return result,
     saved self data ("user_recent_activity_" +:+ username)
       (set_naps (λ n, n + length (items comments))
          (set_naps (λ n, n + length (items submissions)) w))) ∧
  result_object data.
Proof.
  intros submissions comments Hsub Hcom result data. split; [|constructor].
  unfold crawler.get_user_recent_activity, try_except.
  erewrite bind_returns.
  2: apply (for_listing_napping_returns (λ a acc, acc ++ [crawler.post_of a])), Hsub.
  cbv beta.
  erewrite bind_returns.
  2: apply (for_listing_napping_returns (λ a acc, acc ++ [crawler.comment_of a])), Hcom.
  cbv beta. rewrite !foldl_snoc. csimpl.
  erewrite bind_returns; [|apply _save_to_json_run]. done.
Qed.

Lemma crawler_active_subreddits_run self username limit w activity w1 :
  crawler.get_user_recent_activity self username limit w = (Return activity, w1) →
  ∃ subreddits subreddit_activity,
    let data :=
      crawler.active_subreddits_data_value username subreddits subreddit_activity in
    crawler.collect_subreddits
      (crawler.recent_posts activity) (crawler.recent_comments activity) =
      Return (subreddits, subreddit_activity) ∧
    crawler.get_active_subreddits self username limit w =
      (Return (sorted (list_of_set subreddits)),
       saved self data ("active_subreddits_" +:+ username) w1) ∧
    result_object data.
Proof.
  intros Hfetch.
  destruct (collect_subreddits_agrees
              (crawler.recent_posts activity) (crawler.recent_comments activity))
    as ([s d] & Hrun & _).
  exists s, d. split_and!; [done| |by econstructor].
  unfold crawler.get_active_subreddits.
  erewrite bind_returns; [|done]. cbv beta.
  erewrite (bind_returns (lift _)); [|by unfold lift; rewrite Hrun]. cbv beta iota.
  erewrite bind_returns; [|apply _save_to_json_run]. done.
Qed.

Lemma crawler_subscriptions_run self w :
  let listing := user_subreddits (crawler.reddit self) in
  failure listing = None →
  let subreddits := subreddit_display_name <$> items listing in
  let data :=
    crawler.subscriptions_data_value subreddits
      (crawler.subreddit_details_value <$> items listing) in
  crawler.get_my_subscriptions self w =
    (Return (sorted subreddits),
     saved self data "my_subscriptions" (set_naps (λ n, n + length (items listing)) w)) ∧
  result_object data.
Proof.
  intros listing Hfetch subreddits data. split; [|constructor].
  unfold crawler.get_my_subscriptions, try_except.
  erewrite bind_returns.
  2: { erewrite for_listing_ext.
       - apply (for_listing_napping_returns
                  (λ a vars, (vars.1 ++ [subreddit_display_name a],
                              vars.2 ++ [crawler.subreddit_details_value a]))), Hfetch.
       - by intros a [subs details] w0. }
  rewrite foldl_snoc_pair. cbv beta iota. csimpl.
  erewrite bind_returns; [|apply _save_to_json_run]. done.
Qed.

Lemma crawler_friends_run self w :
  let listing := user_friends (crawler.reddit self) in
  failure listing = None →
  let friends := friend_name <$> items listing in
  let data :=
    crawler.friends_data_value friends (crawler.friend_details_value <$> items listing) in
  crawler.get_my_friends self w =
    (Return friends,
     saved self data "my_friends" (set_naps (λ n, n + length (items listing)) w)) ∧
  result_object data.
Proof.
  intros listing Hfetch friends data. split; [|constructor].
  unfold crawler.get_my_friends, try_except.
  erewrite bind_returns.
  2: { erewrite for_listing_ext.
       - apply (for_listing_napping_returns
                  (λ a vars, (vars.1 ++ [friend_name a],
                              vars.2 ++ [crawler.friend_details_value a]))), Hfetch.
       - by intros a [friends' details] w0. }
  rewrite foldl_snoc_pair. cbv beta iota. csimpl.
  erewrite bind_returns; [|apply _save_to_json_run]. done.
Qed.

Lemma crawler_public_info_shape self username w info w1 :
  crawler.get_user_public_info self username w = (Return info, w1) →
  info = VDict [] ∨ ∃ user posix_now, info = crawler.user_info_value user posix_now.
Proof.
  destruct (redditor (crawler.reddit self) username) as [user|e] eqn:Hfetch.
  - destruct (crawler_public_info_run self username user w Hfetch) as [Hrun _].
    rewrite Hrun. intros [= <- _]. eauto.
  - unfold crawler.get_user_public_info, try_except.
    erewrite bind_raises; [|by unfold lift; rewrite Hfetch].
    destruct (is_Exception e); [|done]. intros [= <- _]. by left.
Qed.

Lemma crawl_user_complete_run self username w info w1 active_subs w2 :
  let w0 := set_stdout (λ out, out ++ ["starting complete crawl for user: " +:+ username]) w in
  crawler.get_user_public_info self username w0 = (Return info, w1) →
  crawler.get_active_subreddits self username 100 w1 = (Return active_subs, w2) →
  let data :=
    crawler.summary_value username (isoformat (clock w2 (ticks w2)).1) info active_subs in
  (crawler.crawl_user_complete self username w).1 = Return data ∧
  result_object data.
Proof.
  intros w0 Hinfo Hsubs data. split.
  - unfold crawler.crawl_user_complete.
    erewrite bind_returns; [|done]. fold w0.
    erewrite bind_returns; [|done]. cbv beta.
    erewrite bind_returns; [|done]. cbv beta.
    erewrite bind_returns; [|done].
    destruct (clock w2 (ticks w2)) as [now posix] eqn:Hclock. cbv beta iota.
    erewrite bind_returns; [|apply _save_to_json_run].
    erewrite bind_returns; [|done]. done.
  - constructor. by eapply crawler_public_info_shape.
Qed.

(** A crawl whose two fetches fail still runs to its end and persists a
    summary with the empty profile and no community. *)
Lemma crawl_user_complete_survives self username e1 e2 w :
  redditor (crawler.reddit self) username = Raise e1 → is_Exception e1 = true →
  activity_error (crawler.reddit self) username 100 = Some e2 → is_Exception e2 = true →
  ∃ crawl_timestamp,
    (crawler.crawl_user_complete self username w).1 =
      Return (crawler.summary_value username crawl_timestamp (VDict []) []).
Proof.
  intros Hinfo He1 Hactivity He2.
  set (w0 := set_stdout
               (λ out, out ++ ["starting complete crawl for user: " +:+ username]) w).
  destruct (crawler_public_info_degraded self username e1 w0 Hinfo He1)
    as (w1 & Hrun1 & _).
  destruct (crawler_aggregation_proceeds self username 100 e2 w1 Hactivity He2)
    as (w2 & _ & Hrun2).
  destruct (crawl_user_complete_run self username w _ _ _ _ Hrun1 Hrun2) as [Hrun _].
  eauto.
Qed.
End normal_runs.

(** The sample account, crawled from the blank world. *)
Example sample_active_subreddits :
  (crawler.get_active_subreddits Sample.crawler_online "gopher" 100 Sample.blank).1 =
    Return ["go"; "rust"] ∧
  (main.get_active_subreddits {| main.reddit := Sample.online |} "gopher" 50 Sample.blank).1 =
    Return ["go"; "rust"].
Proof. split; by vm_compute. Qed.

(* ===================================================================== *)
(** * Credentials                                                         *)
(* ===================================================================== *)

Example load_mixed :
  ∃ credentials w',
    crawler._load_credentials Sample.mixed = (Return credentials, w') ∧
    credentials = [("client_id", VStr "file_id"); ("client_secret", VStr "file_secret");
                   ("user_agent", VStr "RedditCrawler/1.0"); ("username", VNone);
                   ("password", VNone)] ∧
    stdout w' = ["loaded credentials from secrets.json"].
Proof. do 2 eexists. split_and!; by vm_compute. Qed.

Example load_incomplete :
  ∃ w',
    crawler._load_credentials Sample.incomplete = (Raise credentials_error, w') ∧
    files w' = files Sample.incomplete ∧
    stdout w' = ["loaded credentials from secrets.json"].
Proof. eexists. split_and!; by vm_compute. Qed.

Example load_blank :
  ∃ w',
    crawler._load_credentials Sample.blank = (Raise credentials_error, w') ∧
    files w' !! "secrets.json" = Some (JsonText template_document) ∧
    stdout w' = ["created template secrets.json file. please update it with your credentials."].
Proof. eexists. split_and!; by vm_compute. Qed.

Example load_both :
  crawler._load_credentials Sample.both =
    (Return [("client_id", VStr "env_id"); ("client_secret", VStr "env_secret");
             ("user_agent", VStr "RedditCrawler/1.0"); ("username", VNone);
             ("password", VNone)], Sample.both).
Proof. by vm_compute. Qed.

Section credentials.

Lemma dict_get_update {V} (d items : pydict V) k :
  NoDup items.*1 →
  dict_get k (dict_update d items) =
    match dict_get k items with
    | Some v => Some v
    | None => dict_get k d
    end.
Proof.
  unfold dict_update. revert d. induction items as [|[k0 v0] items IH]; intros d; [done|].
  rewrite fmap_cons, NoDup_cons. intros [Hk0 Hnd]. cbn [foldl dict_get fst snd].
  rewrite IH by done. rewrite dict_get_set.
  destruct (decide (k = k0)) as [->|Hne]; [|done].
  apply dict_get_None in Hk0. simpl in Hk0. by rewrite Hk0.
Qed.

Lemma dict_update_NoDup {V} (d items : pydict V) :
  NoDup d.*1 → NoDup (dict_update d items).*1.
Proof.
  unfold dict_update. revert d. induction items as [|[k0 v0] items IH]; intros d Hd; [done|].
  simpl. by apply IH, dict_set_NoDup.
Qed.

Lemma dict_update_keeps {V} (d items : pydict V) k :
  is_Some (dict_get k d) → is_Some (dict_get k (dict_update d items)).
Proof.
  unfold dict_update. revert d. induction items as [|[k0 v0] items IH]; intros d Hk; [done|].
  cbn [foldl fst snd]. apply IH. rewrite dict_get_set. case_decide; [eauto | done].
Qed.

Lemma update_from_keeps (d : pydict value) index elements k :
  is_Some (dict_get k d) →
  is_Some (dict_get k (crawler.update_from d index elements).1).
Proof.
  revert d index. induction elements as [|element elements IH]; intros d index Hk; [done|].
  cbn [crawler.update_from].
  destruct (crawler.update_item index element) as [[[k0 item]|]|e]; [|by apply IH|done].
  apply IH. rewrite dict_get_set. case_decide; [eauto | done].
Qed.

(** [update] never drops a key. *)
Lemma credentials_update_keeps (d : pydict value) file_credentials k :
  is_Some (dict_get k d) →
  is_Some (dict_get k (crawler.credentials_update d file_credentials).1).
Proof.
  intros Hk. destruct file_credentials; cbn [crawler.credentials_update fst]; try done.
  - by apply update_from_keeps.
  - by apply update_from_keeps.
  - by apply dict_update_keeps.
Qed.

(** The three ways [_create_secrets_template] ends. *)
Lemma template_outcome w :
  crawler._create_secrets_template w =
    match files w !! "secrets.json", open_error w "secrets.json" Writing with
    | None, Some msg => (Raise (OSError msg), w)
    | _, _ => (Return (), with_template w)
    end.
Proof.
  unfold crawler._create_secrets_template, with_template.
  unfold mbind, py_bind, path_exists, write_json, print.
  destruct (files w !! "secrets.json") as [content|] eqn:Hfile.
  - rewrite bool_decide_eq_true_2 by eauto. done.
  - rewrite bool_decide_eq_false_2 by (by intros [? ?]). cbn [negb].
    by destruct (open_error w "secrets.json" Writing).
Qed.

Lemma template_run w :
  open_error w "secrets.json" Writing = None ∨ is_Some (files w !! "secrets.json") →
  crawler._create_secrets_template w = (Return (), with_template w).
Proof.
  intros Hcan. rewrite template_outcome.
  destruct (files w !! "secrets.json") as [content|]; [done|].
  destruct Hcan as [->|[? ?]]; done.
Qed.

(** The first half of [_load_credentials], up to the choice of the source. *)
Lemma _load_credentials_start w :
  crawler._load_credentials w =
    (credentials ←
       (if negb (from_option truthy false (dict_get "client_id" (env_credentials w))) &&
           bool_decide (is_Some (files w !! "secrets.json"))
        then
          '(credentials, failure) ←
            try_except
              (file_credentials ← read_json "secrets.json";
               mret (crawler.credentials_update (env_credentials w) file_credentials))
              (λ e, mret (env_credentials w, Some e));
          match failure with
          | None => print "loaded credentials from secrets.json"
          | Some e => print ("error loading secrets.json: " +:+ str_exn e)
          end;;
          mret credentials
        else mret (env_credentials w));
     id ← lift (dict_item "client_id" credentials);
     secret ← lift (dict_item "client_secret" credentials);
     if negb (truthy id) || negb (truthy secret) then
       crawler._create_secrets_template;; raise credentials_error
     else mret credentials) w.
Proof. reflexivity. Qed.

(** The second half: the validation of the credentials in force. *)
Lemma validation_run (credentials : pydict value) w :
  is_Some (dict_get "client_id" credentials) →
  is_Some (dict_get "client_secret" credentials) →
  (id ← lift (dict_item "client_id" credentials);
   secret ← lift (dict_item "client_secret" credentials);
   if negb (truthy id) || negb (truthy secret) then
     crawler._create_secrets_template;; raise credentials_error
   else mret credentials) w = validated credentials w.
Proof.
  intros [id Hid] [secret Hsecret]. unfold validated, dict_item.
  rewrite Hid, Hsecret. unfold mbind, py_bind, lift. simpl.
  destruct (truthy id), (truthy secret); simpl; try done; rewrite template_outcome;
    by destruct (files w !! "secrets.json"), (open_error w "secrets.json" Writing).
Qed.

Lemma env_credentials_keys w :
  is_Some (dict_get "client_id" (env_credentials w)) ∧
  is_Some (dict_get "client_secret" (env_credentials w)).
Proof. split; by eexists. Qed.

Lemma load_from_environment w :
  present "client_id" (env_credentials w) ∨ files w !! "secrets.json" = None →
  crawler._load_credentials w = validated (env_credentials w) w.
Proof.
  intros Hcase. rewrite _load_credentials_start.
  assert (negb (from_option truthy false (dict_get "client_id" (env_credentials w))) &&
          bool_decide (is_Some (files w !! "secrets.json")) = false) as ->.
  { destruct Hcase as [Hid| ->].
    - unfold present in Hid. by rewrite Hid.
    - rewrite bool_decide_eq_false_2 by (by intros [? ?]). apply andb_false_r. }
  erewrite bind_returns; [|done]. apply validation_run; apply env_credentials_keys.
Qed.

(** A document that is read: the credentials are what [update] leaves, and
    one line says how the update ended. *)
Lemma load_from_document w doc :
  missing "client_id" (env_credentials w) →
  files w !! "secrets.json" = Some (JsonText doc) →
  open_error w "secrets.json" Reading = None →
  let updated := crawler.credentials_update (env_credentials w) (json_decode doc) in
  crawler._load_credentials w =
    validated updated.1
      (set_stdout
         (λ out, out ++
            [match updated.2 with
             | None => "loaded credentials from secrets.json"
             | Some e => "error loading secrets.json: " +:+ str_exn e
             end]) w).
Proof.
  intros Hid Hfile Hopen updated. unfold missing in Hid.
  rewrite _load_credentials_start, Hid, Hfile.
  rewrite bool_decide_eq_true_2 by eauto. cbn [negb andb].
  erewrite (bind_returns _ _ w updated.1
              (set_stdout
                 (λ out, out ++
                    [match updated.2 with
                     | None => "loaded credentials from secrets.json"
                     | Some e => "error loading secrets.json: " +:+ str_exn e
                     end]) w)).
  2: { erewrite bind_returns.
       2: { unfold try_except. erewrite bind_returns.
            2: { unfold read_json. by rewrite Hopen, Hfile. }
            done. }
       subst updated.
       by destruct (crawler.credentials_update _ _) as [credentials [e|]]. }
  apply validation_run; apply credentials_update_keeps, env_credentials_keys.
Qed.

Lemma load_from_file w members :
  missing "client_id" (env_credentials w) →
  files w !! "secrets.json" = Some (JsonText (JObject members)) →
  open_error w "secrets.json" Reading = None →
  ∃ from_file merged,
    json_decode (JObject members) = VDict from_file ∧
    (∀ k, dict_get k merged =
          match dict_get k from_file with
          | Some v => Some v
          | None => dict_get k (env_credentials w)
          end) ∧
    crawler._load_credentials w =
      validated merged
        (set_stdout (λ out, out ++ ["loaded credentials from secrets.json"]) w).
Proof.
  intros Hid Hfile Hopen.
  eexists. exists (dict_update (env_credentials w)
                     (dict_update []
                        (map (λ kv, let '(k, x) := kv in (k, json_decode x)) members))).
  split; [done|].
  assert (NoDup (dict_update []
                   (map (λ kv, let '(k, x) := kv in (k, json_decode x)) members)).*1)
    as Hnodup by (apply dict_update_NoDup; constructor).
  split; [intros k; by apply dict_get_update|].
  by rewrite (load_from_document w (JObject members)).
Qed.

(** A file that cannot be opened or decoded leaves the values of the
    environment, which lack the client id. *)
Lemma load_unreadable w content :
  missing "client_id" (env_credentials w) →
  files w !! "secrets.json" = Some content →
  is_Some (open_error w "secrets.json" Reading) ∨ (∃ text, content = OtherText text) →
  ∃ message,
    crawler._load_credentials w =
      (Raise credentials_error,
       set_stdout (λ out, out ++ ["error loading secrets.json: " +:+ message]) w).
Proof.
  intros Hid Hfile Hcase. unfold missing in Hid.
  assert (∃ e, read_json "secrets.json" w = (Raise e, w) ∧ is_Exception e = true)
    as (e & Hread & He).
  { unfold read_json. destruct (open_error w "secrets.json" Reading) as [msg|] eqn:Hopen.
    - by eexists.
    - destruct Hcase as [[? ?]|[text ->]]; [done|]. rewrite Hfile. by eexists. }
  exists (str_exn e).
  rewrite _load_credentials_start, Hid, Hfile.
  rewrite bool_decide_eq_true_2 by eauto. cbn [negb andb].
  erewrite bind_returns.
  2: { erewrite bind_returns.
       2: { erewrite try_except_catches; [done| |exact He].
            apply bind_raises. exact Hread. }
       done. }
  rewrite validation_run; [|apply env_credentials_keys..].
  unfold validated. rewrite Hid. cbn [andb]. simpl. rewrite Hfile.
  unfold with_template. simpl. by rewrite Hfile.
Qed.

Lemma validated_fails credentials w :
  missing "client_id" credentials ∨ missing "client_secret" credentials →
  open_error w "secrets.json" Writing = None ∨ is_Some (files w !! "secrets.json") →
  validated credentials w = (Raise credentials_error, with_template w).
Proof.
  unfold missing, validated. intros Hmissing Hcan.
  assert (from_option truthy false (dict_get "client_id" credentials) &&
          from_option truthy false (dict_get "client_secret" credentials) = false) as ->.
  { destruct Hmissing as [-> | ->]; [done|]. by rewrite andb_false_r. }
  destruct (files w !! "secrets.json") as [content|]; [done|].
  destruct Hcan as [->|[? ?]]; done.
Qed.

Lemma validated_refused credentials w msg :
  missing "client_id" credentials ∨ missing "client_secret" credentials →
  files w !! "secrets.json" = None →
  open_error w "secrets.json" Writing = Some msg →
  validated credentials w = (Raise (OSError msg), w).
Proof.
  unfold missing, validated. intros Hmissing -> ->.
  destruct Hmissing as [-> | ->]; [done|]. by rewrite andb_false_r.
Qed.

Lemma validated_returns credentials w :
  present "client_id" credentials → present "client_secret" credentials →
  validated credentials w = (Return credentials, w).
Proof. unfold present, validated. by intros -> ->. Qed.
End credentials.

(** C8, as stated, fails on two counts.  In [Sample.mixed] the client
    secret is set in the environment and in [secrets.json], and the loaded
    value is the file's.  In [Sample.incomplete] the client secret is
    missing from both sources; loading fails, but [secrets.json] is left as
    it is: no template is created. *)
Lemma credentials_counterexample :
  (environ Sample.mixed !! "REDDIT_CLIENT_SECRET" = Some "env_secret" ∧
   files Sample.mixed !! "secrets.json" =
     Some (JsonText (JObject [("client_id", JString "file_id");
                              ("client_secret", JString "file_secret")])) ∧
   ∃ credentials w',
     crawler._load_credentials Sample.mixed = (Return credentials, w') ∧
     dict_get "client_secret" credentials = Some (VStr "file_secret") ∧
     dict_get "client_secret" credentials ≠ Some (VStr "env_secret")) ∧
  (environ Sample.incomplete !! "REDDIT_CLIENT_SECRET" = None ∧
   files Sample.incomplete !! "secrets.json" =
     Some (JsonText (JObject [("client_id", JString "file_id")])) ∧
   ∃ w',
     crawler._load_credentials Sample.incomplete = (Raise credentials_error, w') ∧
     files w' = files Sample.incomplete ∧
     files w' !! "secrets.json" ≠ Some (JsonText template_document)).
Proof.
  split.
  - split_and!; [by vm_compute..|]. do 2 eexists. split_and!; by vm_compute.
  - split_and!; [by vm_compute..|]. eexists. split_and!; by vm_compute.
Qed.

(** C8, amended: the five fields are read from the environment.  With a
    client id in the environment, or without [secrets.json], the environment
    alone counts and the file is not read.  Without a client id in the
    environment an existing [secrets.json] is read: whatever document it
    holds goes to [dict.update], and the credentials are the dictionary
    [update] leaves; for an object, each key of the object replaces the value
    from the environment and the other fields keep theirs.  A file that
    cannot be opened or is not JSON leaves the environment's values, and the
    load fails.  The credentials in force are returned when the client id and
    the client secret are there and true.  Otherwise the load fails: with
    the fatal [ValueError] and an existing [secrets.json] left as it is; with
    the fatal [ValueError] after the template was written, when there is no
    [secrets.json] and it can be written; with the [OSError] of the refused
    write and nothing created, when there is none and it cannot. *)
Theorem credentials_loading (w : world) :
  let env := env_credentials w in
  (present "client_id" env ∨ files w !! "secrets.json" = None →
   crawler._load_credentials w = validated env w) ∧
  (missing "client_id" env →
   (∀ doc,
      files w !! "secrets.json" = Some (JsonText doc) →
      open_error w "secrets.json" Reading = None →
      let updated := crawler.credentials_update env (json_decode doc) in
      crawler._load_credentials w =
        validated updated.1
          (set_stdout
             (λ out, out ++
                [match updated.2 with
                 | None => "loaded credentials from secrets.json"
                 | Some e => "error loading secrets.json: " +:+ str_exn e
                 end]) w)) ∧
   (∀ members,
      files w !! "secrets.json" = Some (JsonText (JObject members)) →
      open_error w "secrets.json" Reading = None →
      ∃ from_file merged,
        json_decode (JObject members) = VDict from_file ∧
        (∀ k, dict_get k merged =
              match dict_get k from_file with
              | Some v => Some v
              | None => dict_get k env
              end) ∧
        crawler._load_credentials w =
          validated merged
            (set_stdout (λ out, out ++ ["loaded credentials from secrets.json"]) w)) ∧
   (∀ content,
      files w !! "secrets.json" = Some content →
      is_Some (open_error w "secrets.json" Reading) ∨ (∃ text, content = OtherText text) →
      ∃ message,
        crawler._load_credentials w =
          (Raise credentials_error,
           set_stdout (λ out, out ++ ["error loading secrets.json: " +:+ message]) w))) ∧
  (∀ credentials w1,
     (present "client_id" credentials → present "client_secret" credentials →
      validated credentials w1 = (Return credentials, w1)) ∧
     (missing "client_id" credentials ∨ missing "client_secret" credentials →
      (is_Some (files w1 !! "secrets.json") →
       validated credentials w1 = (Raise credentials_error, w1)) ∧
      (files w1 !! "secrets.json" = None →
       open_error w1 "secrets.json" Writing = None →
       ∃ w2,
         validated credentials w1 = (Raise credentials_error, w2) ∧
         files w2 = <["secrets.json" := JsonText template_document]> (files w1) ∧
         stdout w2 =
           stdout w1 ++
           ["created template secrets.json file. please update it with your credentials."]) ∧
      (∀ msg,
         files w1 !! "secrets.json" = None →
         open_error w1 "secrets.json" Writing = Some msg →
         validated credentials w1 = (Raise (OSError msg), w1)))).
Proof.
  intros env. subst env. split_and!.
  - by apply load_from_environment.
  - intros Hid. split_and!.
    + intros doc Hfile Hopen. by apply load_from_document.
    + intros members Hfile Hopen. by apply load_from_file.
    + intros content Hfile Hcase. by apply (load_unreadable w content).
  - intros credentials w1. split; [apply validated_returns|].
    intros Hmissing. split_and!.
    + intros [content Hsome]. rewrite validated_fails; [|done|right; eauto].
      unfold with_template. by rewrite Hsome.
    + intros Hnone Hopen. eexists. split; [by apply validated_fails; [|left]|].
      unfold with_template. by rewrite Hnone.
    + intros msg Hnone Hopen. by apply validated_refused.
Qed.

Lemma credentials_loading_witness :
  (crawler._load_credentials Sample.both =
     validated (env_credentials Sample.both) Sample.both ∧
   validated (env_credentials Sample.both) Sample.both =
     (Return (env_credentials Sample.both), Sample.both)) ∧
  (∃ from_file merged,
     json_decode (JObject [("client_id", JString "file_id");
                           ("client_secret", JString "file_secret")]) = VDict from_file ∧
     (∀ k, dict_get k merged =
           match dict_get k from_file with
           | Some v => Some v
           | None => dict_get k (env_credentials Sample.mixed)
           end) ∧
     crawler._load_credentials Sample.mixed =
       validated merged
         (set_stdout (λ out, out ++ ["loaded credentials from secrets.json"])
            Sample.mixed)) ∧
  (crawler._load_credentials Sample.blank =
     validated (env_credentials Sample.blank) Sample.blank ∧
   ∃ w2,
     validated (env_credentials Sample.blank) Sample.blank =
       (Raise credentials_error, w2) ∧
     files w2 = <["secrets.json" := JsonText template_document]> (files Sample.blank)).
Proof.
  split; [|split].
  - destruct (credentials_loading Sample.both) as (Henv & _ & Hend).
    split; [apply Henv; by left|].
    apply (Hend (env_credentials Sample.both) Sample.both); reflexivity.
  - destruct (credentials_loading Sample.mixed) as (_ & Hfile & _).
    destruct (Hfile eq_refl) as (_ & Hobject & _).
    apply Hobject; reflexivity.
  - destruct (credentials_loading Sample.blank) as (Henv & _ & Hend).
    split; [apply Henv; by right|].
    destruct (Hend (env_credentials Sample.blank) Sample.blank) as [_ Hfail].
    destruct (Hfail (or_introl eq_refl)) as (_ & Hwritten & _).
    destruct (Hwritten eq_refl eq_refl) as (w2 & Hraise & Hfiles & _).
    exists w2. by split.
Defined.

(* ===================================================================== *)
(** * What the methods leave alone                                        *)
(* ===================================================================== *)

Import Footprint.

Section footprints.
Import Praw.

Lemma touches_only_weaken {A} (paths paths' : list string) (m : py A) :
  paths ⊆ paths' → touches_only paths m → touches_only paths' m.
Proof. intros Hsub Hm w p Hp. apply Hm. intros Hin. apply Hp, Hsub, Hin. Qed.

Lemma touches_only_ret {A} (a : A) : touches_only [] (mret a).
Proof. by intros w p _. Qed.

Lemma touches_only_bind {A B} (paths : list string) (m : py A) (k : A → py B) :
  touches_only paths m → (∀ a, touches_only paths (k a)) →
  touches_only paths (m ≫= k).
Proof.
  intros Hm Hk w p Hp. unfold mbind, py_bind. specialize (Hm w p Hp).
  destruct (m w) as [[a|e] w1]; simpl in *; [|done].
  by rewrite (Hk a w1 p Hp).
Qed.

Lemma touches_only_try {A} (paths : list string) (body : py A) (handler : pyexn → py A) :
  touches_only paths body → (∀ e, touches_only paths (handler e)) →
  touches_only paths (try_except body handler).
Proof.
  intros Hbody Hhandler w p Hp. unfold try_except. specialize (Hbody w p Hp).
  destruct (body w) as [[a|e] w1]; simpl in *; [done|].
  destruct (is_Exception e); [|done]. by rewrite (Hhandler e w1 p Hp).
Qed.

Lemma touches_only_print s : touches_only [] (print s).
Proof. by intros w p _. Qed.

Lemma touches_only_sleep : touches_only [] sleep_tenth.
Proof. by intros w p _. Qed.

Lemma touches_only_now : touches_only [] datetime_now.
Proof. by intros w p _. Qed.

Lemma touches_only_lift {A} (o : outcome A) : touches_only [] (lift o).
Proof. by intros w p _. Qed.

Lemma touches_only_raise {A} e : touches_only [] (raise (A := A) e).
Proof. by intros w p _. Qed.

Lemma touches_only_for_in {A S} (paths : list string) (xs : list A)
    (body : A → S → py S) (vars : S) :
  (∀ a vars, touches_only paths (body a vars)) →
  touches_only paths (for_in xs body vars).
Proof.
  intros Hbody. revert vars. induction xs as [|a xs IH]; intros vars.
  - eapply touches_only_weaken, touches_only_ret. set_solver.
  - cbn [for_in]. apply touches_only_bind; auto.
Qed.

Lemma touches_only_for_listing {A S} (paths : list string) (l : listing A)
    (body : A → S → py S) (vars : S) :
  (∀ a vars, touches_only paths (body a vars)) →
  touches_only paths (for_listing l body vars).
Proof.
  intros Hbody. unfold for_listing. apply touches_only_bind.
  - by apply touches_only_for_in.
  - intros vars'. destruct (failure l).
    + eapply touches_only_weaken, touches_only_raise. set_solver.
    + eapply touches_only_weaken, touches_only_ret. set_solver.
Qed.

Lemma touches_only_save self data filename :
  touches_only [filepath_of self filename] (crawler._save_to_json self data filename).
Proof.
  intros w p Hp. rewrite _save_to_json_run. simpl. unfold saved.
  destruct (open_error w _ Writing); simpl; [done|].
  apply lookup_insert_ne. set_solver.
Qed.
End footprints.

Section method_footprints.
Import Praw.

(** A leaf of a method: one of the primitive effects or a call of the sink. *)
Local Ltac leaf :=
  first
    [ eapply touches_only_weaken; [|apply touches_only_save]; set_solver
    | eapply touches_only_weaken; [|apply touches_only_print]; set_solver
    | eapply touches_only_weaken; [|apply touches_only_sleep]; set_solver
    | eapply touches_only_weaken; [|apply touches_only_now]; set_solver
    | eapply touches_only_weaken; [|apply touches_only_lift]; set_solver
    | eapply touches_only_weaken; [|apply touches_only_raise]; set_solver
    | eapply touches_only_weaken; [|apply touches_only_ret]; set_solver ].

Local Ltac footprint :=
  repeat first
    [ leaf
    | apply touches_only_for_listing; intros ? ?
    | apply touches_only_try; [|intros ?]
    | apply touches_only_bind; [|intros ?]
    | match goal with
      | |- touches_only _ (let '(_, _) := ?x in _) => destruct x
      | |- touches_only _ (match ?x with (_, _) => _ end) => destruct x
      end ].

Lemma touches_only_public_info self username :
  touches_only [filepath_of self ("user_public_info_" +:+ username)]
    (crawler.get_user_public_info self username).
Proof. unfold crawler.get_user_public_info. footprint. Qed.

Lemma touches_only_recent_activity self username limit :
  touches_only [filepath_of self ("user_recent_activity_" +:+ username)]
    (crawler.get_user_recent_activity self username limit).
Proof. unfold crawler.get_user_recent_activity. footprint. Qed.

Lemma touches_only_active_subreddits self username limit :
  touches_only [filepath_of self ("user_recent_activity_" +:+ username);
                filepath_of self ("active_subreddits_" +:+ username)]
    (crawler.get_active_subreddits self username limit).
Proof.
  unfold crawler.get_active_subreddits.
  apply touches_only_bind.
  { eapply touches_only_weaken; [|apply touches_only_recent_activity]. set_solver. }
  intros activity. footprint.
Qed.

Lemma touches_only_subscriptions self :
  touches_only [filepath_of self "my_subscriptions"] (crawler.get_my_subscriptions self).
Proof. unfold crawler.get_my_subscriptions. footprint. Qed.

Lemma touches_only_friends self :
  touches_only [filepath_of self "my_friends"] (crawler.get_my_friends self).
Proof. unfold crawler.get_my_friends. footprint. Qed.

Lemma touches_only_crawl self username :
  touches_only (crawl_files self username) (crawler.crawl_user_complete self username).
Proof.
  unfold crawler.crawl_user_complete, crawl_files.
  apply touches_only_bind; [leaf|intros _].
  apply touches_only_bind.
  { eapply touches_only_weaken; [|apply touches_only_public_info]. set_solver. }
  intros user_info. apply touches_only_bind.
  { eapply touches_only_weaken; [|apply touches_only_active_subreddits]. set_solver. }
  intros active_subs. footprint.
Qed.

(** The variant of [main.py] writes no file at all. *)
Lemma main_touches_nothing self username limit :
  touches_only [] (main.get_user_public_info self username) ∧
  touches_only [] (main.get_user_recent_activity self username limit) ∧
  touches_only [] (main.get_active_subreddits self username limit) ∧
  touches_only [] (main.get_my_subscriptions self) ∧
  touches_only [] (main.get_my_friends self).
Proof.
  assert (touches_only [] (main.get_user_recent_activity self username limit)) as Hact.
  { unfold main.get_user_recent_activity. footprint. }
  split_and!; [|done| | |].
  - unfold main.get_user_public_info. footprint.
  - unfold main.get_active_subreddits. apply touches_only_bind; [done|]. intros a. leaf.
  - unfold main.get_my_subscriptions. footprint.
  - unfold main.get_my_friends. footprint.
Qed.
End method_footprints.

(** ** The files of different users *)

Section paths.

Lemma app_cancel_r (s1 s2 t : string) : s1 +:+ t = s2 +:+ t → s1 = s2.
Proof.
  revert s2. induction s1 as [|a s1 IH]; intros [|b s2] Heq; [done| | |].
  - apply (f_equal String.length) in Heq.
    rewrite !length_app_str in Heq. simpl in Heq. lia.
  - apply (f_equal String.length) in Heq.
    rewrite !length_app_str in Heq. simpl in Heq. lia.
  - rewrite !app_String in Heq. injection Heq as -> Heq. f_equal. by apply IH.
Qed.

Lemma app_str_assoc (s t u : string) : (s +:+ t) +:+ u = s +:+ (t +:+ u).
Proof. induction s as [|a s IH]; [done|]. rewrite !app_String. by rewrite IH. Qed.

Lemma plain_String c s :
  plain (String c s) ↔ Ascii.eqb c "/" = false ∧ plain s.
Proof.
  unfold plain. cbn [String.list_ascii_of_string forallb].
  rewrite andb_true_iff, negb_true_iff. done.
Qed.

Lemma plain_app s t : plain s → plain t → plain (s +:+ t).
Proof.
  intros Hs Ht. induction s as [|c s IH]; [done|].
  rewrite app_String. apply plain_String in Hs as [Hc Hs].
  apply plain_String. split; [done|]. by apply IH.
Qed.

(** A name without a slash is a single component. *)
Lemma split_slash_plain s : plain s → split_slash s = [s].
Proof.
  induction s as [|c s IH]; [done|]. intros [Hc Hs]%plain_String.
  cbn [split_slash]. rewrite Hc, IH by done. done.
Qed.

Lemma path_root_plain s : plain s → path_root s = "".
Proof.
  destruct s as [|c s]; [done|]. intros [Hc _]%plain_String.
  destruct c as [[] [] [] [] [] [] [] []]; done.
Qed.

Lemma join_slash_cons (component : string) (parts : list string) :
  parts ≠ [] → join_slash (component :: parts) = component +:+ "/" +:+ join_slash parts.
Proof. by destruct parts. Qed.

Lemma join_slash_snoc (parts : list string) :
  ∃ before, ∀ name, join_slash (parts ++ [name]) = before +:+ name.
Proof.
  induction parts as [|component parts [before Hbefore]]; [by exists ""|].
  exists (component +:+ "/" +:+ before). intros name.
  rewrite <- app_comm_cons, join_slash_cons by (by destruct parts).
  by rewrite Hbefore, !app_str_assoc.
Qed.

(** Joining a directory and a file name that is one component: the name
    comes last, after a text that depends on the directory only. *)
Lemma path_join_plain (output_dir : string) :
  ∃ before, ∀ name,
    plain name → 2 ≤ String.length name →
    path_join output_dir name = before +:+ name.
Proof.
  destruct (join_slash_snoc (path_parts output_dir)) as [before Hbefore].
  exists (path_root output_dir +:+ before). intros name Hplain Hlen.
  assert (name ≠ "" ∧ name ≠ ".") as Hname.
  { split; intros ->; simpl in Hlen; lia. }
  unfold path_join. rewrite path_root_plain by done.
  rewrite decide_True by done.
  unfold path_parts at 2. rewrite split_slash_plain by done.
  rewrite filter_cons_True, filter_nil by done.
  unfold path_format. rewrite Hbefore, <- app_str_assoc.
  rewrite decide_False; [done|].
  intros Hempty. apply (f_equal String.length) in Hempty.
  rewrite length_app_str in Hempty. simpl in Hempty. lia.
Qed.

Lemma filepath_of_inj self filename1 filename2 :
  plain filename1 → plain filename2 →
  filepath_of self filename1 = filepath_of self filename2 → filename1 = filename2.
Proof.
  unfold filepath_of. intros Hplain1 Hplain2 Heq.
  destruct (path_join_plain (crawler.output_dir self)) as [before Hjoin].
  rewrite !Hjoin in Heq.
  - apply (inj (String.app _)) in Heq. by apply app_cancel_r in Heq.
  - by apply plain_app.
  - rewrite length_app_str. simpl. lia.
  - by apply plain_app.
  - rewrite length_app_str. simpl. lia.
Qed.

(** The four kinds of file differ in their names whatever the user names. *)
Lemma crawl_files_disjoint self username1 username2 p :
  plain username1 → plain username2 →
  username1 ≠ username2 →
  p ∈ crawl_files self username1 → p ∉ crawl_files self username2.
Proof.
  intros Hplain1 Hplain2 Hne Hin1 Hin2. unfold crawl_files in *.
  repeat (apply elem_of_cons in Hin1 as [->|Hin1]);
    [| | | |by apply elem_of_nil in Hin1];
    repeat (apply elem_of_cons in Hin2 as [Heq|Hin2]);
    try (by apply elem_of_nil in Hin2);
    apply filepath_of_inj in Heq; try (by apply plain_app);
    try (apply (inj (String.app _)) in Heq; congruence);
    by (unfold String.app in Heq; simpl in Heq; discriminate).
Qed.
End paths.

(** ** Worlds only move forward *)

Section advancing.
Import Praw.

Lemma later_refl w : later w w.
Proof. by split. Qed.

Lemma later_trans w1 w2 w3 : later w1 w2 → later w2 w3 → later w1 w3.
Proof.
  intros [He1 Ho1 Hc1 Ht1 Hn1 Hs1 Hf1] [He2 Ho2 Hc2 Ht2 Hn2 Hs2 Hf2].
  split; [congruence..|lia|lia|by etrans|].
  intros Hdenied. rewrite Hf2, Hf1; [done..|]. intros path. rewrite Ho1. apply Hdenied.
Qed.

(** Steps that leave the files alone. *)
Lemma later_same_files w w' :
  environ w' = environ w → open_error w' = open_error w → clock w' = clock w →
  ticks w ≤ ticks w' → naps w ≤ naps w' → stdout w `prefix_of` stdout w' →
  files w' = files w → later w w'.
Proof. intros. by split. Qed.

Lemma advances_ret {A} (a : A) : advances (mret a).
Proof. intros w. apply later_refl. Qed.

Lemma advances_bind {A B} (m : py A) (k : A → py B) :
  advances m → (∀ a, advances (k a)) → advances (m ≫= k).
Proof.
  intros Hm Hk w. unfold mbind, py_bind. specialize (Hm w).
  destruct (m w) as [[a|e] w1]; simpl in *; [|done].
  eapply later_trans; [exact Hm | apply Hk].
Qed.

Lemma advances_try {A} (body : py A) (handler : pyexn → py A) :
  advances body → (∀ e, advances (handler e)) → advances (try_except body handler).
Proof.
  intros Hbody Hhandler w. unfold try_except. specialize (Hbody w).
  destruct (body w) as [[a|e] w1]; simpl in *; [done|].
  destruct (is_Exception e); [|done].
  eapply later_trans; [exact Hbody | apply Hhandler].
Qed.

Lemma advances_print s : advances (print s).
Proof. intros w. apply later_same_files; simpl; [done..|by apply prefix_app_r|done]. Qed.

Lemma advances_sleep : advances sleep_tenth.
Proof. intros w. apply later_same_files; simpl; [done..|lia|done|done]. Qed.

Lemma advances_now : advances datetime_now.
Proof. intros w. apply later_same_files; simpl; [done..|lia|done|done|done]. Qed.

Lemma advances_lift {A} (o : outcome A) : advances (lift o).
Proof. intros w. apply later_refl. Qed.

Lemma advances_raise {A} e : advances (raise (A := A) e).
Proof. intros w. apply later_refl. Qed.

Lemma advances_for_in {A S} (xs : list A) (body : A → S → py S) (vars : S) :
  (∀ a vars, advances (body a vars)) → advances (for_in xs body vars).
Proof.
  intros Hbody. revert vars. induction xs as [|a xs IH]; intros vars.
  - apply advances_ret.
  - cbn [for_in]. apply advances_bind; auto.
Qed.

Lemma advances_for_listing {A S} (l : listing A) (body : A → S → py S) (vars : S) :
  (∀ a vars, advances (body a vars)) → advances (for_listing l body vars).
Proof.
  intros Hbody. unfold for_listing. apply advances_bind.
  - by apply advances_for_in.
  - intros vars'. destruct (failure l); [apply advances_raise | apply advances_ret].
Qed.

Lemma later_saved self data filename w : later w (saved self data filename w).
Proof.
  unfold saved. destruct (open_error w _ Writing) as [msg|] eqn:Hopen.
  - apply later_same_files; simpl; [done..|lia|done|by apply prefix_app_r|done].
  - split; simpl; [done..|lia|done|by apply prefix_app_r|].
    intros Hdenied. destruct (Hdenied (filepath_of self filename)) as [msg Hmsg].
    congruence.
Qed.

Lemma advances_save self data filename : advances (crawler._save_to_json self data filename).
Proof. intros w. rewrite _save_to_json_run. apply later_saved. Qed.

Local Ltac forward :=
  repeat first
    [ apply advances_save | apply advances_print | apply advances_sleep
    | apply advances_now | apply advances_lift | apply advances_raise
    | apply advances_ret
    | apply advances_for_listing; intros ? ?
    | apply advances_try; [|intros ?]
    | apply advances_bind; [|intros ?]
    | match goal with
      | |- advances (let '(_, _) := ?x in _) => destruct x
      | |- advances (match ?x with (_, _) => _ end) => destruct x
      end ].

Lemma advances_public_info self username :
  advances (crawler.get_user_public_info self username).
Proof. unfold crawler.get_user_public_info. forward. Qed.

Lemma advances_recent_activity self username limit :
  advances (crawler.get_user_recent_activity self username limit).
Proof. unfold crawler.get_user_recent_activity. forward. Qed.

Lemma advances_active_subreddits self username limit :
  advances (crawler.get_active_subreddits self username limit).
Proof.
  unfold crawler.get_active_subreddits.
  apply advances_bind; [apply advances_recent_activity|]. intros activity. forward.
Qed.

Lemma advances_subscriptions self : advances (crawler.get_my_subscriptions self).
Proof. unfold crawler.get_my_subscriptions. forward. Qed.

Lemma advances_friends self : advances (crawler.get_my_friends self).
Proof. unfold crawler.get_my_friends. forward. Qed.

Lemma advances_crawl self username : advances (crawler.crawl_user_complete self username).
Proof.
  unfold crawler.crawl_user_complete.
  apply advances_bind; [apply advances_print|intros _].
  apply advances_bind; [apply advances_public_info|intros user_info].
  apply advances_bind; [apply advances_active_subreddits|intros active_subs].
  forward.
Qed.

Lemma advances_personal_data self : advances (crawler_script.personal_data self).
Proof.
  unfold crawler_script.personal_data.
  apply advances_bind; [apply advances_print|intros _].
  apply advances_bind; [apply advances_subscriptions|intros my_subs].
  apply advances_bind; [case_bool_decide; forward|intros _].
  apply advances_bind; [apply advances_friends|intros my_friends].
  repeat case_bool_decide; forward.
Qed.

End advancing.

(* ===================================================================== *)
(** * What can leave a method                                             *)
(* ===================================================================== *)

Import Escapes.

Section escaping.
Import Praw.
Context {P : pyexn → Prop}.

Lemma escapes_weaken {A} (Q : pyexn → Prop) (m : py A) :
  (∀ e, Q e → P e) → escapes Q m → escapes P m.
Proof. intros Himpl Hm w e w' Hrun. by eapply Himpl, Hm. Qed.

Lemma escapes_ret {A} (a : A) : escapes P (mret a).
Proof. by intros w e w'. Qed.

Lemma escapes_print s : escapes P (print s).
Proof. by intros w e w'. Qed.

Lemma escapes_sleep : escapes P sleep_tenth.
Proof. by intros w e w'. Qed.

Lemma escapes_now : escapes P datetime_now.
Proof. by intros w e w'. Qed.

Lemma escapes_lift {A} (o : outcome A) : (∀ e, o = Raise e → P e) → escapes P (lift o).
Proof. intros Ho w e w' [= -> _]. by apply Ho. Qed.

Lemma escapes_raise {A} e : P e → escapes P (raise (A := A) e).
Proof. by intros He w e' w' [= <- _]. Qed.

Lemma escapes_bind {A B} (m : py A) (k : A → py B) :
  escapes P m → (∀ a, escapes P (k a)) → escapes P (m ≫= k).
Proof.
  intros Hm Hk w e w'. unfold mbind, py_bind.
  destruct (m w) as [[a|e1] w1] eqn:Hrun.
  - apply Hk.
  - intros [= <- _]. by eapply Hm.
Qed.

Lemma escapes_try {A} (Q : pyexn → Prop) (body : py A) (handler : pyexn → py A) :
  escapes Q body → (∀ e, escapes P (handler e)) →
  (∀ e, Q e → is_Exception e = false → P e) →
  escapes P (try_except body handler).
Proof.
  intros Hbody Hhandler Hpass w e w'. unfold try_except.
  destruct (body w) as [[a|e1] w1] eqn:Hrun; [done|].
  destruct (is_Exception e1) eqn:He1.
  - apply Hhandler.
  - intros [= <- _]. apply Hpass; [|done]. by eapply Hbody.
Qed.

Lemma escapes_for_in {A S} (xs : list A) (body : A → S → py S) (vars : S) :
  (∀ a vars, escapes P (body a vars)) → escapes P (for_in xs body vars).
Proof.
  intros Hbody. revert vars. induction xs as [|a xs IH]; intros vars.
  - apply escapes_ret.
  - cbn [for_in]. apply escapes_bind; auto.
Qed.

Lemma escapes_for_listing {A S} (l : listing A) (body : A → S → py S) (vars : S) :
  (∀ e, failure l = Some e → P e) →
  (∀ a vars, escapes P (body a vars)) → escapes P (for_listing l body vars).
Proof.
  intros Hfail Hbody. unfold for_listing. apply escapes_bind.
  - by apply escapes_for_in.
  - intros vars'. destruct (failure l) as [e|]; [|apply escapes_ret].
    apply escapes_raise. by apply Hfail.
Qed.

Lemma escapes_save self data filename : escapes P (crawler._save_to_json self data filename).
Proof. intros w e w'. by rewrite _save_to_json_run. Qed.

End escaping.

Section escaping_methods.
Import Praw.

Lemma limited_failure {A} (limit : option Z) (l : listing A) e :
  failure (limited limit l) = Some e → failure l = Some e.
Proof. unfold limited. destruct limit as [n|]; [|done]. by case_decide. Qed.

(** A step that never raises. *)
Local Ltac quiet :=
  first [ apply escapes_save | apply escapes_print | apply escapes_sleep
        | apply escapes_now | apply escapes_ret ].

Local Ltac inside :=
  repeat first
    [ quiet
    | apply escapes_bind; [|intros ?]
    | match goal with
      | |- escapes _ (let '(_, _) := ?x in _) => destruct x
      | |- escapes _ (match ?x with (_, _) => _ end) => destruct x
      end ].

(** The handlers of the two files print and return. *)
Local Ltac handled := intros ?; inside.

Local Ltac passes := by intros ? ? ?.

Lemma escapes_public_info self username :
  escapes (interrupt_of (crawler.reddit self)) (crawler.get_user_public_info self username).
Proof.
  unfold crawler.get_user_public_info.
  apply (escapes_try (raised_by (crawler.reddit self))); [|handled|passes].
  apply escapes_bind; [|intros user; inside].
  apply escapes_lift. intros e He. left. eauto.
Qed.

Lemma main_escapes_public_info self username :
  escapes (interrupt_of (main.reddit self)) (main.get_user_public_info self username).
Proof.
  unfold main.get_user_public_info.
  apply (escapes_try (raised_by (main.reddit self))); [|handled|passes].
  apply escapes_bind; [|intros user; inside].
  apply escapes_lift. intros e He. left. eauto.
Qed.

Lemma escapes_recent_activity self username limit :
  escapes (interrupt_of (crawler.reddit self))
    (crawler.get_user_recent_activity self username limit).
Proof.
  unfold crawler.get_user_recent_activity.
  apply (escapes_try (raised_by (crawler.reddit self))); [|handled|passes].
  apply escapes_bind; [|intros posts; apply escapes_bind; [|intros comments; inside]].
  - apply escapes_for_listing; [|intros ? ?; inside].
    intros e He%limited_failure. right. left. eauto.
  - apply escapes_for_listing; [|intros ? ?; inside].
    intros e He%limited_failure. right. right. left. eauto.
Qed.

Lemma main_escapes_recent_activity self username limit :
  escapes (interrupt_of (main.reddit self))
    (main.get_user_recent_activity self username limit).
Proof.
  unfold main.get_user_recent_activity.
  apply (escapes_try (raised_by (main.reddit self))); [|handled|passes].
  apply escapes_bind; [|intros posts; apply escapes_bind; [|intros comments; inside]].
  - apply escapes_for_listing; [|intros ? ?; inside].
    intros e He%limited_failure. right. left. eauto.
  - apply escapes_for_listing; [|intros ? ?; inside].
    intros e He%limited_failure. right. right. left. eauto.
Qed.

Lemma escapes_active_subreddits self username limit :
  escapes (interrupt_of (crawler.reddit self))
    (crawler.get_active_subreddits self username limit).
Proof.
  unfold crawler.get_active_subreddits.
  apply escapes_bind; [apply escapes_recent_activity|intros activity].
  apply escapes_bind; [|intros [s d]; inside].
  apply escapes_lift. intros e He.
  destruct (collect_subreddits_agrees (crawler.recent_posts activity)
              (crawler.recent_comments activity)) as (vars & Hrun & _).
  congruence.
Qed.

Lemma main_escapes_active_subreddits self username limit :
  escapes (interrupt_of (main.reddit self))
    (main.get_active_subreddits self username limit).
Proof.
  unfold main.get_active_subreddits.
  apply escapes_bind; [apply main_escapes_recent_activity|intros activity]. inside.
Qed.

Lemma escapes_subscriptions self :
  escapes (interrupt_of (crawler.reddit self)) (crawler.get_my_subscriptions self).
Proof.
  unfold crawler.get_my_subscriptions.
  apply (escapes_try (raised_by (crawler.reddit self))); [|handled|passes].
  apply escapes_bind; [|intros [subs details]; inside].
  apply escapes_for_listing; [|intros ? [? ?]; inside].
  intros e He%limited_failure. do 3 right. by left.
Qed.

Lemma main_escapes_subscriptions self :
  escapes (interrupt_of (main.reddit self)) (main.get_my_subscriptions self).
Proof.
  unfold main.get_my_subscriptions.
  apply (escapes_try (raised_by (main.reddit self))); [|handled|passes].
  apply escapes_bind; [|intros subs; inside].
  apply escapes_for_listing; [|intros ? ?; inside].
  intros e He%limited_failure. do 3 right. by left.
Qed.

Lemma escapes_friends self :
  escapes (interrupt_of (crawler.reddit self)) (crawler.get_my_friends self).
Proof.
  unfold crawler.get_my_friends.
  apply (escapes_try (raised_by (crawler.reddit self))); [|handled|passes].
  apply escapes_bind; [|intros [friends details]; inside].
  apply escapes_for_listing; [|intros ? [? ?]; inside].
  intros e He. do 4 right. done.
Qed.

Lemma main_escapes_friends self :
  escapes (interrupt_of (main.reddit self)) (main.get_my_friends self).
Proof.
  unfold main.get_my_friends.
  apply (escapes_try (raised_by (main.reddit self))); [|handled|passes].
  apply escapes_bind; [|intros friends; inside].
  apply escapes_for_listing; [|intros ? ?; inside].
  intros e He. do 4 right. done.
Qed.

Lemma escapes_crawl self username :
  escapes (interrupt_of (crawler.reddit self)) (crawler.crawl_user_complete self username).
Proof.
  unfold crawler.crawl_user_complete.
  apply escapes_bind; [quiet|intros _].
  apply escapes_bind; [apply escapes_public_info|intros user_info].
  apply escapes_bind; [apply escapes_active_subreddits|intros active_subs].
  inside.
Qed.

Lemma escapes_personal_data self :
  escapes (interrupt_of (crawler.reddit self)) (crawler_script.personal_data self).
Proof.
  unfold crawler_script.personal_data.
  apply escapes_bind; [quiet|intros _].
  apply escapes_bind; [apply escapes_subscriptions|intros my_subs].
  apply escapes_bind; [case_bool_decide; quiet|intros _].
  apply escapes_bind; [apply escapes_friends|intros my_friends].
  repeat case_bool_decide; quiet.
Qed.

(** A handler for exceptions the body never raises does not run. *)
Lemma try_except_unneeded {A} (P : pyexn → Prop) (body : py A) (handler : pyexn → py A) w :
  escapes P body → (∀ e, P e → is_Exception e = false) →
  try_except body handler w = body w.
Proof.
  intros Hbody Hpass. unfold try_except.
  destruct (body w) as [[a|e] w'] eqn:Hrun; [done|].
  by rewrite (Hpass e (Hbody w e w' Hrun)).
Qed.

(** A call that lets only interrupts of an interrupt-free platform through
    returns. *)
Lemma escapes_returns {A} (net : Reddit) (m : py A) w :
  interrupt_free net → escapes (interrupt_of net) m → ∃ a w', m w = (Return a, w').
Proof.
  intros Hfree Hm. destruct (m w) as [[a|e] w'] eqn:Hrun; [eauto|].
  destruct (Hm w e w' Hrun) as [Hraised He]. apply Hfree in Hraised. congruence.
Qed.

End escaping_methods.

(* ===================================================================== *)
(** * More on the persistence sink                                        *)
(* ===================================================================== *)

(** X1: a file that cannot be opened costs nothing but the file: the sink
    prints the error and returns, no file changes, and
    [get_user_public_info] still returns the profile it fetched. *)
Theorem save_failure_is_printed
    (self : crawler.RedditCrawler) (data : value) (filename username : string)
    (user : Praw.Redditor) (w : world) :
  (∀ path, is_Some (open_error w path Writing)) →
  Praw.redditor (crawler.reddit self) username = Return user →
  (∃ w' msg,
     crawler._save_to_json self data filename w = (Return (), w') ∧
     files w' = files w ∧
     stdout w' = stdout w ++ ["error saving " +:+ filename +:+ ": " +:+ msg]) ∧
  (∃ w' msg,
     crawler.get_user_public_info self username w =
       (Return (crawler.user_info_value user (clock w (ticks w)).2), w') ∧
     files w' = files w ∧
     stdout w' =
       stdout w ++ ["error saving user_public_info_" +:+ username +:+ ": " +:+ msg]).
Proof.
  intros Hdenied Hfetch. split.
  - destruct (Hdenied (filepath_of self filename)) as [msg Hmsg].
    exists (saved self data filename w), msg. split; [apply _save_to_json_run|].
    unfold saved. by rewrite Hmsg.
  - destruct (Hdenied (filepath_of self ("user_public_info_" +:+ username))) as [msg Hmsg].
    destruct (crawler_public_info_run self username user w Hfetch) as [Hrun _].
    eexists. exists msg. split; [apply Hrun|].
    unfold saved. simpl. by rewrite Hmsg.
Qed.

Lemma save_failure_is_printed_witness :
  ∃ w' msg,
    crawler.get_user_public_info Sample.crawler_online "gopher" Cases.read_only =
      (Return (crawler.user_info_value Sample.user 1709208005%float), w') ∧
    files w' = files Cases.read_only ∧
    stdout w' =
      stdout Cases.read_only ++ ["error saving user_public_info_" +:+ "gopher" +:+ ": " +:+ msg].
Proof.
  destruct (save_failure_is_printed Sample.crawler_online VNone "none" "gopher"
              Sample.user Cases.read_only) as [_ Hinfo].
  - intros path. by eexists.
  - reflexivity.
  - exact Hinfo.
Defined.

(** X2: saving twice under one name keeps the second document only, and no
    other file changes: nothing is merged or kept across runs. *)
Theorem last_save_wins
    (self : crawler.RedditCrawler) (data1 data2 : value) (filename : string) (w : world) :
  open_error w (filepath_of self filename) Writing = None →
  let w1 := (crawler._save_to_json self data1 filename w).2 in
  let w2 := (crawler._save_to_json self data2 filename w1).2 in
  files w2 =
    <[filepath_of self filename :=
        JsonText (json_encode (output_data_of (clock w (S (ticks w))).1 data2 filename))]>
      (files w) ∧
  files w2 = files (crawler._save_to_json self data2 filename (set_ticks S w)).2.
Proof.
  intros Hopen w1 w2. subst w1 w2. rewrite !_save_to_json_run. simpl.
  unfold saved. simpl. rewrite Hopen. simpl. rewrite Hopen. simpl.
  split; [apply insert_insert_eq | by rewrite insert_insert_eq].
Qed.

Lemma last_save_wins_witness :
  let w1 := (crawler._save_to_json Sample.crawler_online (VInt 1) "probe" Sample.blank).2 in
  let w2 := (crawler._save_to_json Sample.crawler_online (VInt 2) "probe" w1).2 in
  files w2 =
    <[filepath_of Sample.crawler_online "probe" :=
        JsonText (json_encode (output_data_of Sample.noon (VInt 2) "probe"))]>
      (files Sample.blank) ∧
  files w2 =
    files (crawler._save_to_json Sample.crawler_online (VInt 2) "probe"
             (set_ticks S Sample.blank)).2.
Proof.
  apply (last_save_wins Sample.crawler_online (VInt 1) (VInt 2) "probe" Sample.blank).
  reflexivity.
Defined.

(* ===================================================================== *)
(** * Which files a run can change                                        *)
(* ===================================================================== *)

Section written_files.

(** X3: each method of [crawler.py] changes no file but its own: the one named
    after the kind of document and the user.  [get_active_subreddits] also
    rewrites the activity file through its call of
    [get_user_recent_activity]. *)
Theorem methods_write_their_own_files
    (self : crawler.RedditCrawler) (username : string) (limit : Z) :
  touches_only [filepath_of self ("user_public_info_" +:+ username)]
    (crawler.get_user_public_info self username) ∧
  touches_only [filepath_of self ("user_recent_activity_" +:+ username)]
    (crawler.get_user_recent_activity self username limit) ∧
  touches_only [filepath_of self ("user_recent_activity_" +:+ username);
                filepath_of self ("active_subreddits_" +:+ username)]
    (crawler.get_active_subreddits self username limit) ∧
  touches_only [filepath_of self "my_subscriptions"] (crawler.get_my_subscriptions self) ∧
  touches_only [filepath_of self "my_friends"] (crawler.get_my_friends self).
Proof.
  split_and!.
  - apply touches_only_public_info.
  - apply touches_only_recent_activity.
  - apply touches_only_active_subreddits.
  - apply touches_only_subscriptions.
  - apply touches_only_friends.
Qed.

(** X4: a complete crawl of one user leaves the four files of every other
    user as they are: the names of the files of two users differ.  The
    names are taken without a slash, so that each file name is one component
    of its path. *)
Theorem crawl_leaves_other_users_files
    (self : crawler.RedditCrawler) (username other : string) (w : world) (p : string) :
  plain username → plain other →
  username ≠ other →
  p ∈ crawl_files self other →
  files (crawler.crawl_user_complete self username w).2 !! p = files w !! p.
Proof.
  intros Hplain1 Hplain2 Hne Hin. apply touches_only_crawl.
  by apply (crawl_files_disjoint self other username); [| |congruence|].
Qed.

Lemma crawl_leaves_other_users_files_witness :
  plain "gopher" ∧ plain "ferris" ∧
  "reddit_data/crawl_summary_ferris.json" ∈ crawl_files Sample.crawler_online "ferris" ∧
  files (crawler.crawl_user_complete Sample.crawler_online "gopher" Sample.blank).2
    !! "reddit_data/crawl_summary_ferris.json"
  = files Sample.blank !! "reddit_data/crawl_summary_ferris.json".
Proof.
  assert ("gopher" ≠ "ferris") as Hne by discriminate.
  assert ("reddit_data/crawl_summary_ferris.json" ∈ crawl_files Sample.crawler_online "ferris")
    as Hin by (vm_compute; set_solver).
  split; [reflexivity|]. split; [reflexivity|]. split; [exact Hin|].
  exact (crawl_leaves_other_users_files Sample.crawler_online "gopher" "ferris"
           Sample.blank _ eq_refl eq_refl Hne Hin).
Defined.



(** X6: the variant of [main.py] writes no file: every method leaves the file
    system as it found it. *)
Theorem main_writes_no_file
    (self : main.RedditCrawler) (username : string) (limit : Z) (w : world) :
  files (main.get_user_public_info self username w).2 = files w ∧
  files (main.get_user_recent_activity self username limit w).2 = files w ∧
  files (main.get_active_subreddits self username limit w).2 = files w ∧
  files (main.get_my_subscriptions self w).2 = files w ∧
  files (main.get_my_friends self w).2 = files w.
Proof.
  destruct (main_touches_nothing self username limit) as (H1 & H2 & H3 & H4 & H5).
  split_and!; apply map_eq; intros p;
    [apply H1|apply H2|apply H3|apply H4|apply H5]; set_solver.
Qed.

End written_files.

(* ===================================================================== *)
(** * More on the credentials                                             *)
(* ===================================================================== *)

Section loading.

(** The credentials in force before the validation: the choice of the
    source always returns, changes no file and loses no key. *)
Lemma source_choice_run w :
  ∃ credentials w1,
    (if negb (from_option truthy false (dict_get "client_id" (env_credentials w))) &&
        bool_decide (is_Some (files w !! "secrets.json"))
     then
       '(credentials, failure) ←
         try_except
           (file_credentials ← read_json "secrets.json";
            mret (crawler.credentials_update (env_credentials w) file_credentials))
           (λ e, mret (env_credentials w, Some e));
       match failure with
       | None => print "loaded credentials from secrets.json"
       | Some e => print ("error loading secrets.json: " +:+ str_exn e)
       end;;
       mret credentials
     else mret (env_credentials w)) w = (Return credentials, w1) ∧
    files w1 = files w ∧ open_error w1 = open_error w ∧
    (∀ k, is_Some (dict_get k (env_credentials w)) → is_Some (dict_get k credentials)).
Proof.
  destruct (negb _ && _); [|by eexists _, _].
  assert (∃ credentials failure,
            try_except
              (file_credentials ← read_json "secrets.json";
               mret (crawler.credentials_update (env_credentials w) file_credentials))
              (λ e, mret (env_credentials w, Some e)) w =
              (Return (credentials, failure), w) ∧
            (∀ k, is_Some (dict_get k (env_credentials w)) →
                  is_Some (dict_get k credentials)))
    as (credentials & failure & Htry & Hkeys).
  { unfold try_except, read_json, mbind, py_bind, mret, py_ret.
    destruct (open_error w "secrets.json" Reading) as [msg|]; [by eexists _, _|].
    destruct (files w !! "secrets.json") as [[doc|text]|]; [|by eexists _, _..].
    destruct (crawler.credentials_update (env_credentials w) (json_decode doc))
      as [credentials failure] eqn:Hupdate.
    exists credentials, failure. split; [done|]. intros k Hk.
    pose proof (credentials_update_keeps (env_credentials w) (json_decode doc) k Hk)
      as Hkept.
    by rewrite Hupdate in Hkept. }
  erewrite bind_returns; [|exact Htry]. cbv beta iota.
  destruct failure as [e|]; by eexists _, _.
Qed.

End loading.

(** X7: credentials that are returned are usable: the client id and the client
    secret are there and true, none of the five fields has been dropped, and
    no file was changed on the way. *)
Theorem loaded_credentials_are_complete
    (w w' : world) (credentials : pydict value) :
  crawler._load_credentials w = (Return credentials, w') →
  present "client_id" credentials ∧ present "client_secret" credentials ∧
  (∀ k, k ∈ ["client_id"; "client_secret"; "user_agent"; "username"; "password"] →
        is_Some (dict_get k credentials)) ∧
  files w' = files w.
Proof.
  rewrite _load_credentials_start.
  destruct (source_choice_run w) as (c & w1 & Hrun & Hfiles & Hopen & Hkeys).
  erewrite bind_returns; [|exact Hrun].
  rewrite validation_run by (apply Hkeys; by eexists).
  unfold present, validated.
  destruct (from_option truthy false (dict_get "client_id" c)) eqn:Hid;
    destruct (from_option truthy false (dict_get "client_secret" c)) eqn:Hsecret;
    cbn [andb];
    try (destruct (files w1 !! "secrets.json"), (open_error w1 "secrets.json" Writing);
         discriminate).
  intros [= <- <-]. split_and!; [done..| |done].
  intros k Hk. apply Hkeys.
  repeat (apply elem_of_cons in Hk as [->|Hk]; [by eexists|]).
  by apply elem_of_nil in Hk.
Qed.

Lemma loaded_credentials_are_complete_witness :
  ∃ credentials w',
    crawler._load_credentials Sample.mixed = (Return credentials, w') ∧
    present "client_id" credentials ∧ present "client_secret" credentials ∧
    (∀ k, k ∈ ["client_id"; "client_secret"; "user_agent"; "username"; "password"] →
          is_Some (dict_get k credentials)) ∧
    files w' = files Sample.mixed.
Proof.
  do 2 eexists. split; [by vm_compute|].
  apply (loaded_credentials_are_complete Sample.mixed). by vm_compute.
Defined.

(** X8: a load that fails leaves either the fatal [ValueError], and then a
    [secrets.json] exists afterwards, or the [OSError] of the template that
    could not be written, and then nothing has changed.  No other exception
    leaves [_load_credentials]. *)
Theorem failed_load_outcomes (w w' : world) (e : pyexn) :
  crawler._load_credentials w = (Raise e, w') →
  (e = credentials_error ∧ is_Some (files w' !! "secrets.json")) ∨
  (∃ msg, e = OSError msg ∧ open_error w "secrets.json" Writing = Some msg ∧
          files w !! "secrets.json" = None ∧ files w' = files w).
Proof.
  rewrite _load_credentials_start.
  destruct (source_choice_run w) as (c & w1 & Hrun & Hfiles & Hopen & Hkeys).
  erewrite bind_returns; [|exact Hrun].
  rewrite validation_run by (apply Hkeys; by eexists).
  clear Hrun. unfold validated.
  destruct (from_option truthy false (dict_get "client_id" c) && _); [done|].
  rewrite Hfiles, Hopen.
  destruct (files w !! "secrets.json") as [content|] eqn:Hfile.
  - intros [= <- <-]. left. split; [done|].
    unfold with_template. rewrite Hfiles, Hfile, Hfiles, Hfile. eauto.
  - destruct (open_error w "secrets.json" Writing) as [msg|] eqn:Hwrite.
    + intros [= <- <-]. right. by exists msg.
    + intros [= <- <-]. left. split; [done|].
      unfold with_template. rewrite Hfiles, Hfile. simpl.
      rewrite lookup_insert_eq. eauto.
Qed.

Lemma failed_load_outcomes_witness :
  (∃ w', crawler._load_credentials Sample.blank = (Raise credentials_error, w') ∧
         is_Some (files w' !! "secrets.json")) ∧
  (∃ w', crawler._load_credentials Cases.read_only =
           (Raise (OSError "permission denied"), w') ∧
         files w' = files Cases.read_only).
Proof.
  assert (crawler._load_credentials Sample.blank =
            (Raise credentials_error, with_template Sample.blank)) as Hblank
    by (by vm_compute).
  assert (crawler._load_credentials Cases.read_only =
            (Raise (OSError "permission denied"), Cases.read_only)) as Hsealed
    by (by vm_compute).
  split.
  - eexists. split; [exact Hblank|].
    destruct (failed_load_outcomes Sample.blank _ _ Hblank)
      as [[_ Hthere]|(msg & Hmsg & _)]; [exact Hthere | discriminate Hmsg].
  - eexists. split; [exact Hsealed|].
    destruct (failed_load_outcomes Cases.read_only _ _ Hsealed)
      as [[Herr _]|(msg & _ & _ & _ & Hfiles)]; [discriminate Herr | exact Hfiles].
Defined.

(** X9: the template is a credentials file the loader accepts: after a load
    that failed for want of any credentials and created the template, the
    next load returns the placeholders of the template as credentials. *)
Theorem template_is_accepted_on_reload (w : world) :
  missing "client_id" (env_credentials w) →
  files w !! "secrets.json" = None →
  open_error w "secrets.json" Writing = None →
  open_error w "secrets.json" Reading = None →
  ∃ w1 credentials w2,
    crawler._load_credentials w = (Raise credentials_error, w1) ∧
    files w1 !! "secrets.json" = Some (JsonText template_document) ∧
    crawler._load_credentials w1 = (Return credentials, w2) ∧
    dict_get "client_id" credentials = Some (VStr "your_reddit_client_id_here") ∧
    dict_get "client_secret" credentials = Some (VStr "your_reddit_client_secret_here") ∧
    files w2 = files w1.
Proof.
  intros Hid Hfile Hwrite Hread.
  assert (files (with_template w) !! "secrets.json" = Some (JsonText template_document))
    as Htemplate.
  { unfold with_template. rewrite Hfile. simpl. apply lookup_insert_eq. }
  assert (crawler._load_credentials w = (Raise credentials_error, with_template w))
    as Hfirst.
  { rewrite load_from_environment by (by right).
    apply validated_fails; by left. }
  assert (env_credentials (with_template w) = env_credentials w) as Henv.
  { unfold with_template. by rewrite Hfile. }
  assert (open_error (with_template w) = open_error w) as Hopen.
  { unfold with_template. by rewrite Hfile. }
  destruct (load_from_file (with_template w) _ ltac:(by rewrite Henv) Htemplate
              ltac:(by rewrite Hopen))
    as (from_file & merged & Hdecode & Hget & Hsecond).
  injection Hdecode as <-.
  assert (dict_get "client_id" merged = Some (VStr "your_reddit_client_id_here"))
    as Hmid by (by rewrite Hget).
  assert (dict_get "client_secret" merged = Some (VStr "your_reddit_client_secret_here"))
    as Hmsecret by (by rewrite Hget).
  rewrite validated_returns in Hsecond
    by (unfold present; by first [rewrite Hmid | rewrite Hmsecret]).
  eexists _, merged, _. split_and!; [exact Hfirst | exact Htemplate | exact Hsecond | done..].
Qed.

Lemma template_is_accepted_on_reload_witness :
  ∃ w1 credentials w2,
    crawler._load_credentials Sample.blank = (Raise credentials_error, w1) ∧
    files w1 !! "secrets.json" = Some (JsonText template_document) ∧
    crawler._load_credentials w1 = (Return credentials, w2) ∧
    dict_get "client_id" credentials = Some (VStr "your_reddit_client_id_here") ∧
    dict_get "client_secret" credentials = Some (VStr "your_reddit_client_secret_here") ∧
    files w2 = files w1.
Proof.
  apply (template_is_accepted_on_reload Sample.blank); reflexivity.
Defined.

(* ===================================================================== *)
(** * The listings, item by item                                          *)
(* ===================================================================== *)

Section listing_runs.
Import Praw Worlds.

(** A loop over a listing whose body updates its variables and sleeps: the
    items are folded in order, one sleep each, and the failure of the
    listing, if any, comes last. *)
Lemma for_listing_napping {A S} (g : A → S → S) (l : listing A) (vars : S) w :
  for_listing l (λ a vars, sleep_tenth;; mret (g a vars)) vars w =
  (match failure l with
   | Some e => Raise e
   | None => Return (foldl (λ vars a, g a vars) vars (items l))
   end,
   set_naps (λ n, n + length (items l)) w).
Proof.
  destruct (failure l) as [e|] eqn:Hfail.
  - by apply for_listing_napping_fails.
  - by apply for_listing_napping_returns.
Qed.

Lemma try_except_passes {A} (body : py A) (handler : pyexn → py A) e w w' :
  body w = (Raise e, w') → is_Exception e = false →
  try_except body handler w = (Raise e, w').
Proof. intros Hbody He. unfold try_except. by rewrite Hbody, He. Qed.

Lemma activity_error_None net username limit :
  activity_error net username limit = None ↔
  failure (limited (Some limit) (submissions_new net username)) = None ∧
  failure (limited (Some limit) (comments_new net username)) = None.
Proof.
  unfold activity_error.
  destruct (failure (limited (Some limit) (submissions_new net username))); naive_solver.
Qed.

Lemma naps_saved self data filename w : naps (saved self data filename w) = naps w.
Proof. unfold saved. by destruct (open_error w _ Writing). Qed.

Lemma ticks_saved self data filename w : ticks (saved self data filename w) = S (ticks w).
Proof. unfold saved. by destruct (open_error w _ Writing). Qed.

Lemma main_activity_run self username limit w :
  let submissions := limited (Some limit) (submissions_new (main.reddit self) username) in
  let comments := limited (Some limit) (comments_new (main.reddit self) username) in
  failure submissions = None → failure comments = None →
  main.get_user_recent_activity self username limit w =
    (Return {| main.recent_posts := main.post_of <$> items submissions;
               main.recent_comments := main.comment_of <$> items comments |},
     set_naps (λ n, n + length (items comments))
       (set_naps (λ n, n + length (items submissions)) w)).
Proof.
  intros submissions comments Hsub Hcom.
  unfold main.get_user_recent_activity, try_except.
  erewrite bind_returns.
  2: apply (for_listing_napping_returns (λ a acc, acc ++ [main.post_of a])), Hsub.
  cbv beta.
  erewrite bind_returns.
  2: apply (for_listing_napping_returns (λ a acc, acc ++ [main.comment_of a])), Hcom.
  cbv beta. by rewrite !foldl_snoc.
Qed.

Lemma main_subscriptions_run self w :
  let listing := user_subreddits (main.reddit self) in
  failure listing = None →
  main.get_my_subscriptions self w =
    (Return (sorted (subreddit_display_name <$> items listing)),
     set_naps (λ n, n + length (items listing)) w).
Proof.
  intros listing Hfetch. unfold main.get_my_subscriptions, try_except.
  erewrite bind_returns.
  2: apply (for_listing_napping_returns (λ a acc, acc ++ [subreddit_display_name a])),
       Hfetch.
  cbv beta. by rewrite foldl_snoc.
Qed.

Lemma main_friends_run self w :
  let listing := user_friends (main.reddit self) in
  failure listing = None →
  main.get_my_friends self w =
    (Return (friend_name <$> items listing),
     set_naps (λ n, n + length (items listing)) w).
Proof.
  intros listing Hfetch. unfold main.get_my_friends, try_except.
  erewrite bind_returns.
  2: apply (for_listing_napping_returns (λ a acc, acc ++ [friend_name a])), Hfetch.
  cbv beta. by rewrite foldl_snoc.
Qed.

(** ** Failures [except Exception] lets through *)

Lemma crawler_public_info_passes self username e w :
  redditor (crawler.reddit self) username = Raise e → is_Exception e = false →
  crawler.get_user_public_info self username w = (Raise e, w).
Proof.
  intros Hfetch He. unfold crawler.get_user_public_info.
  apply try_except_passes; [|done]. apply bind_raises. unfold lift. by rewrite Hfetch.
Qed.

Lemma main_public_info_passes self username e w :
  redditor (main.reddit self) username = Raise e → is_Exception e = false →
  main.get_user_public_info self username w = (Raise e, w).
Proof.
  intros Hfetch He. unfold main.get_user_public_info.
  apply try_except_passes; [|done]. apply bind_raises. unfold lift. by rewrite Hfetch.
Qed.

Lemma crawler_activity_passes self username limit e w :
  activity_error (crawler.reddit self) username limit = Some e →
  is_Exception e = false →
  crawler.get_user_recent_activity self username limit w =
    (Raise e, activity_interrupted (crawler.reddit self) username limit w).
Proof.
  unfold activity_error, activity_interrupted. intros Hfetch He.
  unfold crawler.get_user_recent_activity.
  destruct (failure (limited (Some limit) (submissions_new _ username)))
    as [e1|] eqn:Hsub.
  - simplify_eq. apply try_except_passes; [|done]. apply bind_raises.
    apply (for_listing_napping_fails (λ a acc, acc ++ [crawler.post_of a])), Hsub.
  - apply try_except_passes; [|done]. erewrite bind_returns.
    2: apply (for_listing_napping_returns (λ a acc, acc ++ [crawler.post_of a])), Hsub.
    apply bind_raises.
    apply (for_listing_napping_fails (λ a acc, acc ++ [crawler.comment_of a])), Hfetch.
Qed.

Lemma main_activity_passes self username limit e w :
  activity_error (main.reddit self) username limit = Some e →
  is_Exception e = false →
  main.get_user_recent_activity self username limit w =
    (Raise e, activity_interrupted (main.reddit self) username limit w).
Proof.
  unfold activity_error, activity_interrupted. intros Hfetch He.
  unfold main.get_user_recent_activity.
  destruct (failure (limited (Some limit) (submissions_new _ username)))
    as [e1|] eqn:Hsub.
  - simplify_eq. apply try_except_passes; [|done]. apply bind_raises.
    apply (for_listing_napping_fails (λ a acc, acc ++ [main.post_of a])), Hsub.
  - apply try_except_passes; [|done]. erewrite bind_returns.
    2: apply (for_listing_napping_returns (λ a acc, acc ++ [main.post_of a])), Hsub.
    apply bind_raises.
    apply (for_listing_napping_fails (λ a acc, acc ++ [main.comment_of a])), Hfetch.
Qed.

Lemma crawler_subscriptions_passes self e w :
  failure (user_subreddits (crawler.reddit self)) = Some e → is_Exception e = false →
  crawler.get_my_subscriptions self w =
    (Raise e,
     set_naps (λ n, n + length (items (user_subreddits (crawler.reddit self)))) w).
Proof.
  intros Hfetch He. unfold crawler.get_my_subscriptions.
  apply try_except_passes; [|done]. apply bind_raises.
  erewrite for_listing_ext.
  - apply (for_listing_napping_fails
             (λ a vars, (vars.1 ++ [subreddit_display_name a],
                         vars.2 ++ [crawler.subreddit_details_value a]))), Hfetch.
  - by intros a [subs details] w0.
Qed.

Lemma main_subscriptions_passes self e w :
  failure (user_subreddits (main.reddit self)) = Some e → is_Exception e = false →
  main.get_my_subscriptions self w =
    (Raise e, set_naps (λ n, n + length (items (user_subreddits (main.reddit self)))) w).
Proof.
  intros Hfetch He. unfold main.get_my_subscriptions.
  apply try_except_passes; [|done]. apply bind_raises.
  apply (for_listing_napping_fails (λ a acc, acc ++ [subreddit_display_name a])), Hfetch.
Qed.

Lemma crawler_friends_passes self e w :
  failure (user_friends (crawler.reddit self)) = Some e → is_Exception e = false →
  crawler.get_my_friends self w =
    (Raise e, set_naps (λ n, n + length (items (user_friends (crawler.reddit self)))) w).
Proof.
  intros Hfetch He. unfold crawler.get_my_friends.
  apply try_except_passes; [|done]. apply bind_raises.
  erewrite for_listing_ext.
  - apply (for_listing_napping_fails
             (λ a vars, (vars.1 ++ [friend_name a],
                         vars.2 ++ [crawler.friend_details_value a]))), Hfetch.
  - by intros a [friends details] w0.
Qed.

Lemma main_friends_passes self e w :
  failure (user_friends (main.reddit self)) = Some e → is_Exception e = false →
  main.get_my_friends self w =
    (Raise e, set_naps (λ n, n + length (items (user_friends (main.reddit self)))) w).
Proof.
  intros Hfetch He. unfold main.get_my_friends.
  apply try_except_passes; [|done]. apply bind_raises.
  apply (for_listing_napping_fails (λ a acc, acc ++ [friend_name a])), Hfetch.
Qed.

Lemma crawler_aggregation_passes self username limit e w :
  activity_error (crawler.reddit self) username limit = Some e → is_Exception e = false →
  (crawler.get_active_subreddits self username limit w).1 = Raise e.
Proof.
  intros Hfetch He. unfold crawler.get_active_subreddits.
  erewrite bind_raises; [done|]. by apply crawler_activity_passes.
Qed.

Lemma main_aggregation_passes self username limit e w :
  activity_error (main.reddit self) username limit = Some e → is_Exception e = false →
  (main.get_active_subreddits self username limit w).1 = Raise e.
Proof.
  intros Hfetch He. unfold main.get_active_subreddits.
  erewrite bind_raises; [done|]. by apply main_activity_passes.
Qed.

End listing_runs.

Section listing_properties.
Import Praw Worlds.

(** The set of [main.py] and the set of [crawler.py] hold the same
    communities when run on the same listings. *)
Lemma collect_subreddits_same_set (submissions : list Submission) (comments : list Comment)
    subreddits subreddit_activity :
  crawler.collect_subreddits (crawler.post_of <$> submissions)
    (crawler.comment_of <$> comments) = Return (subreddits, subreddit_activity) →
  subreddits =
    main.collect_subreddits (main.post_of <$> submissions) (main.comment_of <$> comments).
Proof.
  intros Hrun.
  destruct (collect_subreddits_agrees (crawler.post_of <$> submissions)
              (crawler.comment_of <$> comments)) as (vars & Hrun' & Hagree).
  rewrite Hrun in Hrun'. injection Hrun' as <-.
  apply set_eq. intros c.
  rewrite (agrees_set _ _ _ Hagree c), main_collect_subreddits_elem, elem_of_app.
  cbn [fst]. by rewrite <- !list_fmap_compose.
Qed.

End listing_properties.

(** X10: on a listing that does not fail, [get_my_subscriptions] returns in both
    files the listed display names rearranged in ascending order: every
    name as often as it is listed, one sleep for each. *)
Theorem subscriptions_are_sorted_names
    (output_dir : string) (net : Praw.Reddit) (w : world) :
  Praw.failure (Praw.user_subreddits net) = None →
  let names := Praw.subreddit_display_name <$> Praw.items (Praw.user_subreddits net) in
  ∃ result w1 w2,
    crawler.get_my_subscriptions
      {| crawler.output_dir := output_dir; crawler.reddit := net |} w = (Return result, w1) ∧
    main.get_my_subscriptions {| main.reddit := net |} w = (Return result, w2) ∧
    result ≡ₚ names ∧ StronglySorted String.le result ∧
    naps w1 = naps w + length names ∧ naps w2 = naps w + length names.
Proof.
  intros Hfetch names.
  destruct (crawler_subscriptions_run
              {| crawler.output_dir := output_dir; crawler.reddit := net |} w Hfetch)
    as [Hrun1 _].
  pose proof (main_subscriptions_run {| main.reddit := net |} w Hfetch) as Hrun2.
  eexists _, _, _. split; [exact Hrun1|]. split; [exact Hrun2|].
  split_and!.
  - apply sorted_Permutation.
  - apply sorted_StronglySorted.
  - rewrite naps_saved. simpl. unfold names. by rewrite length_fmap.
  - simpl. unfold names. by rewrite length_fmap.
Qed.

Lemma subscriptions_are_sorted_names_witness :
  ∃ w1 w2,
    crawler.get_my_subscriptions Cases.crawler_authenticated Sample.blank =
      (Return ["golang"; "rust"], w1) ∧
    main.get_my_subscriptions Cases.main_authenticated Sample.blank =
      (Return ["golang"; "rust"], w2) ∧
    naps w1 = 2 ∧ naps w2 = 2.
Proof.
  destruct (subscriptions_are_sorted_names "reddit_data" Cases.authenticated Sample.blank
              eq_refl) as (result & w1 & w2 & Hrun1 & Hrun2 & _ & _ & Hnaps1 & Hnaps2).
  assert (result = ["golang"; "rust"]) as ->.
  { assert ((crawler.get_my_subscriptions Cases.crawler_authenticated Sample.blank).1 =
            Return ["golang"; "rust"]) as Hval by (by vm_compute).
    unfold Cases.crawler_authenticated in Hval. rewrite Hrun1 in Hval.
    by injection Hval. }
  exists w1, w2. split_and!; [exact Hrun1 | exact Hrun2 | exact Hnaps1 | exact Hnaps2].
Defined.

(** X11: [get_my_friends] returns in both files the listed names in the order of
    the listing, as often as listed: unlike the subscriptions they are not
    sorted. *)
Theorem friends_keep_listing_order
    (output_dir : string) (net : Praw.Reddit) (w : world) :
  Praw.failure (Praw.user_friends net) = None →
  let names := Praw.friend_name <$> Praw.items (Praw.user_friends net) in
  ∃ w1 w2,
    crawler.get_my_friends
      {| crawler.output_dir := output_dir; crawler.reddit := net |} w = (Return names, w1) ∧
    main.get_my_friends {| main.reddit := net |} w = (Return names, w2) ∧
    naps w1 = naps w + length names ∧ naps w2 = naps w + length names.
Proof.
  intros Hfetch names.
  destruct (crawler_friends_run
              {| crawler.output_dir := output_dir; crawler.reddit := net |} w Hfetch)
    as [Hrun1 _].
  pose proof (main_friends_run {| main.reddit := net |} w Hfetch) as Hrun2.
  eexists _, _. split; [exact Hrun1|]. split; [exact Hrun2|].
  split.
  - rewrite naps_saved. simpl. unfold names. by rewrite length_fmap.
  - simpl. unfold names. by rewrite length_fmap.
Qed.

Lemma friends_keep_listing_order_witness :
  ∃ w1 w2,
    crawler.get_my_friends Cases.crawler_authenticated Sample.blank =
      (Return ["zed"; "amy"], w1) ∧
    main.get_my_friends Cases.main_authenticated Sample.blank =
      (Return ["zed"; "amy"], w2) ∧
    naps w1 = 2 ∧ naps w2 = 2.
Proof.
  exact (friends_keep_listing_order "reddit_data" Cases.authenticated Sample.blank eq_refl).
Defined.

(** X12: when neither listing fails, [get_user_recent_activity] returns one
    post for each submission listed and one comment for each comment
    listed, in the order of the listings, after one sleep for each of them
    and one reading of the clock; the variant of [main.py] returns as many
    items after as many sleeps. *)
Theorem activity_sleeps_once_per_item
    (output_dir : string) (net : Praw.Reddit) (username : string) (limit : Z) (w : world) :
  activity_error net username limit = None →
  let submissions := Praw.items (Praw.limited (Some limit) (Praw.submissions_new net username)) in
  let comments := Praw.items (Praw.limited (Some limit) (Praw.comments_new net username)) in
  ∃ w1 w2,
    crawler.get_user_recent_activity
      {| crawler.output_dir := output_dir; crawler.reddit := net |} username limit w =
      (Return {| crawler.recent_posts := crawler.post_of <$> submissions;
                 crawler.recent_comments := crawler.comment_of <$> comments |}, w1) ∧
    main.get_user_recent_activity {| main.reddit := net |} username limit w =
      (Return {| main.recent_posts := main.post_of <$> submissions;
                 main.recent_comments := main.comment_of <$> comments |}, w2) ∧
    naps w1 = naps w + length submissions + length comments ∧
    naps w2 = naps w1 ∧
    ticks w1 = S (ticks w) ∧ ticks w2 = ticks w.
Proof.
  intros [Hsub Hcom]%activity_error_None submissions comments.
  destruct (crawler_activity_run
              {| crawler.output_dir := output_dir; crawler.reddit := net |}
              username limit w Hsub Hcom) as [Hrun1 _].
  pose proof (main_activity_run {| main.reddit := net |} username limit w Hsub Hcom)
    as Hrun2.
  eexists _, _. split; [exact Hrun1|]. split; [exact Hrun2|].
  rewrite naps_saved, ticks_saved. done.
Qed.

Lemma activity_sleeps_once_per_item_witness :
  ∃ w1 w2,
    crawler.get_user_recent_activity Sample.crawler_online "gopher" 25 Sample.blank =
      (Return {| crawler.recent_posts := [Sample.post_go; Sample.post_rust];
                 crawler.recent_comments := [Sample.remark_go] |}, w1) ∧
    main.get_user_recent_activity {| main.reddit := Sample.online |} "gopher" 25
      Sample.blank =
      (Return {| main.recent_posts :=
                   main.post_of <$> [Sample.submission_go; Sample.submission_rust];
                 main.recent_comments := main.comment_of <$> [Sample.comment_go] |}, w2) ∧
    naps w1 = 3 ∧ naps w2 = naps w1 ∧ ticks w1 = 1 ∧ ticks w2 = 0.
Proof.
  exact (activity_sleeps_once_per_item "reddit_data" Sample.online "gopher" 25 Sample.blank
           eq_refl).
Defined.

(** X13: a failure that is not an [Exception] (an interrupt) is caught nowhere:
    it leaves the method that meets it, in both files; nothing is printed
    for it and no file changes.  A crawl interrupted in its first request
    has printed its first line and saved nothing. *)
Theorem interrupt_is_not_caught
    (output_dir : string) (net : Praw.Reddit) (username : string) (limit : Z)
    (e : pyexn) (w : world) :
  is_Exception e = false →
  let self1 := {| crawler.output_dir := output_dir; crawler.reddit := net |} in
  let self2 := {| main.reddit := net |} in
  (Praw.redditor net username = Raise e →
   crawler.get_user_public_info self1 username w = (Raise e, w) ∧
   main.get_user_public_info self2 username w = (Raise e, w) ∧
   crawler.crawl_user_complete self1 username w =
     (Raise e,
      set_stdout (λ out, out ++ ["starting complete crawl for user: " +:+ username]) w)) ∧
  (activity_error net username limit = Some e →
   ∃ w',
     crawler.get_user_recent_activity self1 username limit w = (Raise e, w') ∧
     crawler.get_active_subreddits self1 username limit w = (Raise e, w') ∧
     main.get_user_recent_activity self2 username limit w = (Raise e, w') ∧
     main.get_active_subreddits self2 username limit w = (Raise e, w') ∧
     files w' = files w ∧ stdout w' = stdout w) ∧
  (Praw.failure (Praw.user_subreddits net) = Some e →
   ∃ w',
     crawler.get_my_subscriptions self1 w = (Raise e, w') ∧
     main.get_my_subscriptions self2 w = (Raise e, w') ∧
     files w' = files w ∧ stdout w' = stdout w) ∧
  (Praw.failure (Praw.user_friends net) = Some e →
   ∃ w',
     crawler.get_my_friends self1 w = (Raise e, w') ∧
     main.get_my_friends self2 w = (Raise e, w') ∧
     files w' = files w ∧ stdout w' = stdout w).
Proof.
  intros He self1 self2. split_and!.
  - intros Hfetch. split_and!.
    + by apply crawler_public_info_passes.
    + by apply main_public_info_passes.
    + unfold crawler.crawl_user_complete.
      erewrite bind_returns; [|done]. apply bind_raises.
      by apply crawler_public_info_passes.
  - intros Hfetch.
    pose proof (crawler_activity_passes self1 username limit e w Hfetch He) as Hrun1.
    pose proof (main_activity_passes self2 username limit e w Hfetch He) as Hrun2.
    eexists. split; [exact Hrun1|]. split_and!.
    + unfold crawler.get_active_subreddits. by apply bind_raises.
    + exact Hrun2.
    + unfold main.get_active_subreddits. by apply bind_raises.
    + simpl. unfold Worlds.activity_interrupted. by destruct (Praw.failure _).
    + simpl. unfold Worlds.activity_interrupted. by destruct (Praw.failure _).
  - intros Hfetch. eexists. split; [by apply crawler_subscriptions_passes|].
    split; [by apply (main_subscriptions_passes self2)|]. done.
  - intros Hfetch. eexists. split; [by apply crawler_friends_passes|].
    split; [by apply (main_friends_passes self2)|]. done.
Qed.

Lemma interrupt_is_not_caught_witness :
  is_Exception KeyboardInterrupt = false ∧
  crawler.get_user_public_info (Sample.crawler_failing KeyboardInterrupt) "gopher"
    Sample.blank = (Raise KeyboardInterrupt, Sample.blank) ∧
  main.get_user_public_info {| main.reddit := Sample.failing KeyboardInterrupt |} "gopher"
    Sample.blank = (Raise KeyboardInterrupt, Sample.blank) ∧
  crawler.crawl_user_complete (Sample.crawler_failing KeyboardInterrupt) "gopher"
    Sample.blank =
    (Raise KeyboardInterrupt,
     set_stdout (λ out, out ++ ["starting complete crawl for user: " +:+ "gopher"])
       Sample.blank).
Proof.
  split; [reflexivity|].
  destruct (interrupt_is_not_caught "reddit_data" (Sample.failing KeyboardInterrupt)
              "gopher" 25 KeyboardInterrupt Sample.blank eq_refl) as [Hinfo _].
  exact (Hinfo eq_refl).
Defined.

(** X14: the two files compute the same results.  On the same platform and
    from the same world, the methods of [crawler.py] and of [main.py] end
    the same way: the same list of active communities, of subscriptions
    and of friends, or the same exception; the profile of [crawler.py] is
    the profile of [main.py] followed, when the fetch succeeded, by the one
    field [account_age_days]. *)
Theorem variants_agree
    (output_dir : string) (net : Praw.Reddit) (username : string) (limit : Z) (w : world) :
  let self1 := {| crawler.output_dir := output_dir; crawler.reddit := net |} in
  let self2 := {| main.reddit := net |} in
  (crawler.get_active_subreddits self1 username limit w).1 =
    (main.get_active_subreddits self2 username limit w).1 ∧
  (crawler.get_my_subscriptions self1 w).1 = (main.get_my_subscriptions self2 w).1 ∧
  (crawler.get_my_friends self1 w).1 = (main.get_my_friends self2 w).1 ∧
  match (main.get_user_public_info self2 username w).1 with
  | Return (VDict fields) =>
      ∃ more,
        (crawler.get_user_public_info self1 username w).1 = Return (VDict (fields ++ more)) ∧
        (more = [] ∧ fields = [] ∨
         ∃ age, more = [("account_age_days", VFloat age)] ∧ length fields = 6)
  | Return _ => False
  | Raise e => (crawler.get_user_public_info self1 username w).1 = Raise e
  end.
Proof.
  intros self1 self2. split_and!.
  - destruct (activity_error net username limit) as [e|] eqn:Herr.
    + destruct (is_Exception e) eqn:He.
      * destruct (crawler_aggregation_proceeds self1 username limit e w Herr He)
          as (w1 & _ & Hrun1).
        rewrite Hrun1. symmetry.
        by apply (main_aggregation_proceeds self2 username limit e w).
      * rewrite (crawler_aggregation_passes self1 username limit e w Herr He).
        by rewrite (main_aggregation_passes self2 username limit e w Herr He).
    + apply activity_error_None in Herr as [Hsub Hcom].
      destruct (crawler_activity_run self1 username limit w Hsub Hcom) as [Hrun1 _].
      pose proof (main_activity_run self2 username limit w Hsub Hcom) as Hrun2.
      destruct (crawler_active_subreddits_run self1 username limit w _ _ Hrun1)
        as (s & d & Hcollect & Hresult & _).
      rewrite Hresult.
      rewrite (main_get_active_subreddits_run self2 username limit w _
                 ltac:(by rewrite Hrun2)).
      cbn [fst]. do 3 f_equal. by apply collect_subreddits_same_set in Hcollect.
  - destruct (Praw.failure (Praw.user_subreddits net)) as [e|] eqn:Hfetch.
    + destruct (is_Exception e) eqn:He.
      * destruct (crawler_subscriptions_degraded self1 e w Hfetch He) as (w1 & -> & _).
        destruct (main_subscriptions_degraded self2 e w Hfetch He) as (w2 & -> & _).
        done.
      * rewrite (crawler_subscriptions_passes self1 e w Hfetch He).
        by rewrite (main_subscriptions_passes self2 e w Hfetch He).
    + destruct (crawler_subscriptions_run self1 w Hfetch) as [-> _].
      by rewrite (main_subscriptions_run self2 w Hfetch).
  - destruct (Praw.failure (Praw.user_friends net)) as [e|] eqn:Hfetch.
    + destruct (is_Exception e) eqn:He.
      * destruct (crawler_friends_degraded self1 e w Hfetch He) as (w1 & -> & _).
        destruct (main_friends_degraded self2 e w Hfetch He) as (w2 & -> & _).
        done.
      * rewrite (crawler_friends_passes self1 e w Hfetch He).
        by rewrite (main_friends_passes self2 e w Hfetch He).
    + destruct (crawler_friends_run self1 w Hfetch) as [-> _].
      by rewrite (main_friends_run self2 w Hfetch).
  - destruct (Praw.redditor net username) as [user|e] eqn:Hfetch.
    + destruct (crawler_public_info_run self1 username user w Hfetch) as [-> _].
      unfold main.get_user_public_info, try_except.
      erewrite bind_returns; [|by unfold lift; simpl; rewrite Hfetch].
      cbn [fst]. eexists. split; [reflexivity|]. right. by eexists.
    + destruct (is_Exception e) eqn:He.
      * destruct (crawler_public_info_degraded self1 username e w Hfetch He)
          as (w1 & -> & _).
        destruct (main_public_info_degraded self2 username e w Hfetch He)
          as (w2 & -> & _).
        exists []. split; [done|]. by left.
      * rewrite (crawler_public_info_passes self1 username e w Hfetch He).
        by rewrite (main_public_info_passes self2 username e w Hfetch He).
Qed.

(** X15: a listing that fails part-way gives nothing: the items already listed
    are dropped from the result, in both files, although each has cost its
    sleep.  For the activity this includes the posts, all listed, when it is
    the listing of comments that fails. *)
Theorem failed_fetch_discards_and_sleeps
    (output_dir : string) (net : Praw.Reddit) (username : string) (limit : Z)
    (e : pyexn) (w : world) :
  is_Exception e = true →
  let self1 := {| crawler.output_dir := output_dir; crawler.reddit := net |} in
  let self2 := {| main.reddit := net |} in
  let submissions := Praw.limited (Some limit) (Praw.submissions_new net username) in
  let comments := Praw.limited (Some limit) (Praw.comments_new net username) in
  (Praw.failure submissions = None → Praw.failure comments = Some e →
   ∃ w',
     crawler.get_user_recent_activity self1 username limit w =
       (Return {| crawler.recent_posts := []; crawler.recent_comments := [] |}, w') ∧
     main.get_user_recent_activity self2 username limit w =
       (Return {| main.recent_posts := []; main.recent_comments := [] |}, w') ∧
     naps w' =
       naps w + length (Praw.items submissions) + length (Praw.items comments)) ∧
  (Praw.failure (Praw.user_subreddits net) = Some e →
   ∃ w',
     crawler.get_my_subscriptions self1 w = (Return [], w') ∧
     main.get_my_subscriptions self2 w = (Return [], w') ∧
     naps w' = naps w + length (Praw.items (Praw.user_subreddits net))) ∧
  (Praw.failure (Praw.user_friends net) = Some e →
   ∃ w',
     crawler.get_my_friends self1 w = (Return [], w') ∧
     main.get_my_friends self2 w = (Return [], w') ∧
     naps w' = naps w + length (Praw.items (Praw.user_friends net))).
Proof.
  intros He self1 self2 submissions comments. split_and!.
  - intros Hsub Hcom. eexists. split_and!.
    + unfold crawler.get_user_recent_activity.
      erewrite try_except_catches; [reflexivity| |exact He].
      erewrite bind_returns.
      2: apply (for_listing_napping_returns (λ a acc, acc ++ [crawler.post_of a])), Hsub.
      apply bind_raises.
      apply (for_listing_napping_fails (λ a acc, acc ++ [crawler.comment_of a])), Hcom.
    + unfold main.get_user_recent_activity.
      erewrite try_except_catches; [reflexivity| |exact He].
      erewrite bind_returns.
      2: apply (for_listing_napping_returns (λ a acc, acc ++ [main.post_of a])), Hsub.
      apply bind_raises.
      apply (for_listing_napping_fails (λ a acc, acc ++ [main.comment_of a])), Hcom.
    + done.
  - intros Hfetch. eexists. split_and!.
    + unfold crawler.get_my_subscriptions.
      erewrite try_except_catches; [reflexivity| |exact He].
      apply bind_raises. erewrite for_listing_ext.
      * apply (for_listing_napping_fails
                 (λ a vars, (vars.1 ++ [Praw.subreddit_display_name a],
                             vars.2 ++ [crawler.subreddit_details_value a]))), Hfetch.
      * by intros a [subs details] w0.
    + unfold main.get_my_subscriptions.
      erewrite try_except_catches; [reflexivity| |exact He].
      apply bind_raises.
      apply (for_listing_napping_fails (λ a acc, acc ++ [Praw.subreddit_display_name a])),
        Hfetch.
    + done.
  - intros Hfetch. eexists. split_and!.
    + unfold crawler.get_my_friends.
      erewrite try_except_catches; [reflexivity| |exact He].
      apply bind_raises. erewrite for_listing_ext.
      * apply (for_listing_napping_fails
                 (λ a vars, (vars.1 ++ [Praw.friend_name a],
                             vars.2 ++ [crawler.friend_details_value a]))), Hfetch.
      * by intros a [friends details] w0.
    + unfold main.get_my_friends.
      erewrite try_except_catches; [reflexivity| |exact He].
      apply bind_raises.
      apply (for_listing_napping_fails (λ a acc, acc ++ [Praw.friend_name a])), Hfetch.
    + done.
Qed.

Lemma failed_fetch_discards_and_sleeps_witness :
  ∃ w',
    crawler.get_user_recent_activity
      {| crawler.output_dir := "reddit_data"; crawler.reddit := Cases.interrupted_listing |}
      "gopher" 25 Sample.blank =
      (Return {| crawler.recent_posts := []; crawler.recent_comments := [] |}, w') ∧
    main.get_user_recent_activity {| main.reddit := Cases.interrupted_listing |}
      "gopher" 25 Sample.blank =
      (Return {| main.recent_posts := []; main.recent_comments := [] |}, w') ∧
    naps w' = 3.
Proof.
  destruct (failed_fetch_discards_and_sleeps "reddit_data" Cases.interrupted_listing
              "gopher" 25 (RequestException "connection reset") Sample.blank eq_refl)
    as [Hactivity _].
  exact (Hactivity eq_refl eq_refl).
Defined.

(* ===================================================================== *)
(** * The complete crawl                                                  *)
(* ===================================================================== *)

Section complete_crawl.
Import Praw.

(** The world a crawl leaves, given how its two fetches ended. *)
Lemma crawl_user_complete_world self username w info w1 active_subs w2 :
  let w0 := set_stdout (λ out, out ++ ["starting complete crawl for user: " +:+ username]) w in
  crawler.get_user_public_info self username w0 = (Return info, w1) →
  crawler.get_active_subreddits self username 100 w1 = (Return active_subs, w2) →
  let data :=
    crawler.summary_value username (isoformat (clock w2 (ticks w2)).1) info active_subs in
  crawler.crawl_user_complete self username w =
    (Return data,
     set_stdout
       (λ out, out ++ ["completed crawl for " +:+ username +:+ ". found activity in " +:+
                       pretty (len active_subs) +:+ " subreddits."])
       (saved self data ("crawl_summary_" +:+ username) (set_ticks S w2))).
Proof.
  intros w0 Hinfo Hsubs data.
  unfold crawler.crawl_user_complete.
  erewrite bind_returns; [|done]. fold w0.
  erewrite bind_returns; [|done]. cbv beta.
  erewrite bind_returns; [|done]. cbv beta.
  erewrite bind_returns; [|done].
  destruct (clock w2 (ticks w2)) as [now posix] eqn:Hclock. cbv beta iota.
  erewrite bind_returns; [|apply _save_to_json_run].
  erewrite bind_returns; [|done]. done.
Qed.

(** Short of an interrupt the profile step returns. *)
Lemma crawler_public_info_returns self username w :
  (∀ e, redditor (crawler.reddit self) username = Raise e → is_Exception e = true) →
  ∃ info w1,
    crawler.get_user_public_info self username w = (Return info, w1) ∧
    (info = VDict [] ∨ ∃ user posix_now, info = crawler.user_info_value user posix_now).
Proof.
  intros Hcaught.
  destruct (redditor (crawler.reddit self) username) as [user|e] eqn:Hfetch.
  - destruct (crawler_public_info_run self username user w Hfetch) as [Hrun _].
    eexists _, _. split; [exact Hrun|]. right. eauto.
  - destruct (crawler_public_info_degraded self username e w Hfetch (Hcaught e eq_refl))
      as (w1 & Hrun & _).
    eexists _, _. split; [exact Hrun|]. by left.
Qed.

(** Short of an interrupt the aggregation returns, in ascending order. *)
Lemma crawler_active_subreddits_returns self username limit w :
  (∀ e, activity_error (crawler.reddit self) username limit = Some e →
        is_Exception e = true) →
  ∃ active_subs w1,
    crawler.get_active_subreddits self username limit w = (Return active_subs, w1) ∧
    ascending active_subs.
Proof.
  intros Hcaught.
  destruct (activity_error (crawler.reddit self) username limit) as [e|] eqn:Herr.
  - destruct (crawler_aggregation_proceeds self username limit e w Herr (Hcaught e eq_refl))
      as (w1 & _ & Hrun).
    eexists _, _. split; [exact Hrun|]. constructor.
  - apply activity_error_None in Herr as [Hsub Hcom].
    destruct (crawler_activity_run self username limit w Hsub Hcom) as [Hrun1 _].
    destruct (crawler_active_subreddits_run self username limit w _ _ Hrun1)
      as (s & d & _ & Hrun & _).
    eexists _, _. split; [exact Hrun|]. apply sorted_ascending, NoDup_elements.
Qed.

End complete_crawl.

(** X16: whatever the platform answers, short of an interrupt, a complete crawl
    runs to its end: it returns a summary whose profile is empty or full
    and whose communities are in ascending order, its first line of output
    announces the crawl and its last one reports the number of communities
    of the summary, and the summary is in its file if the file can be
    written. *)
Theorem crawl_always_completes
    (self : crawler.RedditCrawler) (username : string) (w : world) :
  catchable (crawler.reddit self) username 100 →
  ∃ crawl_timestamp info active_subs w' middle,
    let summary := crawler.summary_value username crawl_timestamp info active_subs in
    crawler.crawl_user_complete self username w = (Return summary, w') ∧
    (info = VDict [] ∨ ∃ user posix_now, info = crawler.user_info_value user posix_now) ∧
    ascending active_subs ∧
    stdout w' =
      stdout w ++ ["starting complete crawl for user: " +:+ username] ++ middle ++
      ["completed crawl for " +:+ username +:+ ". found activity in " +:+
       pretty (len active_subs) +:+ " subreddits."] ∧
    (open_error w (filepath_of self ("crawl_summary_" +:+ username)) Writing = None →
     ∃ now,
       files w' !! filepath_of self ("crawl_summary_" +:+ username) =
         Some (JsonText (json_encode
                 (output_data_of now summary ("crawl_summary_" +:+ username))))).
Proof.
  intros [Hinfo Hactivity].
  set (w0 := set_stdout
               (λ out, out ++ ["starting complete crawl for user: " +:+ username]) w).
  destruct (crawler_public_info_returns self username w0 Hinfo)
    as (info & w1 & Hrun1 & Hshape).
  destruct (crawler_active_subreddits_returns self username 100 w1 Hactivity)
    as (active_subs & w2 & Hrun2 & Hsorted).
  pose proof (advances_public_info self username w0) as Hlater1.
  pose proof (advances_active_subreddits self username 100 w1) as Hlater2.
  rewrite Hrun1 in Hlater1. rewrite Hrun2 in Hlater2. simpl in Hlater1, Hlater2.
  pose proof (later_trans _ _ _ Hlater1 Hlater2) as Hlater.
  destruct (later_stdout _ _ Hlater) as [middle Hout].
  pose proof (crawl_user_complete_world self username w _ _ _ _ Hrun1 Hrun2) as Hrun.
  cbv zeta in Hrun.
  set (summary := crawler.summary_value username (isoformat (clock w2 (ticks w2)).1)
                    info active_subs) in *.
  set (line := "completed crawl for " +:+ username +:+ ". found activity in " +:+
               pretty (len active_subs) +:+ " subreddits.") in *.
  set (path := filepath_of self ("crawl_summary_" +:+ username)).
  assert (open_error w2 = open_error w) as Hopen
    by (rewrite (later_open_error _ _ Hlater); done).
  destruct (open_error w path Writing) as [msg|] eqn:Hpath.
  - exists (isoformat (clock w2 (ticks w2)).1), info, active_subs.
    eexists. exists (middle ++ ["error saving crawl_summary_" +:+ username +:+ ": " +:+ msg]).
    split; [exact Hrun|]. split_and!; [done..| |done].
    unfold saved. fold path. simpl. rewrite Hopen, Hpath. simpl. rewrite Hout.
    subst w0. simpl. by rewrite <- !app_assoc.
  - exists (isoformat (clock w2 (ticks w2)).1), info, active_subs.
    eexists.
    exists (middle ++ ["saved crawl_summary_" +:+ username +:+ " data to: " +:+ path]).
    split; [exact Hrun|]. split_and!; [done..| |].
    + unfold saved. fold path. simpl. rewrite Hopen, Hpath. simpl. rewrite Hout.
      subst w0. simpl. by rewrite <- !app_assoc.
    + intros _. eexists. unfold saved. fold path. simpl. rewrite Hopen, Hpath. simpl.
      apply lookup_insert_eq.
Qed.

Lemma crawl_always_completes_witness :
  catchable (crawler.reddit (Sample.crawler_failing (NotFound "no such user")))
    "nobody" 100 ∧
  ∃ crawl_timestamp w',
    crawler.crawl_user_complete (Sample.crawler_failing (NotFound "no such user"))
      "nobody" Sample.blank =
      (Return (crawler.summary_value "nobody" crawl_timestamp (VDict []) []), w') ∧
    last (stdout w') =
      Some "completed crawl for nobody. found activity in 0 subreddits.".
Proof.
  assert (catchable (crawler.reddit (Sample.crawler_failing (NotFound "no such user")))
            "nobody" 100) as Hcatch.
  { split; intros e [= <-]; reflexivity. }
  split; [exact Hcatch|].
  destruct (crawl_always_completes (Sample.crawler_failing (NotFound "no such user"))
              "nobody" Sample.blank Hcatch)
    as (ts & info & subs & w' & middle & Hrun & _ & _ & Hout & _).
  assert ((crawler.crawl_user_complete (Sample.crawler_failing (NotFound "no such user"))
             "nobody" Sample.blank).1 =
          Return (crawler.summary_value "nobody" "2024-02-29T12:00:05.000250" (VDict []) []))
    as Hval by (by vm_compute).
  rewrite Hrun in Hval. unfold crawler.summary_value in Hval.
  injection Hval as Hts Hinfo _ Hsubs.
  apply fmap_nil_inv in Hsubs. subst ts info subs.
  exists "2024-02-29T12:00:05.000250", w'. split; [exact Hrun|].
  rewrite Hout, !app_assoc. by rewrite last_snoc.
Defined.

(* ===================================================================== *)
(** * The documents                                                       *)
(* ===================================================================== *)

Section documents.
Import Praw Documents.

(** The keys of the dictionary after one of the two loops: every new
    community goes to the end. *)
Lemma record_activity_keys {A} (bump : crawler.counts → crawler.counts)
    (tag : A → string) (xs : list A) (s : gset string) (d : pydict crawler.counts) :
  ∃ s' d',
    for_in xs (λ a, crawler.record_activity bump (tag a)) (s, d) = Return (s', d') ∧
    d'.*1 = foldl (λ seen x, if decide (x ∈ seen) then seen else seen ++ [x]) d.*1
              (tag <$> xs).
Proof.
  revert s d. induction xs as [|a xs IH]; intros s d; [by eexists _, _|].
  cbn [for_in]. rewrite record_activity_returns. cbn [mbind outcome_bind].
  destruct (IH ({[tag a]} ∪ s)
              (dict_set (tag a)
                 (bump (default (crawler.Counts 0 0) (dict_get (tag a) d))) d))
    as (s' & d' & Hrun & Hkeys).
  exists s', d'. split; [exact Hrun|]. rewrite Hkeys, dict_set_keys. done.
Qed.

Lemma collect_subreddits_keys (posts : list crawler.post) (comments : list crawler.comment) :
  ∃ subreddits subreddit_activity,
    crawler.collect_subreddits posts comments = Return (subreddits, subreddit_activity) ∧
    subreddit_activity.*1 =
      first_seen ((crawler.post_subreddit <$> posts) ++
                  (crawler.comment_subreddit <$> comments)).
Proof.
  unfold crawler.collect_subreddits, first_seen.
  destruct (record_activity_keys crawler.add_post crawler.post_subreddit posts ∅ [])
    as (s1 & d1 & Hrun1 & Hkeys1).
  destruct (record_activity_keys crawler.add_comment crawler.comment_subreddit comments
              s1 d1) as (s2 & d2 & Hrun2 & Hkeys2).
  exists s2, d2. rewrite Hrun1. cbn [mbind outcome_bind]. split; [exact Hrun2|].
  by rewrite Hkeys2, Hkeys1, foldl_app.
Qed.

Lemma open_error_later w w' path mode :
  later w w' → open_error w' path mode = open_error w path mode.
Proof. intros Hlater. by rewrite (later_open_error _ _ Hlater). Qed.

End documents.

(** X17: the document [get_active_subreddits] persists is consistent with
    itself and with the returned list: [subreddits_list] is the returned
    list, [total_active_subreddits] is its length and the number of entries
    of [detailed_activity], and the keys of [detailed_activity] are the
    names of the list, in the order in which the communities first appear
    among the posts and then among the comments. *)
Theorem active_subreddits_document_consistent
    (username : string) (posts : list crawler.post) (comments : list crawler.comment) :
  ∃ subreddits subreddit_activity entries,
    crawler.collect_subreddits posts comments = Return (subreddits, subreddit_activity) ∧
    let result := sorted (list_of_set subreddits) in
    let document :=
      crawler.active_subreddits_data_value username subreddits subreddit_activity in
    Documents.field "subreddits_list" document = Some (VList (VStr <$> result)) ∧
    Documents.field "total_active_subreddits" document = Some (VInt (len result)) ∧
    Documents.field "detailed_activity" document = Some (VDict entries) ∧
    length entries = length result ∧
    entries.*1 ≡ₚ result ∧
    entries.*1 =
      Documents.first_seen ((crawler.post_subreddit <$> posts) ++
                            (crawler.comment_subreddit <$> comments)).
Proof.
  destruct (collect_subreddits_keys posts comments) as (s & d & Hrun & Hkeys).
  destruct (collect_subreddits_agrees posts comments) as (vars & Hrun' & Hagree).
  rewrite Hrun in Hrun'. injection Hrun' as <-.
  pose proof (agrees_keys_elements _ _ _ Hagree) as Hperm. simpl in Hperm.
  assert (((λ kv : string * crawler.counts, (kv.1, crawler.counts_value kv.2)) <$> d).*1 =
          d.*1) as Hfst.
  { rewrite <- list_fmap_compose. by apply list_fmap_ext. }
  exists s, d. eexists. split; [exact Hrun|]. cbv zeta.
  split_and!; [done| |done| | |].
  - simpl. do 2 f_equal. unfold len, list_of_set.
    by rewrite (Permutation_length (sorted_Permutation _)).
  - rewrite length_fmap, <- (length_fmap fst d), Hperm.
    by rewrite (Permutation_length (sorted_Permutation _)).
  - rewrite Hfst, Hperm. symmetry. apply sorted_Permutation.
  - by rewrite Hfst.
Qed.

(** X18: what a method returns is what it has written, or nothing was
    written.  With every file writable: after a successful fetch the profile
    returned by [get_user_public_info] is the [data] of its file, and the
    lists returned by [get_my_subscriptions] and [get_my_friends] are the
    lists [subscriptions_list] and [friends_list] of the documents in their
    files, whose totals are the lengths of the lists; after a failed fetch
    the method returns its empty result and has changed no file, so that a
    document of an earlier run stays in the file.  [get_active_subreddits]
    writes the list it returns whenever it returns. *)
Theorem returned_results_are_persisted
    (self : crawler.RedditCrawler) (username : string) (limit : Z) (w : world) :
  (∀ path, open_error w path Writing = None) →
  (∀ info w',
     crawler.get_user_public_info self username w = (Return info, w') →
     (∃ user now,
        Praw.redditor (crawler.reddit self) username = Return user ∧
        Documents.holds w' (filepath_of self ("user_public_info_" +:+ username))
          (output_data_of now info ("user_public_info_" +:+ username))) ∨
     (∃ e,
        Praw.redditor (crawler.reddit self) username = Raise e ∧
        info = VDict [] ∧ files w' = files w)) ∧
  (∀ result w',
     crawler.get_active_subreddits self username limit w = (Return result, w') →
     ∃ now data,
       Documents.holds w' (filepath_of self ("active_subreddits_" +:+ username))
         (output_data_of now data ("active_subreddits_" +:+ username)) ∧
       Documents.field "subreddits_list" data = Some (VList (VStr <$> result)) ∧
       Documents.field "total_active_subreddits" data = Some (VInt (len result))) ∧
  (∀ result w',
     crawler.get_my_subscriptions self w = (Return result, w') →
     (Praw.failure (Praw.user_subreddits (crawler.reddit self)) = None ∧
      ∃ now data,
        Documents.holds w' (filepath_of self "my_subscriptions")
          (output_data_of now data "my_subscriptions") ∧
        Documents.field "subscriptions_list" data = Some (VList (VStr <$> result)) ∧
        Documents.field "total_subscriptions" data = Some (VInt (len result))) ∨
     (∃ e,
        Praw.failure (Praw.user_subreddits (crawler.reddit self)) = Some e ∧
        result = [] ∧ files w' = files w)) ∧
  (∀ result w',
     crawler.get_my_friends self w = (Return result, w') →
     (Praw.failure (Praw.user_friends (crawler.reddit self)) = None ∧
      ∃ now data,
        Documents.holds w' (filepath_of self "my_friends")
          (output_data_of now data "my_friends") ∧
        Documents.field "friends_list" data = Some (VList (VStr <$> result)) ∧
        Documents.field "total_friends" data = Some (VInt (len result))) ∨
     (∃ e,
        Praw.failure (Praw.user_friends (crawler.reddit self)) = Some e ∧
        result = [] ∧ files w' = files w)).
Proof.
  intros Hopen. split_and!.
  - intros info w' Hrun.
    destruct (Praw.redditor (crawler.reddit self) username) as [user|e] eqn:Hfetch.
    + destruct (crawler_public_info_run self username user w Hfetch) as [Hrun' _].
      rewrite Hrun in Hrun'. injection Hrun' as -> ->.
      left. eexists _, _. split; [done|]. apply files_saved, Hopen.
    + right. exists e. split; [done|]. destruct (is_Exception e) eqn:He.
      * destruct (crawler_public_info_degraded self username e w Hfetch He)
          as (w1 & Hrun' & _ & Hfiles).
        rewrite Hrun in Hrun'. by injection Hrun' as -> ->.
      * rewrite (crawler_public_info_passes self username e w Hfetch He) in Hrun.
        discriminate Hrun.
  - intros result w' Hrun.
    pose proof (advances_recent_activity self username limit w) as Hlater.
    destruct (crawler.get_user_recent_activity self username limit w)
      as [[activity|e] w1] eqn:Hactivity.
    + destruct (crawler_active_subreddits_run self username limit w _ _ Hactivity)
        as (s & d & _ & Hrun' & _).
      rewrite Hrun in Hrun'. injection Hrun' as -> ->.
      eexists _, _. split; [|split].
      * apply files_saved. rewrite (open_error_later w w1) by done. apply Hopen.
      * done.
      * simpl. do 2 f_equal. unfold len, list_of_set.
        by rewrite (Permutation_length (sorted_Permutation _)).
    + unfold crawler.get_active_subreddits in Hrun.
      erewrite bind_raises in Hrun; [|exact Hactivity]. discriminate Hrun.
  - intros result w' Hrun.
    destruct (Praw.failure (Praw.user_subreddits (crawler.reddit self)))
      as [e|] eqn:Hfetch.
    + right. exists e. split; [done|]. destruct (is_Exception e) eqn:He.
      * destruct (crawler_subscriptions_degraded self e w Hfetch He)
          as (w1 & Hrun' & _ & Hfiles).
        rewrite Hrun in Hrun'. by injection Hrun' as -> ->.
      * rewrite (crawler_subscriptions_passes self e w Hfetch He) in Hrun.
        discriminate Hrun.
    + left. split; [done|].
      destruct (crawler_subscriptions_run self w Hfetch) as [Hrun' _].
      rewrite Hrun in Hrun'. injection Hrun' as -> ->.
      eexists _, _. split; [|split].
      * apply files_saved. apply Hopen.
      * done.
      * simpl. do 2 f_equal. unfold len.
        by rewrite (Permutation_length (sorted_Permutation _)).
  - intros result w' Hrun.
    destruct (Praw.failure (Praw.user_friends (crawler.reddit self)))
      as [e|] eqn:Hfetch.
    + right. exists e. split; [done|]. destruct (is_Exception e) eqn:He.
      * destruct (crawler_friends_degraded self e w Hfetch He)
          as (w1 & Hrun' & _ & Hfiles).
        rewrite Hrun in Hrun'. by injection Hrun' as -> ->.
      * rewrite (crawler_friends_passes self e w Hfetch He) in Hrun.
        discriminate Hrun.
    + left. split; [done|].
      destruct (crawler_friends_run self w Hfetch) as [Hrun' _].
      rewrite Hrun in Hrun'. injection Hrun' as -> ->.
      eexists _, _. split; [|split].
      * apply files_saved. apply Hopen.
      * done.
      * done.
Qed.

Lemma returned_results_are_persisted_witness :
  (∃ w' now data,
     crawler.get_my_subscriptions Cases.crawler_authenticated Sample.blank =
       (Return ["golang"; "rust"], w') ∧
     Documents.holds w' "reddit_data/my_subscriptions.json"
       (output_data_of now data "my_subscriptions") ∧
     Documents.field "subscriptions_list" data =
       Some (VList [VStr "golang"; VStr "rust"]) ∧
     Documents.field "total_subscriptions" data = Some (VInt 2)) ∧
  (∃ w',
     crawler.get_my_friends (Sample.crawler_failing (Forbidden "private")) Cases.stale =
       (Return [], w') ∧
     files w' = files Cases.stale ∧
     is_Some (files w' !! "reddit_data/my_friends.json")).
Proof.
  split.
  - assert (crawler.get_my_subscriptions Cases.crawler_authenticated Sample.blank =
              (Return ["golang"; "rust"],
               (crawler.get_my_subscriptions Cases.crawler_authenticated Sample.blank).2))
      as Hrun by (by vm_compute).
    destruct (returned_results_are_persisted Cases.crawler_authenticated "gopher" 25
                Sample.blank (λ _, eq_refl)) as (_ & _ & Hsubscriptions & _).
    destruct (Hsubscriptions _ _ Hrun)
      as [(_ & now & data & Hfile & Hlist & Htotal)|(e & Hfail & _)];
      [|discriminate Hfail].
    eexists _, now, data. split_and!; [exact Hrun | exact Hfile | exact Hlist | exact Htotal].
  - assert (crawler.get_my_friends (Sample.crawler_failing (Forbidden "private"))
              Cases.stale =
              (Return [],
               (crawler.get_my_friends (Sample.crawler_failing (Forbidden "private"))
                  Cases.stale).2))
      as Hrun by (by vm_compute).
    destruct (returned_results_are_persisted (Sample.crawler_failing (Forbidden "private"))
                "gopher" 25 Cases.stale (λ _, eq_refl)) as (_ & _ & _ & Hfriends).
    destruct (Hfriends _ _ Hrun) as [[Hfail _]|(e & _ & _ & Hfiles)];
      [discriminate Hfail|].
    eexists. split; [exact Hrun|]. split; [exact Hfiles|].
    rewrite Hfiles. by eexists.
Defined.

(** X19: the description stored for a subscription (lines 302-304) is [None]
    exactly when the community has none; a text of at most 200 characters
    is stored unchanged, a longer one as its first 200 characters followed
    by three dots, so that no stored description exceeds 203 characters. *)
Theorem subscription_description_truncated (subreddit : Praw.Subreddit) :
  ∃ stored,
    Documents.field "description" (crawler.subreddit_details_value subreddit) = Some stored ∧
    match Praw.subreddit_public_description subreddit with
    | None => stored = VNone
    | Some text =>
        ∃ kept,
          stored = VStr kept ∧ String.length kept ≤ 203 ∧
          (String.length text ≤ 200 → kept = text) ∧
          (200 < String.length text →
           ∃ head, kept = head +:+ "..." ∧ String.length head = 200 ∧
                   String.prefix head text = true)
    end.
Proof.
  eexists. split; [reflexivity|].
  destruct (Praw.subreddit_public_description subreddit) as [text|]; [|done].
  exists (crawler.truncate_body text). split_and!.
  - unfold crawler.description_value, crawler.truncate_body. by destruct (_ >? _)%Z.
  - pose proof (truncate_body_length text). lia.
  - intros Hshort. by apply truncate_body_short.
  - intros Hlong. exists (slice_to 200 text). split_and!.
    + by apply truncate_body_long.
    + rewrite length_slice_to. lia.
    + apply slice_to_prefix.
Qed.

(* ===================================================================== *)
(** * Robustness                                                          *)
(* ===================================================================== *)

(** X20: no [Exception] leaves a method of either file: an exception that
    leaves one is a failure of the platform that [except Exception] lets
    through, an interrupt.  Failures to save, to decode and to look up are
    all handled inside. *)
Theorem only_interrupts_escape
    (output_dir : string) (net : Praw.Reddit) (username : string) (limit : Z) :
  let self1 := {| crawler.output_dir := output_dir; crawler.reddit := net |} in
  let self2 := {| main.reddit := net |} in
  (∀ data filename, escapes (interrupt_of net) (crawler._save_to_json self1 data filename)) ∧
  escapes (interrupt_of net) (crawler.get_user_public_info self1 username) ∧
  escapes (interrupt_of net) (crawler.get_user_recent_activity self1 username limit) ∧
  escapes (interrupt_of net) (crawler.get_active_subreddits self1 username limit) ∧
  escapes (interrupt_of net) (crawler.get_my_subscriptions self1) ∧
  escapes (interrupt_of net) (crawler.get_my_friends self1) ∧
  escapes (interrupt_of net) (crawler.crawl_user_complete self1 username) ∧
  escapes (interrupt_of net) (main.get_user_public_info self2 username) ∧
  escapes (interrupt_of net) (main.get_user_recent_activity self2 username limit) ∧
  escapes (interrupt_of net) (main.get_active_subreddits self2 username limit) ∧
  escapes (interrupt_of net) (main.get_my_subscriptions self2) ∧
  escapes (interrupt_of net) (main.get_my_friends self2).
Proof.
  intros self1 self2. split_and!.
  - intros data filename. apply escapes_save.
  - apply (escapes_public_info self1).
  - apply (escapes_recent_activity self1).
  - apply (escapes_active_subreddits self1).
  - apply (escapes_subscriptions self1).
  - apply (escapes_friends self1).
  - apply (escapes_crawl self1).
  - apply (main_escapes_public_info self2).
  - apply (main_escapes_recent_activity self2).
  - apply (main_escapes_active_subreddits self2).
  - apply (main_escapes_subscriptions self2).
  - apply (main_escapes_friends self2).
Qed.

(** X21: on a platform that raises no interrupt every method of both files
    returns, from every world and whatever fails on the way. *)
Theorem methods_always_return
    (output_dir : string) (net : Praw.Reddit) (username : string) (limit : Z) (w : world) :
  interrupt_free net →
  let self1 := {| crawler.output_dir := output_dir; crawler.reddit := net |} in
  let self2 := {| main.reddit := net |} in
  (∃ info w', crawler.get_user_public_info self1 username w = (Return info, w')) ∧
  (∃ activity w',
     crawler.get_user_recent_activity self1 username limit w = (Return activity, w')) ∧
  (∃ result w', crawler.get_active_subreddits self1 username limit w = (Return result, w')) ∧
  (∃ result w', crawler.get_my_subscriptions self1 w = (Return result, w')) ∧
  (∃ result w', crawler.get_my_friends self1 w = (Return result, w')) ∧
  (∃ summary w', crawler.crawl_user_complete self1 username w = (Return summary, w')) ∧
  (∃ info w', main.get_user_public_info self2 username w = (Return info, w')) ∧
  (∃ activity w',
     main.get_user_recent_activity self2 username limit w = (Return activity, w')) ∧
  (∃ result w', main.get_active_subreddits self2 username limit w = (Return result, w')) ∧
  (∃ result w', main.get_my_subscriptions self2 w = (Return result, w')) ∧
  (∃ result w', main.get_my_friends self2 w = (Return result, w')).
Proof.
  intros Hfree self1 self2.
  split_and!; apply (escapes_returns net); try done.
  - apply (escapes_public_info self1).
  - apply (escapes_recent_activity self1).
  - apply (escapes_active_subreddits self1).
  - apply (escapes_subscriptions self1).
  - apply (escapes_friends self1).
  - apply (escapes_crawl self1).
  - apply (main_escapes_public_info self2).
  - apply (main_escapes_recent_activity self2).
  - apply (main_escapes_active_subreddits self2).
  - apply (main_escapes_subscriptions self2).
  - apply (main_escapes_friends self2).
Qed.

Lemma methods_always_return_witness :
  interrupt_free (Sample.failing (Forbidden "private")) ∧
  (∃ result w',
     crawler.get_my_friends (Sample.crawler_failing (Forbidden "private")) Cases.read_only =
       (Return result, w')) ∧
  (∃ summary w',
     crawler.crawl_user_complete (Sample.crawler_failing (Forbidden "private")) "gopher"
       Cases.read_only = (Return summary, w')).
Proof.
  assert (interrupt_free (Sample.failing (Forbidden "private"))) as Hfree.
  { intros e [[u Hr]|[[u Hs]|[[u Hc]|[Hs|Hf]]]]; simpl in *; by simplify_eq. }
  split; [exact Hfree|].
  destruct (methods_always_return "reddit_data" (Sample.failing (Forbidden "private"))
              "gopher" 25 Cases.read_only Hfree)
    as (_ & _ & _ & _ & Hfriends & Hcrawl & _).
  split; [exact Hfriends | exact Hcrawl].
Defined.

(* ===================================================================== *)
(** * The entry point of crawler.py                                       *)
(* ===================================================================== *)

Section entry_point.
Import Praw.

(** What [main] does once the constructor has returned. *)
Lemma main_after_constructor RedditCrawler w self w1 :
  RedditCrawler "reddit_data" w = (Return self, w1) →
  interrupt_free (crawler.reddit self) →
  ∃ w2,
    later w1 w2 ∧
    crawler_script.main RedditCrawler w =
      (Return (),
       set_stdout
         (λ out, out ++
            [crawler_script.newline +:+
             "all data has been saved to json files in the 'reddit_data' directory."])
         w2).
Proof.
  intros Hbuilt Hfree.
  set (w1a := set_stdout
                (λ out, out ++ ["performing complete crawl for u/" +:+ "femmebxt" +:+ "..."])
                w1).
  destruct (escapes_returns (crawler.reddit self)
              (crawler.crawl_user_complete self "femmebxt") w1a Hfree
              (escapes_crawl self "femmebxt")) as (summary & w2 & Hcrawl).
  destruct (escapes_returns (crawler.reddit self)
              (crawler_script.personal_data self) w2 Hfree
              (escapes_personal_data self)) as ([] & w3 & Hpersonal).
  exists w3. split.
  - eapply later_trans.
    { apply (advances_print ("performing complete crawl for u/" +:+ "femmebxt" +:+ "...")
               w1). }
    change (print ("performing complete crawl for u/" +:+ "femmebxt" +:+ "...") w1).2
      with w1a.
    eapply later_trans.
    + pose proof (advances_crawl self "femmebxt" w1a) as Hlater.
      rewrite Hcrawl in Hlater. exact Hlater.
    + pose proof (advances_personal_data self w2) as Hlater.
      rewrite Hpersonal in Hlater. exact Hlater.
  - unfold crawler_script.main, crawler_script.try_except_ValueError.
    erewrite bind_returns; [|exact Hbuilt]. cbv zeta.
    erewrite bind_returns; [|done]. fold w1a.
    erewrite bind_returns; [|exact Hcrawl].
    erewrite bind_returns.
    2: { erewrite try_except_unneeded; [exact Hpersonal|apply escapes_personal_data|].
         by intros e [_ He]. }
    done.
Qed.

End entry_point.

(** X22: the inner [except Exception] of [main] is dead code: the calls in its
    [try] block handle every [Exception] themselves, so whatever the
    handler is, the block ends as it would without it. *)
Theorem personal_data_handler_is_dead
    (self : crawler.RedditCrawler) (handler : pyexn → py unit) (w : world) :
  try_except (crawler_script.personal_data self) handler w =
  crawler_script.personal_data self w.
Proof.
  apply (try_except_unneeded (interrupt_of (crawler.reddit self))).
  - apply escapes_personal_data.
  - by intros e [_ He].
Qed.

(** X23: when the constructor fails, [main] reports a [ValueError], the missing
    credentials, in six printed lines and returns; any other exception
    of the constructor leaves [main] as it came. *)
Theorem main_on_constructor_failure
    (RedditCrawler : string → py crawler.RedditCrawler) (w w1 : world) (e : pyexn) :
  RedditCrawler "reddit_data" w = (Raise e, w1) →
  (crawler_script.is_ValueError e = true →
   crawler_script.main RedditCrawler w =
     (Return (),
      set_stdout
        (λ out, out ++
           ["credential error: " +:+ str_exn e;
            crawler_script.newline +:+ "to fix this:";
            "1. set environment variables:";
            "   export REDDIT_CLIENT_ID='your_client_id'";
            "   export REDDIT_CLIENT_SECRET='your_client_secret'";
            "2. or update the generated secrets.json file with your credentials"])
        w1)) ∧
  (crawler_script.is_ValueError e = false →
   crawler_script.main RedditCrawler w = (Raise e, w1)).
Proof.
  intros Hbuilt. unfold crawler_script.main, crawler_script.try_except_ValueError.
  erewrite bind_raises; [|exact Hbuilt]. split; intros ->; [|done].
  unfold mbind, py_bind, print. simpl. f_equal.
  unfold set_stdout. simpl. f_equal. by rewrite <- !app_assoc.
Qed.

Lemma main_on_constructor_failure_witness :
  (∃ w1,
     Cases.constructed "reddit_data" Sample.blank =
       (Raise credentials_error, w1) ∧
     (crawler_script.main Cases.constructed
        Sample.blank).1 = Return ()) ∧
  (∃ w1,
     Cases.constructed "reddit_data" Cases.read_only =
       (Raise (OSError "permission denied"), w1) ∧
     crawler_script.main Cases.constructed
       Cases.read_only = (Raise (OSError "permission denied"), w1)).
Proof.
  split.
  - assert (Cases.constructed "reddit_data" Sample.blank =
              (Raise credentials_error, with_template Sample.blank)) as Hbuilt
      by (by vm_compute).
    eexists. split; [exact Hbuilt|].
    destruct (main_on_constructor_failure
                Cases.constructed
                Sample.blank _ _ Hbuilt) as [Hreported _].
    by rewrite (Hreported eq_refl).
  - assert (Cases.constructed "reddit_data" Cases.read_only =
              (Raise (OSError "permission denied"), Cases.read_only)) as Hbuilt
      by (by vm_compute).
    eexists. split; [exact Hbuilt|].
    destruct (main_on_constructor_failure
                Cases.constructed
                Cases.read_only _ _ Hbuilt) as [_ Hpassed].
    exact (Hpassed eq_refl).
Defined.

(** X24: once the constructor has returned, on a platform that raises no
    interrupt, [main] returns and its last line of output says that all data
    has been saved, whether or not anything was fetched or written: with no
    writable file, the files are as the constructor left them. *)
Theorem main_reports_success_regardless
    (RedditCrawler : string → py crawler.RedditCrawler) (w w1 : world)
    (self : crawler.RedditCrawler) :
  RedditCrawler "reddit_data" w = (Return self, w1) →
  interrupt_free (crawler.reddit self) →
  ∃ w',
    crawler_script.main RedditCrawler w = (Return (), w') ∧
    last (stdout w') =
      Some (crawler_script.newline +:+
            "all data has been saved to json files in the 'reddit_data' directory.") ∧
    ((∀ path, is_Some (open_error w1 path Writing)) → files w' = files w1).
Proof.
  intros Hbuilt Hfree.
  destruct (main_after_constructor RedditCrawler w self w1 Hbuilt Hfree)
    as (w2 & Hlater & Hrun).
  eexists. split; [exact Hrun|]. split.
  - simpl. by rewrite last_snoc.
  - intros Hdenied. simpl. by apply (later_files _ _ Hlater).
Qed.

Lemma main_reports_success_regardless_witness :
  interrupt_free (Sample.failing (RequestException "timed out")) ∧
  ∃ w',
    crawler_script.main
      (λ output_dir,
         mret {| crawler.output_dir := output_dir;
                 crawler.reddit := Sample.failing (RequestException "timed out") |})
      Cases.read_only = (Return (), w') ∧
    last (stdout w') =
      Some (crawler_script.newline +:+
            "all data has been saved to json files in the 'reddit_data' directory.") ∧
    files w' = ∅.
Proof.
  assert (interrupt_free (Sample.failing (RequestException "timed out"))) as Hfree.
  { intros e [[u Hr]|[[u Hs]|[[u Hc]|[Hs|Hf]]]]; simpl in *; by simplify_eq. }
  split; [exact Hfree|].
  destruct (main_reports_success_regardless
              (λ output_dir,
                 mret {| crawler.output_dir := output_dir;
                         crawler.reddit := Sample.failing (RequestException "timed out") |})
              Cases.read_only Cases.read_only
              {| crawler.output_dir := "reddit_data";
                 crawler.reddit := Sample.failing (RequestException "timed out") |}
              eq_refl Hfree)
    as (w' & Hrun & Hlast & Hfiles).
  exists w'. split; [exact Hrun|]. split; [exact Hlast|].
  apply Hfiles. intros path. by eexists.
Defined.
